(** * Muhurat suggestion engine: a shallow embedding and its properties

    The development follows the layout of the Python backend

      app/services/muhurat/config/settings.py
      app/services/muhurat/utils/kalam.py
      app/services/muhurat/utils/scoring.py
      app/services/muhurat/utils/qualities.py
      app/services/astrology/astrology_engine.py
      app/services/muhurat/engine/muhurat_engine.py

    Python values are represented as follows.
    - [int] is [Z]; [str] is [string]; [None]-able values are [option].
    - [float] values that the code only compares, adds or scales
      (longitudes in degrees, hours of the day, years) are exact
      rationals [Q]: every binary64 value is a rational, and the
      comparisons of the code are the comparisons of those rationals.
      Where the code rounds a float quotient (the final score) the model
      rounds the exact quotient; this is recalled at the definition.
    - [dict] with string keys is [gmap string _]; a subscript [d[k]] on a
      missing key raises [KeyError], [d.get(k)] returns [None].
    - exceptions are the [Raise] results of the monad [res]. *)

From Stdlib Require Import ZArith QArith Qround Lqa Lia Bool List.
From Stdlib Require Import String Ascii Sorting.Sorted Sorting.Permutation.
From stdpp Require Import gmap listset strings list sorting.

Local Open Scope string_scope.
Local Open Scope list_scope.
Local Open Scope Z_scope.

(** ** Exceptions and the result monad

    [OutOfFuel] is not a Python exception: it marks a [while] loop of the
    model that was given too little fuel.  Each loop is run with fuel that
    is shown to suffice, so it never surfaces. *)

Inductive pyexn : Type :=
| KeyError (key : string)
| ValueError (msg : string)
| IndexError
| OverflowError
| OutOfFuel.

Inductive res (A : Type) : Type :=
| Ok (a : A)
| Raise (e : pyexn).
Arguments Ok {A} a.
Arguments Raise {A} e.

Definition res_bind {A B} (f : A → res B) (m : res A) : res B :=
  match m with
  | Ok a => f a
  | Raise e => Raise e
  end.

#[global] Instance res_mret : MRet res := λ A a, Ok a.
#[global] Instance res_mbind : MBind res := λ A B f m, res_bind f m.

Definition is_Ok {A} (m : res A) : Prop := ∃ a, m = Ok a.

(** [d[k]] on a dictionary. *)
Definition getitem {V} (d : gmap string V) (k : string) : res V :=
  match d !! k with
  | Some v => Ok v
  | None => Raise (KeyError k)
  end.

(** [l[i]] on a list; a negative index counts from the end. *)
Definition list_getitem {A} (l : list A) (i : Z) : res A :=
  let j := if i <? 0 then Z.of_nat (length l) + i else i in
  if j <? 0 then Raise IndexError
  else match l !! Z.to_nat j with
       | Some v => Ok v
       | None => Raise IndexError
       end.

(** [l.index(x)]: the first position of [x], [ValueError] when absent. *)
Fixpoint list_index_from (x : string) (l : list string) (i : Z) : res Z :=
  match l with
  | [] => Raise (ValueError "is not in list")
  | y :: l' => if String.eqb y x then Ok i else list_index_from x l' (i + 1)
  end.
Definition list_index (l : list string) (x : string) : res Z :=
  list_index_from x l 0.

(** [x in s] for a set or list literal of strings. *)
Definition str_in (x : string) (s : list string) : bool :=
  existsb (String.eqb x) s.

(** [x in s] where [x] may be [None]: [None] is in no set of strings. *)
Definition opt_in (x : option string) (s : list string) : bool :=
  match x with
  | Some v => str_in v s
  | None => false
  end.

(** Truthiness of an optional string: [None] and [""] are falsy. *)
Definition truthy (x : option string) : bool :=
  match x with
  | Some "" => false
  | Some _ => true
  | None => false
  end.

(** ** The parts of Python's [datetime] that the engine uses *)

Module Py.

(** A [datetime.date]. *)
Record date : Type := mkdate { year : Z; month : Z; day : Z }.

Definition _is_leap (y : Z) : bool :=
  (y mod 4 =? 0) && (negb (y mod 100 =? 0) || (y mod 400 =? 0)).

Definition _days_before_year (y : Z) : Z :=
  let y' := y - 1 in y' * 365 + y' / 4 - y' / 100 + y' / 400.

Definition _days_in_month (y m : Z) : Z :=
  if m =? 2 then (if _is_leap y then 29 else 28)
  else if (m =? 4) || (m =? 6) || (m =? 9) || (m =? 11) then 30
  else 31.

(** [_DAYS_BEFORE_MONTH[m]] plus the leap day. *)
Definition _days_before_month (y m : Z) : Z :=
  nth (Z.to_nat m) [0; 0; 31; 59; 90; 120; 151; 181; 212; 243; 273; 304; 334] 0
  + (if (2 <? m) && _is_leap y then 1 else 0).

Definition toordinal (d : date) : Z :=
  _days_before_year (year d) + _days_before_month (year d) (month d) + day d.

(** [d.weekday()]: Monday is 0 and Sunday is 6. *)
Definition weekday (d : date) : Z := (toordinal d + 6) mod 7.

Definition valid_date (d : date) : Prop :=
  1 ≤ year d ≤ 9999 ∧ 1 ≤ month d ≤ 12 ∧
  1 ≤ day d ≤ _days_in_month (year d) (month d).

(** Dates compare as their (year, month, day) triples. *)
Definition date_compare (a b : date) : comparison :=
  match year a ?= year b with
  | Eq => match month a ?= month b with
          | Eq => day a ?= day b
          | c => c
          end
  | c => c
  end.
Definition date_leb (a b : date) : bool :=
  match date_compare a b with Gt => false | _ => true end.
Definition date_ltb (a b : date) : bool :=
  match date_compare a b with Lt => true | _ => false end.

(** [d + datetime.timedelta(days=1)]; past 9999-12-31 Python raises
    [OverflowError]. *)
Definition add_one_day (d : date) : res date :=
  if day d <? _days_in_month (year d) (month d)
  then Ok (mkdate (year d) (month d) (day d + 1))
  else if month d <? 12 then Ok (mkdate (year d) (month d + 1) 1)
  else if year d <? 9999 then Ok (mkdate (year d + 1) 1 1)
  else Raise OverflowError.

(** [(b - a).days]. *)
Definition days_between (a b : date) : Z := toordinal b - toordinal a.

(** One decimal digit as a character. *)
Definition digit (n : Z) : ascii := ascii_of_N (48 + Z.to_N (n mod 10)).

(** ["%02d" % n], for [0 <= n < 100]. *)
Definition fmt02 (n : Z) : string :=
  String (digit (n / 10)) (String (digit n) EmptyString).

(** ["%04d" % n], for [0 <= n < 10000]. *)
Definition fmt04 (n : Z) : string :=
  String (digit (n / 1000)) (String (digit (n / 100))
    (String (digit (n / 10)) (String (digit n) EmptyString))).

(** [d.isoformat()], that is ["%04d-%02d-%02d"]. *)
Definition isoformat (d : date) : string :=
  fmt04 (year d) +:+ "-" +:+ fmt02 (month d) +:+ "-" +:+ fmt02 (day d).

(** A naive [datetime.datetime] with the fields the engine reads. *)
Record datetime : Type := mkdatetime { dt_date : date; hour : Z; minute : Z }.

(** [results[:n]]: a negative [n] counts from the end. *)
Definition slice_to {A} (l : list A) (n : Z) : list A :=
  if n <? 0 then take (Z.to_nat (Z.of_nat (length l) + n)) l
  else take (Z.to_nat n) l.

(** [x % y] on floats, for [0 < y]: the result lies in [[0, y)]. *)
Definition fmod (x y : Q) : Q := (x - y * inject_Z (Qfloor (x / y)))%Q.

(** [int(x)] on a float: truncation towards zero. *)
Definition int_of_float (x : Q) : Z :=
  if Qle_bool 0 x then Qfloor x else Qceiling x.

(** [x < y] on floats. *)
Definition Qlt_bool (x y : Q) : bool := negb (Qle_bool y x).

(** Strings compare by code point, left to right. *)
Definition str_ltb (a b : string) : bool := String.ltb a b.
Definition str_leb (a b : string) : bool := String.leb a b.

(** [int(round(n / d * 100))] style rounding of the exact quotient
    [n / d], for [0 < d]: to the nearest integer, a tie goes to the even
    neighbour. *)
Definition round_half_even (n d : Z) : Z :=
  let q := n / d in
  let r := n mod d in
  if 2 * r <? d then q
  else if d <? 2 * r then q + 1
  else if Z.even q then q else q + 1.

End Py.

(** ** settings.py *)

Definition TIME_SLOT_MINUTES : Z := 30.
Definition DAY_START_HOUR : Z := 6.
Definition DAY_END_HOUR : Z := 20.
Definition HARD_CAP_MULTIPLIER : Z := 5.

Definition SHUBHA_NAKSHATRAS : list string :=
  ["Rohini"; "Mrigashira"; "Punarvasu"; "Pushya"; "Hasta"; "Anuradha";
   "Uttara Phalguni"; "Uttara Ashadha"; "Uttara Bhadrapada"; "Revati"].

Definition BENEFIC_RASHIS : list string :=
  ["Vrishabha (Taurus)"; "Karka (Cancer)"; "Tula (Libra)"; "Meena (Pisces)"].

Definition BENEFIC_TITHIS : list string :=
  ["Dvitiya"; "Tritiya"; "Panchami"; "Shashthi"; "Dashami"; "Ekadashi";
   "Trayodashi"; "Chaturdashi"].

Definition BENEFIC_YOGAS : list string :=
  ["Preeti"; "Ayushman"; "Saubhagya"; "Shobhana"; "Sukarma";
   "Dhriti"; "Vriddhi"; "Dhruva"; "Harshana"; "Vajra";
   "Siddhi"; "Variyana"; "Shiva"; "Siddha"; "Sadhya";
   "Shubha"; "Shukla"; "Brahma"; "Indra"].

Definition BENEFIC_KARANAS : list string :=
  ["Bava"; "Balava"; "Kaulava"; "Taitila"; "Gara"; "Vanija"].

Definition BENEFIC_LAGNAS : list string := BENEFIC_RASHIS.
Definition BENEFIC_JUPITER_RASHIS : list string := BENEFIC_RASHIS.

Definition BENEFIC_DASHA_LORDS : list string :=
  ["Jupiter"; "Venus"; "Mercury"; "Moon"].

(** Weekday to (start, end), in hours. *)
Definition RAHU_KALAM : gmap Z (Q * Q) :=
  list_to_map
    [(0, (7.5, 9.0)%Q); (1, (15.0, 16.5)%Q); (2, (12.0, 13.5)%Q);
     (3, (13.5, 15.0)%Q); (4, (10.5, 12.0)%Q); (5, (9.0, 10.5)%Q);
     (6, (16.5, 18.0)%Q)].

Definition WEIGHTS : gmap string Z :=
  list_to_map
    [("nakshatra", 3); ("rashi", 2); ("pada", 1); ("tithi", 2); ("yoga", 2);
     ("karana", 1); ("lagna", 2); ("eighth_house", 2); ("jupiter", 2);
     ("dasha", 2); ("parents_dasha", 2); ("lagna_friendship", 3);
     ("arrival_indicator", 3); ("dasha_sandhi", 2);
     ("jupiter_compensation", 2); ("dasha_clash", 3);
     ("ninth_house_strength", 2); ("fourth_house_strength", 2);
     ("baby_start_dasha", 2)].

Definition TRAIT_OPTIONS : list string :=
  ["health"; "intelligence"; "wealth"; "leadership"; "spiritual";
   "creativity"; "stability"; "compassion"; "courage"].

Definition TRAIT_PRIORITY_MULTIPLIERS : list Z := [3; 2; 1].

(** Trait to its weight deltas, in the order the dictionary literal lists
    them (the order in which [items()] yields them). *)
Definition TRAIT_WEIGHT_OVERRIDES : gmap string (list (string * Z)) :=
  list_to_map
    [("health", [("lagna", 2); ("tithi", 1)]);
     ("intelligence", [("yoga", 2); ("nakshatra", 1)]);
     ("wealth", [("rashi", 2); ("karana", 1)]);
     ("leadership", [("lagna", 2); ("nakshatra", 1)]);
     ("spiritual", [("tithi", 2); ("yoga", 1)]);
     ("creativity", [("nakshatra", 1); ("rashi", 1)]);
     ("stability", [("rashi", 1); ("lagna", 1)]);
     ("compassion", [("nakshatra", 1); ("tithi", 1)]);
     ("courage", [("lagna", 2); ("karana", 1)])].

(** ** kalam.py *)

(** [local_dt.hour + local_dt.minute / 60.0]. *)
Definition hour_of_day (local_dt : Py.datetime) : Q :=
  (inject_Z (Py.hour local_dt) + inject_Z (Py.minute local_dt) / 60)%Q.

Definition is_rahu_kalam (local_dt : Py.datetime) : bool :=
  let weekday := Py.weekday (Py.dt_date local_dt) in
  match RAHU_KALAM !! weekday with
  | None => false
  | Some (start, end_) =>
      let hour := hour_of_day local_dt in
      Qle_bool start hour && Qle_bool hour end_
  end.

(** ** astrology_engine.py: constant tables *)

Definition NAKSHATRA_LIST : list string :=
  ["Ashwini"; "Bharani"; "Krittika"; "Rohini"; "Mrigashira";
   "Ardra"; "Punarvasu"; "Pushya"; "Ashlesha";
   "Magha"; "Purva Phalguni"; "Uttara Phalguni";
   "Hasta"; "Chitra"; "Swati"; "Vishakha";
   "Anuradha"; "Jyeshtha"; "Mula";
   "Purva Ashadha"; "Uttara Ashadha"; "Shravana";
   "Dhanishta"; "Shatabhisha"; "Purva Bhadrapada";
   "Uttara Bhadrapada"; "Revati"].

(** [13 + 1 / 3] degrees. *)
Definition NAKSHATRA_SPAN : Q := (13 + 1 / 3)%Q.

Definition DASHA_SEQUENCE : list (string * Z) :=
  [("Ketu", 7); ("Venus", 20); ("Sun", 6); ("Moon", 10); ("Mars", 7);
   ("Rahu", 18); ("Jupiter", 16); ("Saturn", 19); ("Mercury", 17)].

Definition NAKSHATRA_LORDS : list string :=
  ["Ketu"; "Venus"; "Sun"; "Moon"; "Mars"; "Rahu"; "Jupiter"; "Saturn"; "Mercury";
   "Ketu"; "Venus"; "Sun"; "Moon"; "Mars"; "Rahu"; "Jupiter"; "Saturn"; "Mercury";
   "Ketu"; "Venus"; "Sun"; "Moon"; "Mars"; "Rahu"; "Jupiter"; "Saturn"; "Mercury"].

Definition PLANET_FRIENDS : gmap string (list string) :=
  list_to_map
    [("Sun", ["Moon"; "Mars"; "Jupiter"]);
     ("Moon", ["Sun"; "Mercury"]);
     ("Mars", ["Sun"; "Moon"; "Jupiter"]);
     ("Mercury", ["Sun"; "Venus"]);
     ("Jupiter", ["Sun"; "Moon"; "Mars"]);
     ("Venus", ["Mercury"; "Saturn"]);
     ("Saturn", ["Mercury"; "Venus"]);
     ("Rahu", ["Venus"; "Saturn"; "Mercury"]);
     ("Ketu", ["Mars"; "Jupiter"; "Sun"])].

(** ** The factor set and the parents' data *)

(** [astro["parents_dasha"]]: each parent's dasha lord at the slot; the
    empty dictionary is the record with both fields [None]. *)
Record ParentsDasha : Type := mkParentsDasha {
  pd_mother : option string;
  pd_father : option string
}.

(** The dictionary built by [calculate_astrology], with the fields the
    scoring and the scanner read; [utc_datetime] is the instant of the
    slot in seconds on the UTC time line, and [parents_dasha] is stored
    into the dictionary by the scanner. *)
Record Astro : Type := mkAstro {
  nakshatra : string;
  pada : Z;
  rashi : string;
  tithi : string;
  yoga : string;
  karana : string;
  lagna : string;
  lagna_lord : string;
  eighth_house_rashi : string;
  jupiter_rashi : string;
  jupiter_strong : option bool;
  dasha_lord : string;
  ninth_lord : option string;
  fourth_lord : option string;
  ninth_strength : Z;
  fourth_strength : Z;
  utc_datetime : Q;
  parents_dasha : option ParentsDasha
}.

(** [astro["parents_dasha"] = pd]. *)
Definition set_parents_dasha (astro : Astro) (pd : option ParentsDasha) : Astro :=
  mkAstro (nakshatra astro) (pada astro) (rashi astro) (tithi astro)
    (yoga astro) (karana astro) (lagna astro) (lagna_lord astro)
    (eighth_house_rashi astro) (jupiter_rashi astro) (jupiter_strong astro)
    (dasha_lord astro) (ninth_lord astro) (fourth_lord astro)
    (ninth_strength astro) (fourth_strength astro) (utc_datetime astro) pd.

(** One parent's entry of [parents_meta]; a missing key reads as [None]. *)
Record ParentMeta : Type := mkParentMeta {
  fifth_lord : option string;
  pm_ninth_lord : option string;
  pm_jupiter_strong : option bool
}.

(** A non-empty [parents_meta]; a missing parent is the empty entry. *)
Record ParentsMeta : Type := mkParentsMeta {
  meta_mother : ParentMeta;
  meta_father : ParentMeta
}.

(** ** scoring.py *)

Definition score_nakshatra (nakshatra : string) (weights : gmap string Z) : res Z :=
  if str_in nakshatra SHUBHA_NAKSHATRAS then getitem weights "nakshatra" else Ok 0.

Definition score_rashi (rashi : string) (weights : gmap string Z) : res Z :=
  if str_in rashi BENEFIC_RASHIS then getitem weights "rashi" else Ok 0.

Definition score_pada (pada : Z) (weights : gmap string Z) : res Z :=
  if (pada =? 1) || (pada =? 4) then getitem weights "pada" else Ok 0.

Definition score_tithi (tithi : string) (weights : gmap string Z) : res Z :=
  if str_in tithi BENEFIC_TITHIS then getitem weights "tithi" else Ok 0.

Definition score_yoga (yoga : string) (weights : gmap string Z) : res Z :=
  if str_in yoga BENEFIC_YOGAS then getitem weights "yoga" else Ok 0.

Definition score_karana (karana : string) (weights : gmap string Z) : res Z :=
  if str_in karana BENEFIC_KARANAS then getitem weights "karana" else Ok 0.

Definition score_lagna (lagna : string) (weights : gmap string Z) : res Z :=
  if str_in lagna BENEFIC_LAGNAS then getitem weights "lagna" else Ok 0.

Definition score_eighth_house (eighth_house_rashi : string)
    (weights : gmap string Z) : res Z :=
  if str_in eighth_house_rashi BENEFIC_LAGNAS
  then getitem weights "eighth_house" else Ok 0.

Definition score_jupiter (jupiter_rashi : string) (weights : gmap string Z) : res Z :=
  if str_in jupiter_rashi BENEFIC_JUPITER_RASHIS
  then getitem weights "jupiter" else Ok 0.

Definition score_dasha (dasha_lord : string) (weights : gmap string Z) : res Z :=
  if str_in dasha_lord BENEFIC_DASHA_LORDS then getitem weights "dasha" else Ok 0.

Definition score_parents_dasha (parents_dasha : option ParentsDasha)
    (weights : gmap string Z) : res Z :=
  match parents_dasha with
  | None => Ok 0
  | Some pd =>
      if opt_in (pd_mother pd) BENEFIC_DASHA_LORDS
         && opt_in (pd_father pd) BENEFIC_DASHA_LORDS
      then getitem weights "parents_dasha"
      else Ok 0
  end.

Definition score_lagna_friendship (baby_lagna_lord : string)
    (parents_dasha : option ParentsDasha) (weights : gmap string Z) : res Z :=
  match parents_dasha with
  | None => Ok 0
  | Some pd =>
      if negb (truthy (pd_mother pd)) || negb (truthy (pd_father pd)) then Ok 0
      else
        let friends := default [] (PLANET_FRIENDS !! baby_lagna_lord) in
        if opt_in (pd_mother pd) friends && opt_in (pd_father pd) friends
        then getitem weights "lagna_friendship"
        else Ok 0
  end.

(** [parent_dasha in {parent_5th_lord, parent_9th_lord}] for a truthy
    [parent_dasha]. *)
Definition in_lords (parent_dasha : option string)
    (parent_5th_lord parent_9th_lord : option string) : bool :=
  match parent_dasha with
  | Some p =>
      match parent_5th_lord with Some l => String.eqb p l | None => false end
      || match parent_9th_lord with Some l => String.eqb p l | None => false end
  | None => false
  end.

Definition score_arrival_indicator (parent_5th_lord parent_9th_lord : option string)
    (parent_dasha : option string) (weights : gmap string Z) : res Z :=
  if negb (truthy parent_dasha) then Ok 0
  else if in_lords parent_dasha parent_5th_lord parent_9th_lord
  then getitem weights "arrival_indicator"
  else Ok 0.

Definition score_dasha_sandhi (parent_dasha : option string)
    (weights : gmap string Z) : res Z :=
  if negb (truthy parent_dasha) then Ok 0 else Ok 0.

(** [parent_jupiter_strong is False and baby_jupiter_strong is True]. *)
Definition score_jupiter_compensation (parent_jupiter_strong : option bool)
    (baby_jupiter_strong : option bool) (weights : gmap string Z) : res Z :=
  match parent_jupiter_strong, baby_jupiter_strong with
  | Some false, Some true => getitem weights "jupiter_compensation"
  | _, _ => Ok 0
  end.

Definition opt_is (x : option string) (s : string) : bool :=
  match x with Some v => String.eqb v s | None => false end.

(** The condition under which [score_dasha_clash] charges its penalty. *)
Definition dasha_clashes (parent_dasha : option string)
    (baby_start_dasha : string) : bool :=
  (opt_is parent_dasha "Rahu" && String.eqb baby_start_dasha "Ketu")
  || (opt_is parent_dasha "Ketu" && String.eqb baby_start_dasha "Rahu").

Definition score_dasha_clash (parent_dasha : option string)
    (baby_start_dasha : string) (weights : gmap string Z) : res Z :=
  if negb (truthy parent_dasha) || negb (truthy (Some baby_start_dasha)) then Ok 0
  else if dasha_clashes parent_dasha baby_start_dasha
  then w ← getitem weights "dasha_clash"; Ok (- w)
  else Ok 0.

Definition score_house_strength (ninth_strength fourth_strength : Z)
    (weights : gmap string Z) : res Z :=
  w9 ← getitem weights "ninth_house_strength";
  w4 ← getitem weights "fourth_house_strength";
  Ok (ninth_strength * w9 + fourth_strength * w4).

Definition baby_start_dasha_lord (nakshatra : string) : res string :=
  idx ← list_index NAKSHATRA_LIST nakshatra;
  list_getitem NAKSHATRA_LORDS idx.

Definition _max_possible (weights : gmap string Z) : res Z :=
  w1 ← getitem weights "nakshatra";
  w2 ← getitem weights "rashi";
  w3 ← getitem weights "pada";
  w4 ← getitem weights "tithi";
  w5 ← getitem weights "yoga";
  w6 ← getitem weights "karana";
  w7 ← getitem weights "lagna";
  w8 ← getitem weights "eighth_house";
  w9 ← getitem weights "jupiter";
  w10 ← getitem weights "dasha";
  w11 ← getitem weights "parents_dasha";
  w12 ← getitem weights "lagna_friendship";
  w13 ← getitem weights "arrival_indicator";
  w14 ← getitem weights "jupiter_compensation";
  w15 ← getitem weights "dasha_clash";
  w16 ← getitem weights "ninth_house_strength";
  w17 ← getitem weights "fourth_house_strength";
  w18 ← getitem weights "baby_start_dasha";
  Ok (w1 + w2 + w3 + w4 + w5 + w6 + w7 + w8 + w9 + w10 + w11 + w12
      + w13 * 2 + w14 * 2 + w15 * 2 + w16 + w17 + w18).

(** The eleven gated terms that open [compute_score]. *)
Definition base_terms (astro : Astro) (weights : gmap string Z) : res Z :=
  s1 ← score_nakshatra (nakshatra astro) weights;
  s2 ← score_rashi (rashi astro) weights;
  s3 ← score_pada (pada astro) weights;
  s4 ← score_tithi (tithi astro) weights;
  s5 ← score_yoga (yoga astro) weights;
  s6 ← score_karana (karana astro) weights;
  s7 ← score_lagna (lagna astro) weights;
  s8 ← score_eighth_house (eighth_house_rashi astro) weights;
  s9 ← score_jupiter (jupiter_rashi astro) weights;
  s10 ← score_dasha (dasha_lord astro) weights;
  s11 ← score_parents_dasha (parents_dasha astro) weights;
  Ok (s1 + s2 + s3 + s4 + s5 + s6 + s7 + s8 + s9 + s10 + s11).

(** The block under [if parents_meta:]. *)
Definition parent_terms (astro : Astro) (parents_meta : option ParentsMeta)
    (baby_start : string) (weights : gmap string Z) : res Z :=
  match parents_meta with
  | None => Ok 0
  | Some pm =>
      let mother := meta_mother pm in
      let father := meta_father pm in
      let pdasha := default (mkParentsDasha None None) (parents_dasha astro) in
      p1 ← score_lagna_friendship (lagna_lord astro) (Some pdasha) weights;
      p2 ← score_arrival_indicator (fifth_lord mother) (pm_ninth_lord mother)
             (pd_mother pdasha) weights;
      p3 ← score_arrival_indicator (fifth_lord father) (pm_ninth_lord father)
             (pd_father pdasha) weights;
      p4 ← score_dasha_clash (pd_mother pdasha) baby_start weights;
      p5 ← score_dasha_clash (pd_father pdasha) baby_start weights;
      p6 ← score_jupiter_compensation (pm_jupiter_strong mother)
             (jupiter_strong astro) weights;
      p7 ← score_jupiter_compensation (pm_jupiter_strong father)
             (jupiter_strong astro) weights;
      Ok (p1 + p2 + p3 + p4 + p5 + p6 + p7)
  end.

(** The raw, not yet normalised, score. *)
Definition raw_score (astro : Astro) (parents_meta : option ParentsMeta)
    (weights : gmap string Z) : res Z :=
  raw ← base_terms astro weights;
  baby_start ← baby_start_dasha_lord (nakshatra astro);
  pt ← parent_terms astro parents_meta baby_start weights;
  hs ← score_house_strength (ninth_strength astro) (fourth_strength astro) weights;
  bs ← (if truthy (Some baby_start)
        then getitem weights "baby_start_dasha" else Ok 0);
  Ok (raw + pt + hs + bs).

(** [compute_score].  The last line of the source is
    [int(round((raw / max_score) * 100))] on binary64 floats; the model
    rounds the exact quotient [raw * 100 / max_score] half to even. *)
Definition compute_score (astro : Astro) (parents_meta : option ParentsMeta)
    (weights : gmap string Z) : res Z :=
  raw ← raw_score astro parents_meta weights;
  max_score ← _max_possible weights;
  if max_score <=? 0 then Ok 0
  else Ok (Py.round_half_even (raw * 100) max_score).

(** ** qualities.py *)

(** The loop of [_unique_ordered], with its [seen] set and the output
    list [out] threaded through. *)
Fixpoint _unique_ordered_loop (items : list string) (seen : gset string)
    (out : list string) : list string :=
  match items with
  | [] => out
  | item :: rest =>
      if truthy (Some item) && negb (bool_decide (item ∈ seen))
      then _unique_ordered_loop rest ({[item]} ∪ seen) (out ++ [item])
      else _unique_ordered_loop rest seen out
  end.

Definition _unique_ordered (items : list string) : list string :=
  _unique_ordered_loop items ∅ [].

Definition normalize_traits (traits : option (list string)) : list string :=
  match traits with
  | None | Some [] => []
  | Some ts => filter (λ t, str_in t TRAIT_OPTIONS = true) (_unique_ordered ts)
  end.

(** The inner loop of [apply_trait_weights] over [overrides.items()]. *)
Definition add_overrides (weights : gmap string Z) (overrides : list (string * Z))
    (multiplier : Z) : gmap string Z :=
  foldl (λ w kv, <[kv.1 := default 0 (w !! kv.1) + kv.2 * multiplier]> w)
        weights overrides.

(** The outer loop over [enumerate(traits_ordered[:3])], from index [idx]. *)
Fixpoint trait_loop (weights : gmap string Z) (idx : nat) (traits : list string)
    : gmap string Z :=
  match traits with
  | [] => weights
  | trait :: rest =>
      let multiplier := default 0 (TRAIT_PRIORITY_MULTIPLIERS !! idx) in
      let overrides := default [] (TRAIT_WEIGHT_OVERRIDES !! trait) in
      trait_loop (add_overrides weights overrides multiplier) (S idx) rest
  end.

(** [apply_trait_weights] as a function from the contents of
    [base_weights] to the contents of the dictionary it returns. *)
Definition apply_trait_weights (base_weights : gmap string Z)
    (traits_ordered : list string) : gmap string Z :=
  trait_loop base_weights 0
    (take (length TRAIT_PRIORITY_MULTIPLIERS) traits_ordered).

Definition get_weights_for_traits (traits_ordered : list string) : gmap string Z :=
  apply_trait_weights WEIGHTS traits_ordered.

(** [llm_map_traits].  The language model is an oracle: [llm_reply text]
    is the list under ["traits"] in the parsed reply, and [None] when the
    key is not configured, the text is blank, the client cannot be loaded,
    the call fails or the reply does not parse. *)
Definition llm_map_traits (llm_reply : string → option (list string))
    (text : string) : list string :=
  match llm_reply text with
  | Some traits => normalize_traits (Some traits)
  | None => []
  end.

Definition resolve_traits (llm_reply : string → option (list string))
    (qualities_text : option string)
    (qualities_selected qualities_priority : option (list string))
    : list string :=
  let priority := normalize_traits qualities_priority in
  match priority with
  | _ :: _ => priority
  | [] =>
      let llm_traits := llm_map_traits llm_reply (default "" qualities_text) in
      let selected := normalize_traits qualities_selected in
      _unique_ordered (llm_traits ++ selected)
  end.

(** Trait to the (field, allowed values) checks of its row filter. *)
Definition TRAIT_FILTERS : gmap string (list (string * list string)) :=
  list_to_map
    [("health", [("lagna", BENEFIC_LAGNAS); ("tithi", BENEFIC_TITHIS)]);
     ("intelligence", [("yoga", BENEFIC_YOGAS); ("nakshatra", SHUBHA_NAKSHATRAS)]);
     ("wealth", [("rashi", BENEFIC_RASHIS); ("karana", BENEFIC_KARANAS)]);
     ("leadership", [("lagna", BENEFIC_LAGNAS); ("nakshatra", SHUBHA_NAKSHATRAS)]);
     ("spiritual", [("tithi", BENEFIC_TITHIS); ("yoga", BENEFIC_YOGAS)]);
     ("creativity", [("nakshatra", SHUBHA_NAKSHATRAS)]);
     ("stability", [("rashi", BENEFIC_RASHIS); ("lagna", BENEFIC_LAGNAS)]);
     ("compassion", [("tithi", BENEFIC_TITHIS); ("nakshatra", SHUBHA_NAKSHATRAS)]);
     ("courage", [("lagna", BENEFIC_LAGNAS); ("karana", BENEFIC_KARANAS)])].

(** [astro.get(field)] for the string-valued fields the filters name. *)
Definition astro_get (astro : Astro) (field : string) : option string :=
  if String.eqb field "nakshatra" then Some (nakshatra astro)
  else if String.eqb field "rashi" then Some (rashi astro)
  else if String.eqb field "tithi" then Some (tithi astro)
  else if String.eqb field "yoga" then Some (yoga astro)
  else if String.eqb field "karana" then Some (karana astro)
  else if String.eqb field "lagna" then Some (lagna astro)
  else None.

Definition passes_trait_filters (astro : Astro) (traits_ordered : list string) : bool :=
  match traits_ordered with
  | [] => true
  | primary :: _ =>
      let checks := default [] (TRAIT_FILTERS !! primary) in
      forallb (λ c, opt_in (astro_get astro c.1) c.2) checks
  end.

(** *** The weight tables as objects in a store

    [apply_trait_weights] copies its argument with [dict(base_weights)] and
    then assigns into the copy.  To speak about what it does to the table
    it was given, dictionaries live in a store and are passed by
    reference. *)

Module Store.

Definition ref : Type := positive.
Abbreviation store := (gmap ref (gmap string Z)).

(** [dict(d)] and other allocations: a reference not yet in use. *)
Definition alloc (h : store) (d : gmap string Z) : ref * store :=
  let r := fresh (dom h) in (r, <[r := d]> h).

(** [w[k] = w.get(k, 0) + v * multiplier] on the object at [w]. *)
Definition add_item (w : ref) (multiplier : Z) (h : store) (kv : string * Z)
    : store :=
  alter (λ d, <[kv.1 := default 0 (d !! kv.1) + kv.2 * multiplier]> d) w h.

Fixpoint trait_loop (w : ref) (idx : nat) (traits : list string) (h : store)
    : store :=
  match traits with
  | [] => h
  | trait :: rest =>
      let multiplier := default 0 (TRAIT_PRIORITY_MULTIPLIERS !! idx) in
      let overrides := default [] (TRAIT_WEIGHT_OVERRIDES !! trait) in
      trait_loop w (S idx) rest (foldl (add_item w multiplier) h overrides)
  end.

(** [apply_trait_weights(base_weights, traits_ordered)]: the reference it
    returns and the store it leaves; [None] when [base_weights] is not
    an object of the store. *)
Definition apply_trait_weights (base_weights : ref) (traits_ordered : list string)
    (h : store) : option (ref * store) :=
  base ← h !! base_weights;
  let '(weights, h1) := alloc h base in
  Some (weights,
        trait_loop weights 0
          (take (length TRAIT_PRIORITY_MULTIPLIERS) traits_ordered) h1).

(** A store in which the module-level [WEIGHTS] object lives at
    [weights_ref]. *)
Definition holds_WEIGHTS (weights_ref : ref) (h : store) : Prop :=
  h !! weights_ref = Some WEIGHTS.

Definition get_weights_for_traits (weights_ref : ref) (traits_ordered : list string)
    (h : store) : option (ref * store) :=
  apply_trait_weights weights_ref traits_ordered h.

End Store.

(** ** astrology_engine.py: houses and the dasha timeline *)

Definition _normalize_cusps (cusps : list Q) : res (list Q) :=
  if (length cusps =? 13)%nat then Ok cusps
  else if (length cusps =? 12)%nat then Ok (0%Q :: cusps)
  else Raise (ValueError "Unexpected cusps length").

(** [cusps[i]] of a normalised, 13-long list. *)
Definition cusp (cusps : list Q) (i : Z) : Q :=
  default 0%Q (cusps !! Z.to_nat i).

(** The two ends of house [i], reduced modulo 360. *)
Definition house_start (cusps : list Q) (i : Z) : Q :=
  Py.fmod (cusp cusps i) 360.
Definition house_end (cusps : list Q) (i : Z) : Q :=
  if i =? 12 then Py.fmod (cusp cusps 1) 360
  else Py.fmod (cusp cusps (i + 1)) 360.

(** The test in the body of the loop of [house_for_longitude]. *)
Definition house_contains (cusps : list Q) (lon : Q) (i : Z) : bool :=
  let start := house_start cusps i in
  let end_ := house_end cusps i in
  if Qle_bool start end_
  then Qle_bool start lon && Py.Qlt_bool lon end_
  else Qle_bool start lon || Py.Qlt_bool lon end_.

(** [for i in range(1, 13)], over the indices that remain. *)
Fixpoint house_loop (cusps : list Q) (lon : Q) (indices : list Z) : Z :=
  match indices with
  | [] => 1
  | i :: rest =>
      if house_contains cusps lon i then i else house_loop cusps lon rest
  end.

Definition house_for_longitude (cusps : list Q) (lon : Q) : res Z :=
  cusps ← _normalize_cusps cusps;
  let lon := Py.fmod lon 360 in
  Ok (house_loop cusps lon (seqZ 1 12)).

Definition get_nakshatra_index (moon_longitude : Q) : Z :=
  Py.int_of_float (moon_longitude / NAKSHATRA_SPAN).

(** The ephemeris is an oracle: [swe_moon dt] stands for the longitude
    [swe.calc_ut(swe.julday(...), swe.MOON)] returns at the instant [dt];
    an instant is a number of seconds on the UTC time line. *)
Definition calculate_moon_longitude (swe_moon : Q → Q) (dt_utc : Q) : Q :=
  Py.fmod (swe_moon dt_utc) 360.

(** The [while True] loop of [get_dasha_lord]. *)
Fixpoint dasha_walk (fuel : nat) (years_elapsed : Q) (idx : Z) : res string :=
  match fuel with
  | O => Raise OutOfFuel
  | S fuel' =>
      '(name, dasha_years) ← list_getitem DASHA_SEQUENCE idx;
      if Py.Qlt_bool years_elapsed (inject_Z dasha_years) then Ok name
      else dasha_walk fuel' (years_elapsed - inject_Z dasha_years)
             ((idx + 1) mod Z.of_nat (length DASHA_SEQUENCE))
  end.

(** Every pass of the loop takes at least six years off [years_elapsed],
    so this many passes are enough. *)
Definition dasha_fuel (years_elapsed : Q) : nat :=
  S (Z.to_nat (Qfloor (years_elapsed / 6))).

Definition get_dasha_lord (swe_moon : Q → Q) (birth_dt_utc target_dt_utc : Q)
    : res string :=
  let moon_lon := calculate_moon_longitude swe_moon birth_dt_utc in
  let nak_idx := get_nakshatra_index moon_lon in
  lord ← list_getitem NAKSHATRA_LORDS nak_idx;
  let remainder := Py.fmod moon_lon NAKSHATRA_SPAN in
  let fraction_left := ((NAKSHATRA_SPAN - remainder) / NAKSHATRA_SPAN)%Q in
  start_idx ← list_index (map fst DASHA_SEQUENCE) lord;
  '(_, start_dasha_years) ← list_getitem DASHA_SEQUENCE start_idx;
  let start_years := (inject_Z start_dasha_years * fraction_left)%Q in
  let years_elapsed :=
    ((target_dt_utc - birth_dt_utc) / (365.25 * 24 * 3600))%Q in
  let years_elapsed :=
    if Py.Qlt_bool years_elapsed 0 then 0%Q else years_elapsed in
  if Py.Qlt_bool years_elapsed start_years then Ok lord
  else
    let years_elapsed := (years_elapsed - start_years)%Q in
    let idx := (start_idx + 1) mod Z.of_nat (length DASHA_SEQUENCE) in
    dasha_walk (dasha_fuel years_elapsed) years_elapsed idx.

(** ** muhurat_engine.py *)

(** [LocationInput] of astrology/schemas.py and the dictionary that
    [resolve_location] returns. *)
Record LocationInput : Type := mkLocationInput {
  li_latitude : option Q;
  li_longitude : option Q;
  li_timezone : option string;
  li_place : option string
}.

Record Location : Type := mkLocation {
  latitude : Q;
  longitude : Q;
  timezone : string
}.

(** One parent of the request. *)
Record ParentDetails (L : Type) : Type := mkParentDetails {
  date_of_birth : string;
  time_of_birth : string;
  location : L
}.
Arguments mkParentDetails {L} _ _ _.
Arguments date_of_birth {L} _.
Arguments time_of_birth {L} _.
Arguments location {L} _.

(** [parents] when both ["mother"] and ["father"] are given. *)
Record Parents (L : Type) : Type := mkParents {
  mother : ParentDetails L;
  father : ParentDetails L
}.
Arguments mkParents {L} _ _.
Arguments mother {L} _.
Arguments father {L} _.

(** The collaborators of the engine, which the model takes as oracles:
    location resolution, the astrological factor calculator, the two
    per-parent computations, and the language model. *)
Record Services : Type := mkServices {
  resolve_location : LocationInput → res Location;
  calculate_astrology : string → string → Location → res Astro;
  calculate_dasha_lord_for_birth : string → string → Location → Q → res string;
  calculate_parent_meta : string → string → Location → res ParentMeta;
  llm_reply : string → option (list string)
}.

(** One item of the result list. *)
Record Muhurat : Type := mkMuhurat {
  m_date : string;
  m_time : string;
  m_nakshatra : string;
  m_pada : Z;
  m_rashi : string;
  m_tithi : string;
  m_yoga : string;
  m_karana : string;
  m_lagna : string;
  m_lagna_lord : string;
  m_eighth_house_rashi : string;
  m_jupiter_rashi : string;
  m_jupiter_strong : option bool;
  m_dasha_lord : string;
  m_ninth_lord : option string;
  m_fourth_lord : option string;
  m_ninth_strength : Z;
  m_fourth_strength : Z;
  m_parents_dasha : option ParentsDasha;
  m_score : Z
}.

(** The de-duplication key of a slot. *)
Abbreviation signature :=
  (string * string * Z * string * string * string * string * string * string
   * string * string)%type.

Definition slot_key (date : string) (astro : Astro) : signature :=
  (date, nakshatra astro, pada astro, rashi astro, tithi astro, yoga astro,
   karana astro, lagna astro, eighth_house_rashi astro, jupiter_rashi astro,
   dasha_lord astro).

(** The same tuple read off a result item. *)
Definition muhurat_key (m : Muhurat) : signature :=
  (m_date m, m_nakshatra m, m_pada m, m_rashi m, m_tithi m, m_yoga m,
   m_karana m, m_lagna m, m_eighth_house_rashi m, m_jupiter_rashi m,
   m_dasha_lord m).

Definition make_result (date time_str : string) (astro : Astro) (score : Z) : Muhurat :=
  mkMuhurat date time_str (nakshatra astro) (pada astro) (rashi astro)
    (tithi astro) (yoga astro) (karana astro) (lagna astro) (lagna_lord astro)
    (eighth_house_rashi astro) (jupiter_rashi astro) (jupiter_strong astro)
    (dasha_lord astro) (ninth_lord astro) (fourth_lord astro)
    (ninth_strength astro) (fourth_strength astro) (parents_dasha astro) score.

(** [range(start, stop, step)] for a positive [step]. *)
Definition py_range (start stop step : Z) : list Z :=
  (λ i, start + i * step) <$> seqZ 0 ((stop - start + step - 1) / step).

(** The local variables of [_run_scan]. *)
Record scan_state : Type := mkScanState {
  results : list Muhurat;
  seen_keys : listset signature
}.

(** What [suggest_muhurats] has computed before it scans. *)
Record scan_params : Type := mkScanParams {
  sp_sd : Py.date;
  sp_ed : Py.date;
  sp_traits : list string;
  sp_weights : gmap string Z;
  sp_resolved_location : Location;
  sp_parents_resolved : option (Parents Location);
  sp_parents_meta : option ParentsMeta;
  sp_hard_cap : Z
}.

Definition time_str (hour minute : Z) : string :=
  Py.fmt02 hour +:+ ":" +:+ Py.fmt02 minute.

(** [len(results) >= hard_cap]. *)
Definition cap_reached (p : scan_params) (st : scan_state) : bool :=
  sp_hard_cap p <=? Z.of_nat (length (results st)).

Section scan.
Context (svc : Services) (p : scan_params).
Context (strict_filters : bool) (min_score : Z).

(** The part of the loop body up to the score threshold: [None] when
    the slot is left by a [continue], otherwise the factor set with the
    parents' dasha stored in it, and the score. *)
Definition evaluate_slot (d : Py.date) (hour minute : Z)
    : res (option (Astro * Z)) :=
  let local_dt := Py.mkdatetime d hour minute in
  if is_rahu_kalam local_dt then Ok None
  else
    astro ← calculate_astrology svc (Py.isoformat d) (time_str hour minute)
              (sp_resolved_location p);
    parents_dasha ←
      match sp_parents_resolved p with
      | None => Ok None
      | Some pr =>
          let candidate_utc := utc_datetime astro in
          md ← calculate_dasha_lord_for_birth svc (date_of_birth (mother pr))
                 (time_of_birth (mother pr)) (location (mother pr)) candidate_utc;
          fd ← calculate_dasha_lord_for_birth svc (date_of_birth (father pr))
                 (time_of_birth (father pr)) (location (father pr)) candidate_utc;
          Ok (Some (mkParentsDasha (Some md) (Some fd)))
      end;
    if strict_filters && negb (bool_decide (sp_traits p = []))
       && negb (passes_trait_filters astro (sp_traits p))
    then Ok None
    else
      let astro := set_parents_dasha astro parents_dasha in
      score ← compute_score astro (sp_parents_meta p) (sp_weights p);
      if score <? min_score then Ok None
      else Ok (Some (astro, score)).

(** The whole loop body: [None] when the slot is left by a [continue],
    otherwise the state after [results.append]. *)
Definition scan_slot (d : Py.date) (hour minute : Z) (st : scan_state)
    : res (option scan_state) :=
  r ← evaluate_slot d hour minute;
  match r with
  | None => Ok None
  | Some (astro, score) =>
      let key := slot_key (Py.isoformat d) astro in
      if bool_decide (key ∈ seen_keys st) then Ok None
      else
        Ok (Some (mkScanState
              (results st ++ [make_result (Py.isoformat d) (time_str hour minute)
                                astro score])
              ({[key]} ∪ seen_keys st)))
  end.

(** [for minute in range(0, 60, TIME_SLOT_MINUTES)], over the minutes
    that remain. *)
Fixpoint minute_loop (d : Py.date) (hour : Z) (minutes : list Z)
    (st : scan_state) : res scan_state :=
  match minutes with
  | [] => Ok st
  | minute :: rest =>
      if (hour =? DAY_END_HOUR) && (0 <? minute) then Ok st
      else
        r ← scan_slot d hour minute st;
        match r with
        | None => minute_loop d hour rest st
        | Some st' =>
            if cap_reached p st' then Ok st' else minute_loop d hour rest st'
        end
  end.

(** [for hour in range(DAY_START_HOUR, DAY_END_HOUR + 1)]. *)
Fixpoint hour_loop (d : Py.date) (hours : list Z) (st : scan_state)
    : res scan_state :=
  match hours with
  | [] => Ok st
  | hour :: rest =>
      st' ← minute_loop d hour (py_range 0 60 TIME_SLOT_MINUTES) st;
      if cap_reached p st' then Ok st' else hour_loop d rest st'
  end.

(** [for d in _date_range(sd, ed)]: the generator is resumed, and adds
    its day, only when the body has not left the loop. *)
Fixpoint day_loop (fuel : nat) (cur : Py.date) (st : scan_state)
    : res scan_state :=
  match fuel with
  | O => Raise OutOfFuel
  | S fuel' =>
      if Py.date_leb cur (sp_ed p) then
        st' ← hour_loop cur (py_range DAY_START_HOUR (DAY_END_HOUR + 1) 1) st;
        if cap_reached p st' then Ok st'
        else cur' ← Py.add_one_day cur; day_loop fuel' cur' st'
      else Ok st
  end.

(** One more pass than there are days from [sd] to [ed]. *)
Definition scan_fuel : nat :=
  S (S (Z.to_nat (Py.days_between (sp_sd p) (sp_ed p)))).

Definition _run_scan : res (list Muhurat) :=
  st ← day_loop scan_fuel (sp_sd p) (mkScanState [] ∅);
  Ok (results st).

End scan.

(** The sort key [(-x["score"], x["date"], x["time"])]. *)
Definition sort_key (m : Muhurat) : Z * string * string :=
  (- m_score m, m_date m, m_time m).

(** [k1 <= k2] on such tuples: the first differing component decides. *)
Definition key_leb (k1 k2 : Z * string * string) : bool :=
  let '(s1, d1, t1) := k1 in
  let '(s2, d2, t2) := k2 in
  if s1 <? s2 then true
  else if s2 <? s1 then false
  else if Py.str_ltb d1 d2 then true
  else if Py.str_ltb d2 d1 then false
  else Py.str_leb t1 t2.

(** [list.sort(key=...)] is a stable sort; the model is the insertion
    sort, which puts an item before the items of the sorted rest that do
    not come strictly before it. *)
Fixpoint sort_insert (m : Muhurat) (sorted : list Muhurat) : list Muhurat :=
  match sorted with
  | [] => [m]
  | m' :: rest =>
      if key_leb (sort_key m) (sort_key m') then m :: m' :: rest
      else m' :: sort_insert m rest
  end.

Definition sort_results (l : list Muhurat) : list Muhurat :=
  foldr sort_insert [] l.

(** The second component of the value [suggest_muhurats] returns. *)
Record Meta : Type := mkMeta {
  traits_used : list string;
  weights_used : gmap string Z
}.

(** What a call of [suggest_muhurats] yields: the ranked list, the meta
    data, and, as a ghost record, the arguments of the calls of
    [_run_scan] it made, in order. *)
Record Suggestion : Type := mkSuggestion {
  ranked : list Muhurat;
  meta : Meta;
  scans_run : list (bool * Z)
}.

Section suggest.
Context (svc : Services).

(** The [if parents and ...] block: the parents with their locations
    resolved, and their meta data. *)
Definition resolve_parents (parents : option (Parents LocationInput))
    : res (option (Parents Location) * option ParentsMeta) :=
  match parents with
  | None => Ok (None, None)
  | Some ps =>
      ml ← resolve_location svc (location (mother ps));
      fl ← resolve_location svc (location (father ps));
      let mother' :=
        mkParentDetails (date_of_birth (mother ps)) (time_of_birth (mother ps)) ml in
      let father' :=
        mkParentDetails (date_of_birth (father ps)) (time_of_birth (father ps)) fl in
      mm ← calculate_parent_meta svc (date_of_birth mother') (time_of_birth mother')
             (location mother');
      fm ← calculate_parent_meta svc (date_of_birth father') (time_of_birth father')
             (location father');
      Ok (Some (mkParents mother' father'), Some (mkParentsMeta mm fm))
  end.

(** The statements of [suggest_muhurats] before the scans. *)
Definition prepare (sd ed : Py.date) (location : LocationInput) (max_results : Z)
    (qualities_text : option string)
    (qualities_selected qualities_priority : option (list string))
    (parents : option (Parents LocationInput)) : res scan_params :=
  if Py.date_ltb ed sd then Raise (ValueError "end_date must be >= start_date")
  else if 365 <? Py.days_between sd ed
  then Raise (ValueError "date range must be <= 365 days")
  else
    let traits :=
      resolve_traits (llm_reply svc) qualities_text qualities_selected
        qualities_priority in
    let weights := get_weights_for_traits traits in
    resolved_location ← resolve_location svc location;
    '(parents_resolved, parents_meta) ← resolve_parents parents;
    let hard_cap := Z.max 50 (max_results * HARD_CAP_MULTIPLIER) in
    Ok (mkScanParams sd ed traits weights resolved_location parents_resolved
          parents_meta hard_cap).

(** The strict scan and, if it found nothing, the relaxed one. *)
Definition two_phase (p : scan_params) : res (list Muhurat * list (bool * Z)) :=
  results ← _run_scan svc p true 10;
  match results with
  | [] =>
      results ← _run_scan svc p false 0;
      Ok (results, [(true, 10); (false, 0)])
  | _ :: _ => Ok (results, [(true, 10)])
  end.

Definition suggest_muhurats (start_date end_date : Py.date)
    (location : LocationInput) (max_results : Z)
    (qualities_text : option string)
    (qualities_selected qualities_priority : option (list string))
    (parents : option (Parents LocationInput)) : res Suggestion :=
  p ← prepare start_date end_date location max_results qualities_text
        qualities_selected qualities_priority parents;
  '(results, scans) ← two_phase p;
  let results := sort_results results in
  Ok (mkSuggestion (Py.slice_to results max_results)
        (mkMeta (sp_traits p) (sp_weights p)) scans).

End suggest.


(** ** astrology_engine.py: the almanac

    The rest of the astrology module: the tables of signs, lunar days and
    syllables, the functions that read a longitude against them, the chart
    of the planets, location resolution and the three entry points that
    the muhurat engine calls. *)

Definition RASHI_LIST : list string :=
  ["Mesha (Aries)"; "Vrishabha (Taurus)"; "Mithuna (Gemini)";
   "Karka (Cancer)"; "Simha (Leo)"; "Kanya (Virgo)";
   "Tula (Libra)"; "Vrischika (Scorpio)"; "Dhanu (Sagittarius)";
   "Makara (Capricorn)"; "Kumbha (Aquarius)"; "Meena (Pisces)"].

(** [NAKSHATRA_SPAN / 4] degrees. *)
Definition PADA_SPAN : Q := (NAKSHATRA_SPAN / 4)%Q.

Definition SIGN_LORDS : gmap string string :=
  list_to_map
    [("Mesha (Aries)", "Mars"); ("Vrishabha (Taurus)", "Venus");
     ("Mithuna (Gemini)", "Mercury"); ("Karka (Cancer)", "Moon");
     ("Simha (Leo)", "Sun"); ("Kanya (Virgo)", "Mercury");
     ("Tula (Libra)", "Venus"); ("Vrischika (Scorpio)", "Mars");
     ("Dhanu (Sagittarius)", "Jupiter"); ("Makara (Capricorn)", "Saturn");
     ("Kumbha (Aquarius)", "Saturn"); ("Meena (Pisces)", "Jupiter")].

Definition EXALTED_SIGNS : gmap string string :=
  list_to_map
    [("Sun", "Mesha (Aries)"); ("Moon", "Vrishabha (Taurus)");
     ("Mars", "Makara (Capricorn)"); ("Mercury", "Kanya (Virgo)");
     ("Jupiter", "Karka (Cancer)"); ("Venus", "Meena (Pisces)");
     ("Saturn", "Tula (Libra)"); ("Rahu", "Mithuna (Gemini)");
     ("Ketu", "Dhanu (Sagittarius)")].

Definition OWN_SIGNS : gmap string (list string) :=
  list_to_map
    [("Sun", ["Simha (Leo)"]);
     ("Moon", ["Karka (Cancer)"]);
     ("Mars", ["Mesha (Aries)"; "Vrischika (Scorpio)"]);
     ("Mercury", ["Mithuna (Gemini)"; "Kanya (Virgo)"]);
     ("Jupiter", ["Dhanu (Sagittarius)"; "Meena (Pisces)"]);
     ("Venus", ["Vrishabha (Taurus)"; "Tula (Libra)"]);
     ("Saturn", ["Makara (Capricorn)"; "Kumbha (Aquarius)"])].

Definition BENEFIC_PLANETS : list string :=
  ["Jupiter"; "Venus"; "Mercury"; "Moon"].

Definition TITHI_LIST : list string :=
  ["Pratipada"; "Dvitiya"; "Tritiya"; "Chaturthi"; "Panchami";
   "Shashthi"; "Saptami"; "Ashtami"; "Navami"; "Dashami";
   "Ekadashi"; "Dwadashi"; "Trayodashi"; "Chaturdashi"; "Purnima";
   "Pratipada"; "Dvitiya"; "Tritiya"; "Chaturthi"; "Panchami";
   "Shashthi"; "Saptami"; "Ashtami"; "Navami"; "Dashami";
   "Ekadashi"; "Dwadashi"; "Trayodashi"; "Chaturdashi"; "Amavasya"].

Definition YOGA_LIST : list string :=
  ["Vishkumbha"; "Preeti"; "Ayushman"; "Saubhagya"; "Shobhana";
   "Atiganda"; "Sukarma"; "Dhriti"; "Shoola"; "Ganda";
   "Vriddhi"; "Dhruva"; "Vyaghata"; "Harshana"; "Vajra";
   "Siddhi"; "Vyatipata"; "Variyana"; "Parigha"; "Shiva";
   "Siddha"; "Sadhya"; "Shubha"; "Shukla"; "Brahma";
   "Indra"; "Vaidhriti"].

(** [[...] * 8 + [...]]. *)
Definition KARANA_LIST : list string :=
  concat (replicate 8 ["Bava"; "Balava"; "Kaulava"; "Taitila"; "Gara";
                       "Vanija"; "Vishti"])
  ++ ["Shakuni"; "Chatushpada"; "Naga"; "Kimstughna"].

(** nakshatra_table.py: nakshatra to pada to naming syllables. *)
Definition pada_table (s1 s2 s3 s4 : string) : gmap Z (list string) :=
  list_to_map [(1, [s1]); (2, [s2]); (3, [s3]); (4, [s4])].

Definition NAKSHATRA_PADA_SYLLABLES : gmap string (gmap Z (list string)) :=
  list_to_map
    [("Ashwini", pada_table "Chu" "Che" "Cho" "La");
     ("Bharani", pada_table "Li" "Lu" "Le" "Lo");
     ("Krittika", pada_table "A" "E" "U" "Ea");
     ("Rohini", pada_table "O" "Va" "Vi" "Vu");
     ("Mrigashira", pada_table "Ve" "Vo" "Ka" "Ki");
     ("Ardra", pada_table "Ku" "Gha" "Nga" "Cha");
     ("Punarvasu", pada_table "Ke" "Ko" "Ha" "Hi");
     ("Pushya", pada_table "Hu" "He" "Ho" "Da");
     ("Ashlesha", pada_table "Di" "Du" "De" "Do");
     ("Magha", pada_table "Ma" "Mi" "Mu" "Me");
     ("Purva Phalguni", pada_table "Mo" "Ta" "Ti" "Tu");
     ("Uttara Phalguni", pada_table "Te" "To" "Pa" "Pi");
     ("Hasta", pada_table "Pu" "Sha" "Na" "Tha");
     ("Chitra", pada_table "Pe" "Po" "Ra" "Ri");
     ("Swati", pada_table "Ru" "Re" "Ro" "Ta");
     ("Vishakha", pada_table "Ti" "Tu" "Te" "To");
     ("Anuradha", pada_table "Na" "Ni" "Nu" "Ne");
     ("Jyeshtha", pada_table "No" "Ya" "Yi" "Yu");
     ("Mula", pada_table "Ye" "Yo" "Ba" "Bi");
     ("Purva Ashadha", pada_table "Bu" "Da" "Bha" "Dha");
     ("Uttara Ashadha", pada_table "Be" "Bo" "Ja" "Ji");
     ("Shravana", pada_table "Ju" "Je" "Jo" "Gha");
     ("Dhanishta", pada_table "Ga" "Gi" "Gu" "Ge");
     ("Shatabhisha", pada_table "Go" "Sa" "Si" "Su");
     ("Purva Bhadrapada", pada_table "Se" "So" "Da" "Di");
     ("Uttara Bhadrapada", pada_table "Du" "Tha" "Jha" "Na");
     ("Revati", pada_table "De" "Do" "Cha" "Chi")].

(** *** Strings

    A character of a [str] is taken to be a code point below 256; the
    white space among those, by [str.isspace], is 9 to 13, 28 to 32, 133
    and 160. *)

Definition py_isspace (c : ascii) : bool :=
  let n := N_of_ascii c in
  ((9 <=? n) && (n <=? 13) || (28 <=? n) && (n <=? 32)
   || (n =? 133) || (n =? 160))%N.

(** [s.lstrip()]. *)
Fixpoint lstrip (s : string) : string :=
  match s with
  | "" => ""
  | String c s' => if py_isspace c then lstrip s' else s
  end.

(** [s.rstrip()]. *)
Fixpoint rstrip (s : string) : string :=
  match s with
  | "" => ""
  | String c s' =>
      match rstrip s' with
      | "" => if py_isspace c then "" else String c ""
      | t => String c t
      end
  end.

(** [s.strip()]. *)
Definition strip (s : string) : string := rstrip (lstrip s).

(** [sep.join(parts)]. *)
Fixpoint join (sep : string) (parts : list string) : string :=
  match parts with
  | [] => ""
  | [p] => p
  | p :: rest => p +:+ sep +:+ join sep rest
  end.

(** [x or y] on optional strings, for a string [y]. *)
Definition or_else (x : option string) (y : string) : string :=
  match x with
  | Some v => if truthy x then v else y
  | None => y
  end.

(** *** Longitudes against the tables *)

Definition calculate_sun_longitude (swe_sun : Q → Q) (dt_utc : Q) : Q :=
  Py.fmod (swe_sun dt_utc) 360.

Definition calculate_jupiter_longitude (swe_jupiter : Q → Q) (dt_utc : Q) : Q :=
  Py.fmod (swe_jupiter dt_utc) 360.

Definition get_nakshatra_and_pada (moon_longitude : Q) : res (string * Z) :=
  let nak_index := Py.int_of_float (moon_longitude / NAKSHATRA_SPAN) in
  nakshatra ← list_getitem NAKSHATRA_LIST nak_index;
  let remainder := Py.fmod moon_longitude NAKSHATRA_SPAN in
  let pada := Py.int_of_float (remainder / PADA_SPAN) + 1 in
  Ok (nakshatra, pada).

Definition get_rashi (moon_longitude : Q) : res string :=
  let rashi_index := Py.int_of_float (moon_longitude / 30) in
  list_getitem RASHI_LIST rashi_index.

Definition get_sign_lord (rashi : string) : res string :=
  getitem SIGN_LORDS rashi.

(** [house] is [None] when the caller's [dict.get] found no entry. *)
Definition is_planet_strong (planet rashi : string) (house : option Z) : bool :=
  if match EXALTED_SIGNS !! planet with
     | Some sign => String.eqb rashi sign
     | None => false
     end then true
  else if match OWN_SIGNS !! planet with
          | Some signs => str_in rashi signs
          | None => false
          end then true
  else match house with
       | Some h => (h =? 1) || (h =? 4) || (h =? 7) || (h =? 10)
       | None => false
       end.

Definition get_recommended_syllables (nakshatra : string) (pada : Z) : list string :=
  let table := default ∅ (NAKSHATRA_PADA_SYLLABLES !! nakshatra) in
  default [] (table !! pada).

Definition get_tithi (moon_longitude sun_longitude : Q) : res string :=
  let diff := Py.fmod (moon_longitude - sun_longitude) 360 in
  let index := Py.int_of_float (diff / 12) in
  list_getitem TITHI_LIST index.

Definition get_yoga (moon_longitude sun_longitude : Q) : res string :=
  let s := Py.fmod (moon_longitude + sun_longitude) 360 in
  let index := Py.int_of_float (s / (360 / 27)) in
  list_getitem YOGA_LIST index.

Definition get_karana (moon_longitude sun_longitude : Q) : res string :=
  let diff := Py.fmod (moon_longitude - sun_longitude) 360 in
  let index := Py.int_of_float (diff / 6) in
  list_getitem KARANA_LIST index.

(** *** The libraries behind the module

    Swiss Ephemeris, the geocoder, the time zone finder, the language
    model and the time zone database are oracles.  An instant is a number
    of seconds on the UTC time line, and stands for the Julian day that
    [swe.julday] makes of it. *)

Inductive body : Type :=
| SUN | MOON | MARS | MERCURY | JUPITER | VENUS | SATURN | MEAN_NODE.

#[global] Instance body_eq_dec : EqDecision body.
Proof. solve_decision. Defined.

(** What one call [geolocator.geocode(place, timeout=t)] does: it finds
    the place, returns [None], raises one of the two errors the code
    catches ([msg] is the [str] of the error), or raises something else. *)
Inductive geo_answer : Type :=
| GeoFound (lat lon : Q)
| GeoNone
| GeoTimedOut (msg : string)
| GeoRaises (e : pyexn).

Record Libraries : Type := mkLibraries {
  (** [swe.calc_ut(jd, body)[0][0]] *)
  swe_calc_ut : Q → body → Q;
  (** [swe.houses(jd, lat, lon, b"P")]: the cusps and [ascmc] *)
  swe_houses : Q → Q → Q → list Q * list Q;
  (** [Nominatim.geocode(place, timeout=t)] *)
  geocode : string → Z → geo_answer;
  (** [TimezoneFinder().timezone_at(lat=lat, lng=lon)] *)
  timezone_at : Q → Q → option string;
  (** the stripped reply of the language model to the place prompt, [None]
      when it is not configured, fails or replies with nothing *)
  llm_place : string → option string;
  (** the instant of [pytz.timezone(tz).localize(datetime.fromisoformat(s))] *)
  localize : string → string → res Q
}.

(** *** Location resolution *)

(** The fields of a [LocationInput], which are also the keys of the
    dictionary that [model_dump] makes of one and, for the first three, of
    the dictionary that [resolve_location] returns; an absent key reads as
    [None].  The [label] is never read. *)
Record LocationFields : Type := mkLocationFields {
  lf_latitude : option Q;
  lf_longitude : option Q;
  lf_timezone : option string;
  lf_place : option string;
  lf_city : option string;
  lf_state : option string;
  lf_country : option string;
  lf_use_llm : option bool
}.

(** [Union[str, LocationInput, dict]]. *)
Inductive place_or_location : Type :=
| PlaceStr (place : string)
| PlaceInput (loc : LocationFields)
| PlaceDict (loc : LocationFields).

(** The validator of [LocationInput] in astrology/schemas.py. *)
Definition validate_location (self : LocationFields) : res LocationFields :=
  let has_latlon :=
    bool_decide (lf_latitude self ≠ None) && bool_decide (lf_longitude self ≠ None) in
  let has_place :=
    truthy (lf_place self) || truthy (lf_city self) || truthy (lf_state self)
    || truthy (lf_country self) in
  if negb has_latlon && negb has_place
  then Raise (ValueError "location must include lat/lon or a place/city/state/country")
  else Ok self.

Definition _compose_place_string (loc : LocationFields) : string :=
  let place := strip (or_else (lf_place loc) "") in
  let city := strip (or_else (lf_city loc) "") in
  let state := strip (or_else (lf_state loc) "") in
  let country := strip (or_else (lf_country loc) "") in
  if truthy (Some place) then place
  else join ", " (filter (λ p, p ≠ "") [city; state; country]).

Definition _llm_normalize_place (lib : Libraries) (place : string) : option string :=
  if truthy (Some place) then llm_place lib place else None.

(** The loop of [_geocode_place] over the time-outs that remain;
    [last_err] is the [str] of the last error caught, ["None"] before the
    first. *)
Fixpoint geocode_loop (lib : Libraries) (place : string) (timeouts : list Z)
    (last_err : string) : res (Q * Q) :=
  match timeouts with
  | [] =>
      Raise (ValueError ("Could not geocode place '" +:+ place +:+ "'. Error: "
                         +:+ last_err))
  | timeout :: rest =>
      match geocode lib place timeout with
      | GeoFound lat lon => Ok (lat, lon)
      | GeoNone => geocode_loop lib place rest last_err
      | GeoTimedOut msg => geocode_loop lib place rest msg
      | GeoRaises e => Raise e
      end
  end.

Definition _geocode_place (lib : Libraries) (place : string) : res (Q * Q) :=
  geocode_loop lib place [3; 6; 10] "None".

Definition _get_timezone (lib : Libraries) (lat lon : Q) : res string :=
  match timezone_at lib lat lon with
  | Some tz =>
      if truthy (Some tz) then Ok tz
      else Raise (ValueError "Could not determine timezone from lat/lon")
  | None => Raise (ValueError "Could not determine timezone from lat/lon")
  end.

(** [tz or _get_timezone(lat, lon)]. *)
Definition timezone_or_lookup (lib : Libraries) (tz : option string) (lat lon : Q)
    : res string :=
  match tz with
  | Some tz => if truthy (Some tz) then Ok tz else _get_timezone lib lat lon
  | None => _get_timezone lib lat lon
  end.

(** The branches of [_normalize_location] for a [LocationInput] and for a
    dictionary read the same fields in the same order. *)
Definition normalize_fields (lib : Libraries) (loc : LocationFields)
    : res (Q * Q * string) :=
  match lf_latitude loc, lf_longitude loc with
  | Some lat, Some lon =>
      tz ← timezone_or_lookup lib (lf_timezone loc) lat lon;
      Ok (lat, lon, tz)
  | _, _ =>
      let place := _compose_place_string loc in
      let place :=
        if default false (lf_use_llm loc)
        then or_else (_llm_normalize_place lib place) place
        else place in
      '(lat, lon) ← _geocode_place lib place;
      tz ← timezone_or_lookup lib (lf_timezone loc) lat lon;
      Ok (lat, lon, tz)
  end.

Definition _normalize_location (lib : Libraries) (place_or_location : place_or_location)
    : res (Q * Q * string) :=
  match place_or_location with
  | PlaceInput loc => normalize_fields lib loc
  | PlaceDict loc => normalize_fields lib loc
  | PlaceStr place =>
      '(lat, lon) ← _geocode_place lib place;
      tz ← _get_timezone lib lat lon;
      Ok (lat, lon, tz)
  end.

(** The dictionary [{"latitude": .., "longitude": .., "timezone": ..}] as
    an argument of the functions that take a location. *)
Definition location_dict (l : Location) : place_or_location :=
  PlaceDict (mkLocationFields (Some (latitude l)) (Some (longitude l))
               (Some (timezone l)) None None None None None).

(** *** The local time of birth *)

(** [_parse_local_datetime] followed by [astimezone(pytz.UTC)]. *)
Definition _parse_local_datetime (lib : Libraries)
    (date_of_birth time_of_birth tz_name : string) : res Q :=
  let t := strip time_of_birth in
  let t := if (String.length t =? 5)%nat then t +:+ ":00" else t in
  localize lib (date_of_birth +:+ " " +:+ t) tz_name.

(** *** The chart *)

(** The dictionary that [compute_chart] returns. *)
Record Chart : Type := mkChart {
  ch_jd : Q;
  ch_cusps : list Q;
  ch_asc_lon : Q;
  ch_lagna_rashi : string;
  ch_lagna_lord : string;
  ch_planet_lons : gmap string Q;
  ch_planet_rashis : gmap string string;
  ch_planet_houses : gmap string Z
}.

(** The dictionary [planets] of [compute_chart], in the order in which
    [items()] yields it. *)
Definition PLANETS : list (string * body) :=
  [("Sun", SUN); ("Moon", MOON); ("Mars", MARS); ("Mercury", MERCURY);
   ("Jupiter", JUPITER); ("Venus", VENUS); ("Saturn", SATURN);
   ("Rahu", MEAN_NODE)].

(** The three dictionaries that the loop of [compute_chart] fills. *)
Abbreviation planet_tables :=
  (gmap string Q * gmap string string * gmap string Z)%type.

(** The three assignments for one planet. *)
Definition place_planet (cusps : list Q) (name : string) (plon : Q)
    (t : planet_tables) : res planet_tables :=
  let '(planet_lons, planet_rashis, planet_houses) := t in
  rashi ← get_rashi plon;
  house ← house_for_longitude cusps plon;
  Ok (<[name := plon]> planet_lons, <[name := rashi]> planet_rashis,
      <[name := house]> planet_houses).

(** [for name, body in planets.items()], over the planets that remain. *)
Fixpoint planet_loop (lib : Libraries) (jd : Q) (cusps : list Q)
    (planets : list (string * body)) (t : planet_tables) : res planet_tables :=
  match planets with
  | [] => Ok t
  | (name, b) :: rest =>
      let plon := Py.fmod (swe_calc_ut lib jd b) 360 in
      t' ← place_planet cusps name plon t;
      planet_loop lib jd cusps rest t'
  end.

Definition compute_chart (lib : Libraries) (dt_utc lat lon : Q) : res Chart :=
  let jd := dt_utc in
  let '(cusps, ascmc) := swe_houses lib jd lat lon in
  cusps ← _normalize_cusps cusps;
  asc ← list_getitem ascmc 0;
  let asc_lon := Py.fmod asc 360 in
  lagna_rashi ← get_rashi asc_lon;
  lagna_lord ← get_sign_lord lagna_rashi;
  t ← planet_loop lib jd cusps PLANETS (∅, ∅, ∅);
  rahu ← getitem t.1.1 "Rahu";
  let ketu_lon := Py.fmod (rahu + 180) 360 in
  '(planet_lons, planet_rashis, planet_houses) ← place_planet cusps "Ketu" ketu_lon t;
  Ok (mkChart jd cusps asc_lon lagna_rashi lagna_lord planet_lons planet_rashis
        planet_houses).

(** [asc, *_rest = swe.houses(...)] binds [asc] to the first component of
    the pair, the cusps. *)
Definition get_lagna (lib : Libraries) (jd_ut lat lon : Q) : res string :=
  let asc := (swe_houses lib jd_ut lat lon).1 in
  asc ← _normalize_cusps asc;
  first ← list_getitem asc 0;
  let lagna_lon := Py.fmod first 360 in
  get_rashi lagna_lon.

Definition get_eighth_house_rashi (lib : Libraries) (jd_ut lat lon : Q) : res string :=
  let '(cusps, _ascmc) := swe_houses lib jd_ut lat lon in
  cusps ← _normalize_cusps cusps;
  c ← list_getitem cusps 7;
  let eighth_cusp := Py.fmod c 360 in
  get_rashi eighth_cusp.

(** [sum(1 for p, h in planet_houses.items() if h == house and p in
    BENEFIC_PLANETS)]. *)
Definition house_strength (planet_houses : gmap string Z) (house : Z) : Z :=
  Z.of_nat (length (filter (λ ph, ph.2 = house ∧ ph.1 ∈ BENEFIC_PLANETS)
                      (map_to_list planet_houses))).

(** *** The entry points

    The four functions that muhurat_engine.py imports, under their own
    names. *)

Module Astrology.

(** [resolve_location]; its dictionary is the record [Location]. *)
Definition resolve_location (lib : Libraries)
    (place_or_location : place_or_location) : res Location :=
  '(lat, lon, tz) ← _normalize_location lib place_or_location;
  Ok (mkLocation lat lon tz).

(** [calculate_astrology], with the keys of its dictionary that the
    scanner and the scoring read.  The keys left out (the three rounded
    longitudes, the time zone, the coordinates and the recommended
    syllables) are built from values computed here by calls that do not
    raise. *)
Definition calculate_astrology (lib : Libraries)
    (date_of_birth time_of_birth : string) (place_of_birth : place_or_location)
    : res Astro :=
  '(lat, lon, tz_name) ← _normalize_location lib place_of_birth;
  dt_utc ← _parse_local_datetime lib date_of_birth time_of_birth tz_name;
  let moon_lon := calculate_moon_longitude (λ dt, swe_calc_ut lib dt MOON) dt_utc in
  let sun_lon := calculate_sun_longitude (λ dt, swe_calc_ut lib dt SUN) dt_utc in
  let jupiter_lon :=
    calculate_jupiter_longitude (λ dt, swe_calc_ut lib dt JUPITER) dt_utc in
  chart ← compute_chart lib dt_utc lat lon;
  let jd := ch_jd chart in
  '(nakshatra, pada) ← get_nakshatra_and_pada moon_lon;
  rashi ← get_rashi moon_lon;
  tithi ← get_tithi moon_lon sun_lon;
  yoga ← get_yoga moon_lon sun_lon;
  karana ← get_karana moon_lon sun_lon;
  lagna ← get_lagna lib jd lat lon;
  eighth_house_rashi ← get_eighth_house_rashi lib jd lat lon;
  jupiter_rashi ← get_rashi jupiter_lon;
  dasha_lord ← get_dasha_lord (λ dt, swe_calc_ut lib dt MOON) dt_utc dt_utc;
  let lagna_lord := ch_lagna_lord chart in
  c9 ← list_getitem (ch_cusps chart) 9;
  ninth_house_rashi ← get_rashi c9;
  c4 ← list_getitem (ch_cusps chart) 4;
  fourth_house_rashi ← get_rashi c4;
  ninth_lord ← get_sign_lord ninth_house_rashi;
  fourth_lord ← get_sign_lord fourth_house_rashi;
  let ninth_strength := house_strength (ch_planet_houses chart) 9 in
  let fourth_strength := house_strength (ch_planet_houses chart) 4 in
  let jup_house := ch_planet_houses chart !! "Jupiter" in
  jup_rashi ← getitem (ch_planet_rashis chart) "Jupiter";
  let jup_strong := is_planet_strong "Jupiter" jup_rashi jup_house in
  Ok (mkAstro nakshatra pada rashi tithi yoga karana lagna lagna_lord
        eighth_house_rashi jupiter_rashi (Some jup_strong) dasha_lord
        (Some ninth_lord) (Some fourth_lord) ninth_strength fourth_strength
        dt_utc None).

Definition calculate_dasha_lord_for_birth (lib : Libraries)
    (date_of_birth time_of_birth : string) (place_of_birth : place_or_location)
    (target_dt_utc : Q) : res string :=
  '(lat, lon, tz_name) ← _normalize_location lib place_of_birth;
  birth_dt_utc ← _parse_local_datetime lib date_of_birth time_of_birth tz_name;
  get_dasha_lord (λ dt, swe_calc_ut lib dt MOON) birth_dt_utc target_dt_utc.

Definition calculate_parent_meta (lib : Libraries)
    (date_of_birth time_of_birth : string) (place_of_birth : place_or_location)
    : res ParentMeta :=
  '(lat, lon, tz_name) ← _normalize_location lib place_of_birth;
  birth_dt_utc ← _parse_local_datetime lib date_of_birth time_of_birth tz_name;
  chart ← compute_chart lib birth_dt_utc lat lon;
  c5 ← list_getitem (ch_cusps chart) 5;
  fifth_rashi ← get_rashi c5;
  c9 ← list_getitem (ch_cusps chart) 9;
  ninth_rashi ← get_rashi c9;
  fifth_lord ← get_sign_lord fifth_rashi;
  ninth_lord ← get_sign_lord ninth_rashi;
  let jup_house := ch_planet_houses chart !! "Jupiter" in
  jup_rashi ← getitem (ch_planet_rashis chart) "Jupiter";
  let jup_strong := is_planet_strong "Jupiter" jup_rashi jup_house in
  Ok (mkParentMeta (Some fifth_lord) (Some ninth_lord) (Some jup_strong)).

End Astrology.

(** * The vocabulary of the properties

    Predicates and example data that the statements below use; none of
    them is part of the program. *)

(** ** kalam.py *)

(** The interval test as the spec words it: the hour of the day lies in
    the half-open interval of the weekday. *)
Definition in_half_open_rahu_interval (local_dt : Py.datetime) : Prop :=
  ∃ start end_,
    RAHU_KALAM !! Py.weekday (Py.dt_date local_dt) = Some (start, end_)
    ∧ (start <= hour_of_day local_dt)%Q ∧ (hour_of_day local_dt < end_)%Q.

(** ** scoring.py *)

(** The eighteen factors whose weights [compute_score] reads. *)
Definition SCORE_FACTORS : list string :=
  ["nakshatra"; "rashi"; "pada"; "tithi"; "yoga"; "karana"; "lagna";
   "eighth_house"; "jupiter"; "dasha"; "parents_dasha"; "lagna_friendship";
   "arrival_indicator"; "jupiter_compensation"; "dasha_clash";
   "ninth_house_strength"; "fourth_house_strength"; "baby_start_dasha"].

Definition weights_nonneg (w : gmap string Z) : Prop :=
  ∀ k, k ∈ SCORE_FACTORS → ∃ v, w !! k = Some v ∧ 0 ≤ v.

Definition all_weights_zero (w : gmap string Z) : Prop :=
  ∀ k, k ∈ SCORE_FACTORS → w !! k = Some 0.

(** No parent's dasha lord clashes with the baby's starting dasha lord. *)
Definition clash_free (astro : Astro) (parents_meta : option ParentsMeta) : Prop :=
  match parents_meta, parents_dasha astro with
  | Some _, Some pd =>
      ∀ baby_start, baby_start_dasha_lord (nakshatra astro) = Ok baby_start →
        dasha_clashes (pd_mother pd) baby_start = false
        ∧ dasha_clashes (pd_father pd) baby_start = false
  | _, _ => True
  end.

(** The weight of a factor, when the table has one. *)
Definition wt (w : gmap string Z) (k : string) : Z := default 0 (w !! k).

(** The sum that [_max_possible] returns, over the weights of a table. *)
Definition max_sum (w : gmap string Z) : Z :=
  wt w "nakshatra" + wt w "rashi" + wt w "pada" + wt w "tithi" + wt w "yoga"
  + wt w "karana" + wt w "lagna" + wt w "eighth_house" + wt w "jupiter"
  + wt w "dasha" + wt w "parents_dasha" + wt w "lagna_friendship"
  + wt w "arrival_indicator" * 2 + wt w "jupiter_compensation" * 2
  + wt w "dasha_clash" * 2 + wt w "ninth_house_strength"
  + wt w "fourth_house_strength" + wt w "baby_start_dasha".

(** A slot under Ashwini, whose lord Ketu opens the baby's dasha
    sequence, with both parents in the dasha of Rahu. *)
Definition clash_astro : Astro :=
  mkAstro "Ashwini" 2 "Mesha (Aries)" "Pratipada" "Vishkumbha" "Vishti"
    "Mesha (Aries)" "Mars" "Vrischika (Scorpio)" "Mesha (Aries)" (Some false)
    "Ketu" (Some "Jupiter") (Some "Moon") 0 0 0
    (Some (mkParentsDasha (Some "Rahu") (Some "Rahu"))).

Definition clash_parents : ParentsMeta :=
  let pm := mkParentMeta (Some "Sun") (Some "Moon") (Some true) in
  mkParentsMeta pm pm.

(** A slot with two benefic planets in the ninth house, and a table whose
    only non-zero weight is 1 for the ninth house strength. *)
Definition crowded_ninth_astro : Astro :=
  mkAstro "Ashwini" 2 "Mesha (Aries)" "Pratipada" "Vishkumbha" "Vishti"
    "Mesha (Aries)" "Mars" "Vrischika (Scorpio)" "Mesha (Aries)" (Some false)
    "Ketu" (Some "Jupiter") (Some "Moon") 2 0 0 None.

Definition ninth_only_weights : gmap string Z :=
  <["ninth_house_strength" := 1]> ((λ _, 0) <$> WEIGHTS).

(** A slot under Rohini with one benefic planet in the ninth house. *)
Definition plain_astro : Astro :=
  mkAstro "Rohini" 1 "Vrishabha (Taurus)" "Dvitiya" "Preeti" "Bava"
    "Karka (Cancer)" "Moon" "Kumbha (Aquarius)" "Meena (Pisces)" (Some true)
    "Moon" (Some "Jupiter") (Some "Venus") 1 0 0 None.

(** ** astrology_engine.py: houses *)

Definition b2z (b : bool) : Z := if b then 1 else 0.

(** How many of the indices pass a test. *)
Definition count (f : Z → bool) (l : list Z) : Z :=
  foldr (λ i n, b2z (f i) + n) 0 l.

(** House [i] runs through the point 0°/360°: it ends below its start. *)
Definition wraps (cusps : list Q) (i : Z) : bool :=
  negb (Qle_bool (house_start cusps i) (house_end cusps i)).

(** The twelve cusps form a ring: going from cusp to cusp once round,
    exactly one house runs through the point 0°/360°. *)
Definition is_ring (cusps : list Q) : Prop :=
  count (wraps cusps) (seqZ 1 12) = 1.

(** The longitude lies in the half-open arc of house [i], which wraps at
    360° when the house ends below its start. *)
Definition in_house_arc (cusps : list Q) (lon : Q) (i : Z) : Prop :=
  if Qle_bool (house_start cusps i) (house_end cusps i)
  then (house_start cusps i <= lon)%Q ∧ (lon < house_end cusps i)%Q
  else (house_start cusps i <= lon)%Q ∨ (lon < house_end cusps i)%Q.

(** ** Dates and times as strings *)

Definition same_comparison (c1 c2 : comparison) : bool :=
  match c1, c2 with
  | Eq, Eq | Lt, Lt | Gt, Gt => true
  | _, _ => false
  end.

(** A date whose fields fit the widths of ["%04d-%02d-%02d"]. *)
Definition printable_date (d : Py.date) : Prop :=
  0 ≤ Py.year d < 10000 ∧ 0 ≤ Py.month d < 100 ∧ 0 ≤ Py.day d < 100.

(** ** muhurat_engine.py *)

(** A slot of the scan: the date, the hour and the minute. *)
Abbreviation slot := (Py.date * Z * Z)%type.

(** The minutes of [minutes] that the minute loop reaches at [hour]: the
    loop is left at the first minute past the end of the window. *)
Fixpoint minutes_scanned (hour : Z) (minutes : list Z) : list Z :=
  match minutes with
  | [] => []
  | minute :: rest =>
      if (hour =? DAY_END_HOUR) && (0 <? minute) then []
      else minute :: minutes_scanned hour rest
  end.

Definition hour_slots (d : Py.date) (hour : Z) : list slot :=
  (λ minute, (d, hour, minute))
    <$> minutes_scanned hour (py_range 0 60 TIME_SLOT_MINUTES).

Definition day_slots (d : Py.date) : list slot :=
  py_range DAY_START_HOUR (DAY_END_HOUR + 1) 1 ≫= hour_slots d.

(** The dates the generator [_date_range] yields from [cur] on. *)
Fixpoint dates_from (fuel : nat) (cur ed : Py.date) : list Py.date :=
  match fuel with
  | O => []
  | S fuel' =>
      if Py.date_leb cur ed
      then cur :: match Py.add_one_day cur with
                  | Ok cur' => dates_from fuel' cur' ed
                  | Raise _ => []
                  end
      else []
  end.

(** The slots of a scan in the order in which the three nested loops
    reach them. *)
Definition scan_order (p : scan_params) : list slot :=
  dates_from (scan_fuel p) (sp_sd p) (sp_ed p) ≫= day_slots.

Section scan_vocabulary.
Context (svc : Services) (p : scan_params).
Context (strict_filters : bool) (min_score : Z).

(** The slot passes the Rahu Kalam test, the trait filter and the score
    threshold, with factor set [astro] and score [score]: it reaches the
    de-duplication step. *)
Definition survives (s : slot) (astro : Astro) (score : Z) : Prop :=
  evaluate_slot svc p strict_filters min_score s.1.1 s.1.2 s.2
  = Ok (Some (astro, score)).

(** The three loops as one loop over a list of slots. *)
Fixpoint flat_loop (slots : list slot) (st : scan_state) : res scan_state :=
  match slots with
  | [] => Ok st
  | s :: rest =>
      r ← scan_slot svc p strict_filters min_score s.1.1 s.1.2 s.2 st;
      match r with
      | None => flat_loop rest st
      | Some st' => if cap_reached p st' then Ok st' else flat_loop rest st'
      end
  end.

(** [collected visited st st']: running the loop body on the slots
    [visited], in order, takes the state [st] to [st']. *)
Inductive collected : list slot → scan_state → scan_state → Prop :=
| collected_nil st : collected [] st st
| collected_skip s visited st st' :
    scan_slot svc p strict_filters min_score s.1.1 s.1.2 s.2 st = Ok None →
    collected visited st st' →
    collected (s :: visited) st st'
| collected_keep s visited st st1 st' :
    scan_slot svc p strict_filters min_score s.1.1 s.1.2 s.2 st = Ok (Some st1) →
    collected visited st1 st' →
    collected (s :: visited) st st'.

End scan_vocabulary.

(** The set [seen_keys] holds the keys of the results. *)
Definition keys_agree (st : scan_state) : Prop :=
  ∀ k, k ∈ seen_keys st ↔ k ∈ muhurat_key <$> results st.

(** The result item of a slot. *)
Definition slot_result (s : slot) (astro : Astro) (score : Z) : Muhurat :=
  make_result (Py.isoformat s.1.1) (time_str s.1.2 s.2) astro score.

(** [m1] may stand before [m2] in the ranking: a higher score, or the
    same score and an earlier date string, or the same score and date
    and a time string that is not later. *)
Definition ranks_before (m1 m2 : Muhurat) : Prop :=
  m_score m2 < m_score m1
  ∨ (m_score m1 = m_score m2
     ∧ (Py.str_ltb (m_date m1) (m_date m2) = true
        ∨ (m_date m1 = m_date m2 ∧ Py.str_leb (m_time m1) (m_time m2) = true))).

(** The (hour, minute) pairs of one day, in the order of the two inner
    loops. *)
Definition day_grid : list (Z * Z) :=
  py_range DAY_START_HOUR (DAY_END_HOUR + 1) 1
    ≫= λ hour, (λ minute, (hour, minute))
                 <$> minutes_scanned hour (py_range 0 60 TIME_SLOT_MINUTES).

(** The order of slots in time. *)
Definition slot_compare (s1 s2 : slot) : comparison :=
  match Py.date_compare s1.1.1 s2.1.1 with
  | Eq => match s1.1.2 ?= s2.1.2 with
          | Eq => s1.2 ?= s2.2
          | c => c
          end
  | c => c
  end.

(** A slot whose date is a date and whose hour and minute are on the
    clock. *)
Definition valid_slot (s : slot) : Prop :=
  Py.valid_date s.1.1 ∧ 0 ≤ s.1.2 < 24 ∧ 0 ≤ s.2 < 60.

(** A service whose factor set changes at noon, for one day of scanning:
    the slots before noon share one signature, the later slots
    another. *)
Definition noon_astro : Astro :=
  mkAstro "Pushya" 4 "Karka (Cancer)" "Tritiya" "Siddhi" "Balava"
    "Tula (Libra)" "Venus" "Vrishabha (Taurus)" "Meena (Pisces)" (Some true)
    "Venus" (Some "Jupiter") (Some "Venus") 0 1 0 None.

Definition demo_services : Services :=
  mkServices
    (λ _, Ok (mkLocation 19.076 72.8777 "Asia/Kolkata"))
    (λ date time _, if String.ltb time "12:00" then Ok plain_astro else Ok noon_astro)
    (λ _ _ _ _, Ok "Jupiter")
    (λ _ _ _, Ok (mkParentMeta (Some "Sun") (Some "Moon") (Some false)))
    (λ _, None).

Definition demo_location : LocationInput :=
  mkLocationInput (Some 19.076%Q) (Some 72.8777%Q) (Some "Asia/Kolkata") None.

Definition demo_day : Py.date := Py.mkdate 2025 6 1.

Definition demo_params : scan_params :=
  mkScanParams demo_day demo_day [] WEIGHTS (mkLocation 19.076 72.8777 "Asia/Kolkata")
    None None 50.

(** A service under which no slot reaches a score of 10. *)
Definition bleak_services : Services :=
  mkServices
    (λ _, Ok (mkLocation 19.076 72.8777 "Asia/Kolkata"))
    (λ _ _ _, Ok clash_astro)
    (λ _ _ _ _, Ok "Jupiter")
    (λ _ _ _, Ok (mkParentMeta (Some "Sun") (Some "Moon") (Some false)))
    (λ _, None).

(** The collaborators answer every call, and the factor calculator names
    one of the 27 nakshatras. *)
Definition services_answer (svc : Services) : Prop :=
  (∀ l, ∃ loc, resolve_location svc l = Ok loc)
  ∧ (∀ d t l, ∃ astro, calculate_astrology svc d t l = Ok astro
                       ∧ nakshatra astro ∈ NAKSHATRA_LIST)
  ∧ (∀ d t l u, ∃ lord, calculate_dasha_lord_for_birth svc d t l u = Ok lord)
  ∧ (∀ d t l, ∃ pm, calculate_parent_meta svc d t l = Ok pm).

(** * Vocabulary for the astrology module and the engine on top of it *)

(** ** astrology_engine.py: the dasha timeline *)




(** ** astrology_engine.py: the chart *)






(** An ephemeris for the examples: twelve houses of 30° that start at
    10°, the ascendant at 100°, the Moon at 100° and Mercury at 105° in the
    fourth house, Jupiter at 260° and Venus at 270° in the ninth; a
    geocoder that finds nothing, one time zone, no language model, and a
    clock on which every local time is the instant 0. *)
Definition demo_cusps : list Q :=
  [10; 40; 70; 100; 130; 160; 190; 220; 250; 280; 310; 340]%Q.

Definition demo_libraries : Libraries :=
  mkLibraries
    (λ _ b, match b with
            | SUN => 80 | MOON => 100 | MARS => 200 | MERCURY => 105
            | JUPITER => 260 | VENUS => 270 | SATURN => 350 | MEAN_NODE => 340
            end%Q)
    (λ _ _ _, (demo_cusps, [100; 280]%Q))
    (λ _ _, GeoNone)
    (λ _ _, Some "Asia/Kolkata")
    (λ _, None)
    (λ _ _, Ok 0%Q).

Definition demo_place : place_or_location :=
  location_dict (mkLocation 19.076 72.8777 "Asia/Kolkata").


(** ** muhurat_engine.py on top of astrology_engine.py *)

(** The engine's imports bound to the astrology module: a request names
    its location by the four fields of the record [LocationInput], with
    [city], [state] and [country] absent and [use_llm] at its default
    [False], and every later call passes the dictionary that
    [resolve_location] returned. *)
Definition engine_services (lib : Libraries)
    (llm : string → option (list string)) : Services :=
  mkServices
    (λ l, Astrology.resolve_location lib
            (PlaceInput (mkLocationFields (li_latitude l) (li_longitude l)
                           (li_timezone l) (li_place l) None None None (Some false))))
    (λ d t l, Astrology.calculate_astrology lib d t (location_dict l))
    (λ d t l target, Astrology.calculate_dasha_lord_for_birth lib d t
                       (location_dict l) target)
    (λ d t l, Astrology.calculate_parent_meta lib d t (location_dict l))
    llm.

(** The four traits whose row filter asks for a benefic lagna. *)
Definition LAGNA_TRAITS : list string :=
  ["health"; "leadership"; "stability"; "courage"].

(** ** qualities.py *)

(** The factors that [TRAIT_WEIGHT_OVERRIDES] names. *)
Definition PERSONAL_FACTORS : list string :=
  ["lagna"; "tithi"; "yoga"; "nakshatra"; "rashi"; "karana"].

(** ** astrology_engine.py: locations *)

(** A field of a location that is absent, empty or white space only. *)
Definition blank (x : option string) : Prop := strip (or_else x "") = "".

(** The example libraries with a geocoder that times out at the first
    attempt and finds the place at the second. *)
Definition slow_libraries : Libraries :=
  mkLibraries (swe_calc_ut demo_libraries) (swe_houses demo_libraries)
    (λ _ timeout, if timeout =? 3 then GeoTimedOut "Service timed out"
                  else GeoFound 19.076 72.8777)
    (timezone_at demo_libraries) (llm_place demo_libraries)
    (localize demo_libraries).

(** The geocoder found nothing at this attempt, or timed out or was
    unavailable: the attempts after which [_geocode_place] goes on. *)
Definition gave_up (a : geo_answer) : Prop :=
  a = GeoNone ∨ ∃ msg, a = GeoTimedOut msg.


(** * Properties *)

(** ** The result monad *)

Lemma bind_Ok {A B} (m : res A) (f : A → res B) (b : B) :
  (m ≫= f) = Ok b ↔ ∃ a, m = Ok a ∧ f a = Ok b.
Proof.
  destruct m as [a|e]; cbn.
  - split; [eauto | intros (a' & [= <-] & ?); done].
  - split; [done | intros (a' & ? & ?); done].
Qed.

Lemma getitem_Ok {V} (d : gmap string V) (k : string) (v : V) :
  getitem d k = Ok v ↔ d !! k = Some v.
Proof. unfold getitem. destruct (d !! k); naive_solver. Qed.

(** ** Comparisons on rationals *)

Lemma Qlt_bool_iff (x y : Q) : Py.Qlt_bool x y = true ↔ (x < y)%Q.
Proof.
  unfold Py.Qlt_bool. rewrite negb_true_iff, <- not_true_iff_false, Qle_bool_iff.
  split; [apply Qnot_le_lt | apply Qlt_not_le].
Qed.

Lemma Qlt_bool_false_iff (x y : Q) : Py.Qlt_bool x y = false ↔ (y <= x)%Q.
Proof.
  unfold Py.Qlt_bool. rewrite negb_false_iff. apply Qle_bool_iff.
Qed.

Lemma Qle_bool_false_iff (x y : Q) : Qle_bool x y = false ↔ (y < x)%Q.
Proof.
  rewrite <- not_true_iff_false, Qle_bool_iff.
  split; [apply Qnot_le_lt | apply Qlt_not_le].
Qed.

Lemma fmod_bounds (x y : Q) : (0 < y)%Q → (0 <= Py.fmod x y)%Q ∧ (Py.fmod x y < y)%Q.
Proof.
  intros Hy. unfold Py.fmod.
  pose proof (Qfloor_le (x / y)) as H1.
  pose proof (Qlt_floor (x / y)) as H2.
  set (f := Qfloor (x / y)) in *.
  assert (Hx : (x == (x / y) * y)%Q) by (field; lra).
  set (z := (x / y)%Q) in *.
  rewrite inject_Z_plus in H2. 
  assert (E : (x - y * inject_Z f == (z - inject_Z f) * y)%Q)
    by (rewrite Hx at 1; ring).
  rewrite E. split.
  - apply Qmult_le_0_compat; lra.
  - assert (H : (0 < (inject_Z f + inject_Z 1 - z) * y)%Q)
      by (apply Qmult_lt_0_compat; lra).
    assert (E' : ((inject_Z f + inject_Z 1 - z) * y
                  == y - (z - inject_Z f) * y)%Q)
      by (change (inject_Z 1) with 1%Q; ring).
    rewrite E' in H. lra.
Qed.

Lemma fmod_small (x y : Q) : (0 <= x)%Q → (x < y)%Q → (Py.fmod x y == x)%Q.
Proof.
  intros Hx Hy. unfold Py.fmod.
  assert (Hf : Qfloor (x / y) = 0%Z).
  { assert (Hy0 : (0 < y)%Q) by lra.
    assert (H0 : (0 <= x / y)%Q) by (apply Qle_shift_div_l; lra).
    assert (H1 : (x / y < 1)%Q) by (apply Qlt_shift_div_r; lra).
    pose proof (Qfloor_le (x / y)) as F1.
    pose proof (Qlt_floor (x / y)) as F2.
    rewrite inject_Z_plus in F2. change (inject_Z 1) with 1%Q in F2.
    assert (Qfloor (x / y) < 1)%Z.
    { rewrite Zlt_Qlt. change (inject_Z 1) with 1%Q. lra. }
    assert (-1 < Qfloor (x / y))%Z.
    { rewrite Zlt_Qlt. change (inject_Z (-1)) with (-1)%Q. lra. }
    lia. }
  rewrite Hf. ring.
Qed.

(** ** kalam.py *)

(** C2, counterexample.  Monday 2025-06-02 at 09:00 is a slot of the
    scanner; 09:00 is the end of Monday's interval (7.5, 9.0), so the slot
    is outside the half-open interval, and [is_rahu_kalam] still skips
    it. *)
Lemma rahu_kalam_end_hour_is_skipped :
  let local_dt := Py.mkdatetime (Py.mkdate 2025 6 2) 9 0 in
  RAHU_KALAM !! Py.weekday (Py.dt_date local_dt) = Some (7.5, 9.0)%Q
  ∧ (hour_of_day local_dt == 9.0)%Q
  ∧ is_rahu_kalam local_dt = true
  ∧ ¬ in_half_open_rahu_interval local_dt.
Proof.
  cbv zeta. split; [by vm_compute|]. split; [by vm_compute|].
  split; [by vm_compute|].
  intros (start & end_ & Hlook & _ & Hlt).
  assert (Hw : RAHU_KALAM !! Py.weekday (Py.dt_date
             (Py.mkdatetime (Py.mkdate 2025 6 2) 9 0)) = Some (7.5, 9.0)%Q)
    by (by vm_compute).
  rewrite Hw in Hlook. injection Hlook as <- <-.
  revert Hlt. unfold hour_of_day. cbn [Py.hour Py.minute]. intros Hlt.
  apply Qlt_not_le in Hlt. apply Hlt. by vm_compute.
Qed.

(** C2, as the code has it.  A slot is skipped as Rahu Kalam exactly when
    its hour of the day lies in the closed interval [start, end] of its
    weekday: the slot at the end hour is skipped too. *)
Theorem rahu_kalam_closed_interval (local_dt : Py.datetime) :
  is_rahu_kalam local_dt = true ↔
  ∃ start end_,
    RAHU_KALAM !! Py.weekday (Py.dt_date local_dt) = Some (start, end_)
    ∧ (start <= hour_of_day local_dt)%Q ∧ (hour_of_day local_dt <= end_)%Q.
Proof.
  unfold is_rahu_kalam.
  destruct (RAHU_KALAM !! Py.weekday (Py.dt_date local_dt)) as [[s e]|].
  - rewrite andb_true_iff, !Qle_bool_iff. split.
    + intros [? ?]. by exists s, e.
    + intros (s' & e' & [= <- <-] & ? & ?). done.
  - split; [done|]. intros (? & ? & ? & _). done.
Qed.

(** Every weekday has its interval, so the table decides every slot. *)
Lemma rahu_kalam_table_total (d : Py.date) :
  is_Some (RAHU_KALAM !! Py.weekday d).
Proof.
  unfold Py.weekday.
  pose proof (Z.mod_pos_bound (Py.toordinal d + 6) 7 ltac:(lia)) as Hb.
  set (w := (Py.toordinal d + 6) mod 7) in *.
  assert (Hw : w = 0 ∨ w = 1 ∨ w = 2 ∨ w = 3 ∨ w = 4 ∨ w = 5 ∨ w = 6) by lia.
  destruct Hw as [->|[->|[->|[->|[->|[->| ->]]]]]]; vm_compute; eauto.
Qed.

(** ** scoring.py *)

Lemma if_Ok {A} (b : bool) (x y : A) :
  (if b then Ok x else Ok y) = Ok (if b then x else y).
Proof. by destruct b. Qed.

Lemma if_bounds (b : bool) (v : Z) : 0 ≤ v → 0 ≤ (if b then v else 0) ≤ v.
Proof. destruct b; lia. Qed.

Lemma baby_start_dasha_lord_Ok (nak : string) :
  nak ∈ NAKSHATRA_LIST →
  ∃ lord, baby_start_dasha_lord nak = Ok lord ∧ truthy (Some lord) = true.
Proof.
  intros Hin.
  assert (Hall : Forall (λ n, ∃ lord, baby_start_dasha_lord n = Ok lord
                                      ∧ truthy (Some lord) = true) NAKSHATRA_LIST).
  { unfold NAKSHATRA_LIST.
    repeat (constructor; [eexists; split; vm_compute; reflexivity|]).
    constructor. }
  rewrite Forall_forall in Hall. by apply Hall.
Qed.

Lemma weight_ok (w : gmap string Z) (k : string) :
  weights_nonneg w → k ∈ SCORE_FACTORS → getitem w k = Ok (wt w k) ∧ 0 ≤ wt w k.
Proof.
  intros Hw Hk. destruct (Hw k Hk) as (v & Hv & Hpos).
  unfold wt, getitem. by rewrite Hv.
Qed.

Ltac factor_in := apply (bool_decide_unpack _); by vm_compute.

Section score_bounds.
Context (astro : Astro) (parents_meta : option ParentsMeta).
Context (w : gmap string Z).
Context (Hw : weights_nonneg w).

Local Ltac weight k H P :=
  destruct (weight_ok w k Hw ltac:(factor_in)) as [H P].

Lemma base_terms_bounds :
  ∃ s, base_terms astro w = Ok s
       ∧ 0 ≤ s ≤ wt w "nakshatra" + wt w "rashi" + wt w "pada" + wt w "tithi"
                 + wt w "yoga" + wt w "karana" + wt w "lagna"
                 + wt w "eighth_house" + wt w "jupiter" + wt w "dasha"
                 + wt w "parents_dasha".
Proof.
  weight "nakshatra" H1 P1. weight "rashi" H2 P2.
  weight "pada" H3 P3. weight "tithi" H4 P4.
  weight "yoga" H5 P5. weight "karana" H6 P6.
  weight "lagna" H7 P7. weight "eighth_house" H8 P8.
  weight "jupiter" H9 P9. weight "dasha" H10 P10.
  weight "parents_dasha" H11 P11.
  unfold base_terms, score_nakshatra, score_rashi, score_pada, score_tithi,
    score_yoga, score_karana, score_lagna, score_eighth_house, score_jupiter,
    score_dasha.
  assert (Hpd : ∃ s11, score_parents_dasha (parents_dasha astro) w = Ok s11
                       ∧ 0 ≤ s11 ≤ wt w "parents_dasha").
  { unfold score_parents_dasha.
    destruct (parents_dasha astro); [|eexists; split; [done|lia]].
    rewrite H11, if_Ok. eexists; split; [done|]. by apply if_bounds. }
  destruct Hpd as (s11 & -> & B11).
  rewrite H1, H2, H3, H4, H5, H6, H7, H8, H9, H10, !if_Ok.
  cbn [mbind res_mbind res_bind].
  eexists. split; [reflexivity|].
  pose proof (if_bounds (str_in (nakshatra astro) SHUBHA_NAKSHATRAS) _ P1).
  pose proof (if_bounds (str_in (rashi astro) BENEFIC_RASHIS) _ P2).
  pose proof (if_bounds ((pada astro =? 1) || (pada astro =? 4)) _ P3).
  pose proof (if_bounds (str_in (tithi astro) BENEFIC_TITHIS) _ P4).
  pose proof (if_bounds (str_in (yoga astro) BENEFIC_YOGAS) _ P5).
  pose proof (if_bounds (str_in (karana astro) BENEFIC_KARANAS) _ P6).
  pose proof (if_bounds (str_in (lagna astro) BENEFIC_LAGNAS) _ P7).
  pose proof (if_bounds (str_in (eighth_house_rashi astro) BENEFIC_LAGNAS) _ P8).
  pose proof (if_bounds (str_in (jupiter_rashi astro) BENEFIC_JUPITER_RASHIS) _ P9).
  pose proof (if_bounds (str_in (dasha_lord astro) BENEFIC_DASHA_LORDS) _ P10).
  lia.
Qed.

(** A clash term is the penalty or nothing. *)
Lemma score_dasha_clash_bounds (parent_dasha : option string) (baby_start : string) :
  ∃ s, score_dasha_clash parent_dasha baby_start w = Ok s
       ∧ - wt w "dasha_clash" ≤ s ≤ 0
       ∧ (dasha_clashes parent_dasha baby_start = false → s = 0).
Proof.
  weight "dasha_clash" H P. unfold score_dasha_clash. rewrite H.
  cbn [mbind res_mbind res_bind].
  repeat case_match; eexists; (split; [reflexivity|]); split; (lia || done).
Qed.

Lemma score_arrival_indicator_bounds (l5 l9 parent_dasha : option string) :
  ∃ s, score_arrival_indicator l5 l9 parent_dasha w = Ok s
       ∧ 0 ≤ s ≤ wt w "arrival_indicator".
Proof.
  weight "arrival_indicator" H P. unfold score_arrival_indicator. rewrite H.
  repeat case_match; eexists; (split; [reflexivity|]); lia.
Qed.

Lemma score_jupiter_compensation_bounds (pj bj : option bool) :
  ∃ s, score_jupiter_compensation pj bj w = Ok s
       ∧ 0 ≤ s ≤ wt w "jupiter_compensation".
Proof.
  weight "jupiter_compensation" H P. unfold score_jupiter_compensation. rewrite H.
  repeat case_match; eexists; (split; [reflexivity|]); lia.
Qed.

Lemma score_lagna_friendship_bounds (lord : string) (pd : option ParentsDasha) :
  ∃ s, score_lagna_friendship lord pd w = Ok s
       ∧ 0 ≤ s ≤ wt w "lagna_friendship".
Proof.
  weight "lagna_friendship" H P. unfold score_lagna_friendship. rewrite H.
  repeat case_match; eexists; (split; [reflexivity|]); lia.
Qed.

Lemma parent_terms_bounds (baby_start : string) :
  ∃ s, parent_terms astro parents_meta baby_start w = Ok s
       ∧ - (2 * wt w "dasha_clash") ≤ s
       ∧ s ≤ wt w "lagna_friendship" + 2 * wt w "arrival_indicator"
             + 2 * wt w "jupiter_compensation"
       ∧ (baby_start_dasha_lord (nakshatra astro) = Ok baby_start →
          clash_free astro parents_meta → 0 ≤ s).
Proof.
  weight "dasha_clash" Hc Pc. weight "lagna_friendship" Hl Pl.
  weight "arrival_indicator" Ha Pa. weight "jupiter_compensation" Hj Pj.
  unfold parent_terms, clash_free.
  destruct parents_meta as [pm|]; [|eexists; split; [done|]; repeat split; lia].
  set (pdasha := default (mkParentsDasha None None) (parents_dasha astro)).
  destruct (score_lagna_friendship_bounds (lagna_lord astro) (Some pdasha))
    as (p1 & -> & B1).
  destruct (score_arrival_indicator_bounds (fifth_lord (meta_mother pm))
              (pm_ninth_lord (meta_mother pm)) (pd_mother pdasha)) as (p2 & -> & B2).
  destruct (score_arrival_indicator_bounds (fifth_lord (meta_father pm))
              (pm_ninth_lord (meta_father pm)) (pd_father pdasha)) as (p3 & -> & B3).
  destruct (score_dasha_clash_bounds (pd_mother pdasha) baby_start)
    as (p4 & -> & B4 & Z4).
  destruct (score_dasha_clash_bounds (pd_father pdasha) baby_start)
    as (p5 & -> & B5 & Z5).
  destruct (score_jupiter_compensation_bounds (pm_jupiter_strong (meta_mother pm))
              (jupiter_strong astro)) as (p6 & -> & B6).
  destruct (score_jupiter_compensation_bounds (pm_jupiter_strong (meta_father pm))
              (jupiter_strong astro)) as (p7 & -> & B7).
  cbn [mbind res_mbind res_bind].
  eexists. split; [reflexivity|]. split; [lia|]. split; [lia|].
  intros Hbaby Hfree. subst pdasha.
  destruct (parents_dasha astro) as [pd|]; cbn [default] in *.
  - destruct (Hfree _ Hbaby) as [F1 F2]. rewrite (Z4 F1), (Z5 F2). lia.
  - rewrite Z4, Z5 by done. lia.
Qed.

End score_bounds.

Lemma max_possible_Ok (w : gmap string Z) :
  weights_nonneg w → _max_possible w = Ok (max_sum w) ∧ 0 ≤ max_sum w.
Proof.
  intros Hw. unfold _max_possible, max_sum.
  repeat match goal with
  | |- context [getitem w ?k] =>
      let H := fresh in let P := fresh in
      destruct (weight_ok w k Hw ltac:(factor_in)) as [H P];
      rewrite H; cbn [mbind res_mbind res_bind]
  end.
  split; [reflexivity|lia].
Qed.

Lemma raw_score_bounds (astro : Astro) (parents_meta : option ParentsMeta)
    (w : gmap string Z) :
  weights_nonneg w →
  nakshatra astro ∈ NAKSHATRA_LIST →
  ∃ raw, raw_score astro parents_meta w = Ok raw
    ∧ (0 ≤ ninth_strength astro ≤ 1 → 0 ≤ fourth_strength astro ≤ 1 →
       - max_sum w ≤ raw ≤ max_sum w
       ∧ (clash_free astro parents_meta → 0 ≤ raw)).
Proof.
  intros Hw Hnak. unfold raw_score.
  destruct (base_terms_bounds astro w Hw) as (b & -> & Bb).
  destruct (baby_start_dasha_lord_Ok _ Hnak) as (lord & Hlord & Htruthy).
  rewrite Hlord. cbn [mbind res_mbind res_bind].
  destruct (parent_terms_bounds astro parents_meta w Hw lord)
    as (pt & -> & Bp1 & Bp2 & Bp3).
  cbn [mbind res_mbind res_bind]. unfold score_house_strength.
  destruct (weight_ok w "ninth_house_strength" Hw ltac:(factor_in)) as [-> P9].
  destruct (weight_ok w "fourth_house_strength" Hw ltac:(factor_in)) as [-> P4].
  destruct (weight_ok w "baby_start_dasha" Hw ltac:(factor_in)) as [Hb Pb].
  destruct (weight_ok w "dasha_clash" Hw ltac:(factor_in)) as [_ Pc].
  destruct (weight_ok w "lagna_friendship" Hw ltac:(factor_in)) as [_ Pl].
  destruct (weight_ok w "arrival_indicator" Hw ltac:(factor_in)) as [_ Pa].
  destruct (weight_ok w "jupiter_compensation" Hw ltac:(factor_in)) as [_ Pj].
  cbn [mbind res_mbind res_bind]. rewrite Htruthy, Hb.
  cbn [mbind res_mbind res_bind].
  eexists. split; [reflexivity|]. intros H9 H4. unfold max_sum.
  split; [|intros Hfree; specialize (Bp3 Hlord Hfree)]; nia.
Qed.

Lemma round_half_even_bounds (n d a b : Z) :
  0 < d → a * d ≤ n ≤ b * d → a ≤ Py.round_half_even n d ≤ b.
Proof.
  intros Hd [Ha Hb]. unfold Py.round_half_even.
  pose proof (Z.div_mod n d ltac:(lia)) as Hdm.
  pose proof (Z.mod_pos_bound n d Hd) as Hr.
  set (q := n / d) in *. set (r := n mod d) in *.
  assert (a ≤ q) by nia. assert (q ≤ b) by nia.
  destruct (2 * r <? d) eqn:E1; [lia|].
  apply Z.ltb_ge in E1.
  assert (q + 1 ≤ b) by nia.
  destruct (d <? 2 * r); [lia|]. destruct (Z.even q); lia.
Qed.

Lemma weights_nonneg_check (w : gmap string Z) :
  Forall (λ k, ∃ v, w !! k = Some v ∧ 0 ≤ v) SCORE_FACTORS → weights_nonneg w.
Proof. intros Hall k Hk. rewrite Forall_forall in Hall. by apply Hall. Qed.

Lemma all_weights_zero_check (w : gmap string Z) :
  Forall (λ k, w !! k = Some 0) SCORE_FACTORS → all_weights_zero w.
Proof. intros Hall k Hk. rewrite Forall_forall in Hall. by apply Hall. Qed.

Ltac check_weights :=
  first [apply weights_nonneg_check | apply all_weights_zero_check];
  unfold SCORE_FACTORS;
  repeat (constructor;
          [first [by vm_compute | eexists; split; [by vm_compute|lia]]|]);
  constructor.

(** C1, counterexample.  With the default weight table, a slot under
    Ashwini (starting dasha lord Ketu) whose parents both run the dasha of
    Rahu scores -9: the two clash penalties outweigh the rest.  With a
    table whose only non-zero weight is 1 for the ninth house strength,
    two benefic planets in the ninth house score 200. *)
Lemma compute_score_leaves_range :
  compute_score clash_astro (Some clash_parents) WEIGHTS = Ok (-9)
  ∧ weights_nonneg WEIGHTS
  ∧ compute_score crowded_ninth_astro None ninth_only_weights = Ok 200
  ∧ weights_nonneg ninth_only_weights.
Proof.
  split; [by vm_compute|]. split; [check_weights|].
  split; [by vm_compute|]. check_weights.
Qed.

(** C1, as the code has it.  For a factor set whose nakshatra is one of
    the 27: with all weights zero the score is 0, and no division takes
    place; with non-negative weights and house-strength counts of 0 or 1
    the score is an integer in [-100, 100], and in [0, 100] when no
    parent's dasha clashes with the baby's starting dasha. *)
Theorem compute_score_range (astro : Astro) (parents_meta : option ParentsMeta)
    (w : gmap string Z) :
  nakshatra astro ∈ NAKSHATRA_LIST →
  (all_weights_zero w → compute_score astro parents_meta w = Ok 0)
  ∧ (weights_nonneg w →
     0 ≤ ninth_strength astro ≤ 1 → 0 ≤ fourth_strength astro ≤ 1 →
     ∃ s, compute_score astro parents_meta w = Ok s
          ∧ -100 ≤ s ≤ 100
          ∧ (clash_free astro parents_meta → 0 ≤ s)).
Proof.
  intros Hnak. split.
  - intros Hz.
    assert (Hw : weights_nonneg w).
    { intros k Hk. exists 0. split; [by apply Hz|lia]. }
    destruct (raw_score_bounds astro parents_meta w Hw Hnak) as (raw & Hraw & _).
    destruct (max_possible_Ok w Hw) as [Hmax _].
    unfold compute_score. rewrite Hraw, Hmax. cbn [mbind res_mbind res_bind].
    assert (Hsum : max_sum w = 0).
    { unfold max_sum, wt.
      repeat match goal with
      | |- context [w !! ?k] => rewrite (Hz k ltac:(factor_in))
      end. reflexivity. }
    by rewrite Hsum.
  - intros Hw H9 H4.
    destruct (raw_score_bounds astro parents_meta w Hw Hnak) as (raw & Hraw & Hb).
    destruct (Hb H9 H4) as [Hrange Hfree].
    destruct (max_possible_Ok w Hw) as [Hmax Hpos].
    unfold compute_score. rewrite Hraw, Hmax. cbn [mbind res_mbind res_bind].
    destruct (max_sum w <=? 0) eqn:E.
    + exists 0. split; [done|]. split; lia.
    + apply Z.leb_gt in E. eexists. split; [reflexivity|]. split.
      * apply round_half_even_bounds; lia.
      * intros Hf. specialize (Hfree Hf).
        apply (round_half_even_bounds _ _ 0 100); lia.
Qed.

(** The theorem at a slot without parents: under the all-zero table, and
    under the default table. *)
Lemma compute_score_range_witness :
  compute_score plain_astro None ((λ _, 0) <$> WEIGHTS) = Ok 0
  ∧ ∃ s, compute_score plain_astro None WEIGHTS = Ok s
         ∧ -100 ≤ s ≤ 100 ∧ (clash_free plain_astro None → 0 ≤ s).
Proof.
  assert (Hnak : nakshatra plain_astro ∈ NAKSHATRA_LIST)
    by (apply (bool_decide_unpack _); by vm_compute).
  split.
  - apply (proj1 (compute_score_range plain_astro None _ Hnak)). check_weights.
  - apply (proj2 (compute_score_range plain_astro None WEIGHTS Hnak)).
    + check_weights.
    + cbn. lia.
    + cbn. lia.
Defined.

(** Two tables that agree away from ["dasha_sandhi"] answer every
    subscript that [compute_score] makes alike. *)
Lemma getitem_agree (w1 w2 : gmap string Z) (k : string) :
  (∀ k', k' ≠ "dasha_sandhi" → w1 !! k' = w2 !! k') →
  k ≠ "dasha_sandhi" → getitem w1 k = getitem w2 k.
Proof. intros Hag Hk. unfold getitem. by rewrite (Hag k Hk). Qed.

(** C10.  The dasha-sandhi factor never contributes: [score_dasha_sandhi]
    is 0 on every input, and [compute_score], which does not call it,
    returns the same result under two weight tables that differ at most in
    their ["dasha_sandhi"] entry. *)
Theorem dasha_sandhi_never_contributes (astro : Astro)
    (parents_meta : option ParentsMeta) (parent_dasha : option string)
    (w1 w2 : gmap string Z) :
  (∀ k, k ≠ "dasha_sandhi" → w1 !! k = w2 !! k) →
  score_dasha_sandhi parent_dasha w1 = Ok 0
  ∧ score_dasha_sandhi parent_dasha w2 = Ok 0
  ∧ compute_score astro parents_meta w1 = compute_score astro parents_meta w2.
Proof.
  intros Hag.
  split; [unfold score_dasha_sandhi; by case_match|].
  split; [unfold score_dasha_sandhi; by case_match|].
  unfold compute_score, raw_score, _max_possible, base_terms, parent_terms,
    score_nakshatra, score_rashi, score_pada, score_tithi, score_yoga,
    score_karana, score_lagna, score_eighth_house, score_jupiter, score_dasha,
    score_parents_dasha, score_lagna_friendship, score_arrival_indicator,
    score_dasha_clash, score_jupiter_compensation, score_house_strength.
  repeat match goal with
  | |- context [getitem w1 ?k] =>
      rewrite (getitem_agree w1 w2 k Hag ltac:(discriminate))
  end.
  reflexivity.
Qed.

(** The theorem at the default table and the table that sets the
    ["dasha_sandhi"] weight to 99. *)
Lemma dasha_sandhi_never_contributes_witness :
  score_dasha_sandhi (Some "Rahu") WEIGHTS = Ok 0
  ∧ score_dasha_sandhi (Some "Rahu") (<["dasha_sandhi" := 99]> WEIGHTS) = Ok 0
  ∧ compute_score clash_astro (Some clash_parents) WEIGHTS
    = compute_score clash_astro (Some clash_parents)
        (<["dasha_sandhi" := 99]> WEIGHTS).
Proof.
  apply dasha_sandhi_never_contributes.
  intros k Hk. by rewrite lookup_insert_ne.
Defined.

(** ** qualities.py *)

Lemma str_in_elem_of (x : string) (l : list string) :
  str_in x l = true ↔ x ∈ l.
Proof.
  unfold str_in. rewrite existsb_exists, list_elem_of_In. split.
  - intros (y & Hy & Heq). apply String.eqb_eq in Heq. by subst.
  - intros Hx. exists x. split; [done|apply String.eqb_refl].
Qed.

Lemma unique_ordered_loop_spec (items : list string) (seen : gset string)
    (out : list string) :
  NoDup out → (∀ x, x ∈ out → x ∈ seen) →
  NoDup (_unique_ordered_loop items seen out)
  ∧ ∀ x, x ∈ _unique_ordered_loop items seen out → x ∈ out ∨ x ∈ items.
Proof.
  revert seen out. induction items as [|item rest IH]; intros seen out Hnd Hsub.
  - cbn. split; [done|]. auto.
  - cbn [_unique_ordered_loop].
    destruct (truthy (Some item) && negb (bool_decide (item ∈ seen))) eqn:E.
    + apply andb_true_iff in E as [_ Hnew].
      apply negb_true_iff, bool_decide_eq_false in Hnew.
      destruct (IH ({[item]} ∪ seen) (out ++ [item])) as [IH1 IH2].
      * apply NoDup_app. split; [done|]. split; [|apply NoDup_singleton].
        intros x Hx Hx'. apply list_elem_of_singleton in Hx' as ->.
        apply Hnew. by apply Hsub.
      * intros x Hx. apply elem_of_app in Hx as [Hx|Hx].
        -- apply elem_of_union_r. by apply Hsub.
        -- apply list_elem_of_singleton in Hx as ->.
           apply elem_of_union_l. by apply elem_of_singleton.
      * split; [done|]. intros x Hx. destruct (IH2 x Hx) as [Hx'|Hx'].
        -- apply elem_of_app in Hx' as [?|Hx']; [by left|].
           apply list_elem_of_singleton in Hx' as ->. right. by left.
        -- right. by right.
    + destruct (IH seen out Hnd Hsub) as [IH1 IH2].
      split; [done|]. intros x Hx. destruct (IH2 x Hx); [by left|].
      right. by right.
Qed.

Lemma unique_ordered_spec (items : list string) :
  NoDup (_unique_ordered items)
  ∧ ∀ x, x ∈ _unique_ordered items → x ∈ items.
Proof.
  destruct (unique_ordered_loop_spec items ∅ []) as [H1 H2].
  - apply NoDup_nil_2.
  - intros x Hx. by apply elem_of_nil in Hx.
  - split; [done|]. intros x Hx. destruct (H2 x Hx) as [Hx'|]; [|done].
    by apply elem_of_nil in Hx'.
Qed.

Lemma normalize_traits_spec (traits : option (list string)) :
  NoDup (normalize_traits traits)
  ∧ ∀ t, t ∈ normalize_traits traits → t ∈ TRAIT_OPTIONS.
Proof.
  unfold normalize_traits.
  destruct traits as [[|t ts]|]; try (split; [apply NoDup_nil_2|];
    intros x Hx; by apply elem_of_nil in Hx).
  split.
  - apply NoDup_filter, unique_ordered_spec.
  - intros x Hx. apply list_elem_of_filter in Hx as [Hx _].
    by apply str_in_elem_of.
Qed.

(** C6, counterexample.  An explicit priority list of four distinct
    canonical traits is returned as it is: four traits, not at most
    three. *)
Lemma resolve_traits_returns_four :
  resolve_traits (λ _, None) None None
    (Some ["health"; "intelligence"; "wealth"; "leadership"])
  = ["health"; "intelligence"; "wealth"; "leadership"]
  ∧ ¬ (length (resolve_traits (λ _, None) None None
         (Some ["health"; "intelligence"; "wealth"; "leadership"])) ≤ 3)%nat.
Proof. split; [by vm_compute|]. vm_compute. lia. Qed.

(** C6, as the code has it.  The resolver returns an ordered list of
    distinct canonical traits, hence of at most 9 of them; it does not cut
    the list to 3.  The cut happens where the list is used: only the first
    three traits change the weights. *)
Theorem resolve_traits_canonical (llm_reply : string → option (list string))
    (qualities_text : option string)
    (qualities_selected qualities_priority : option (list string)) :
  let traits :=
    resolve_traits llm_reply qualities_text qualities_selected qualities_priority in
  NoDup traits
  ∧ (∀ t, t ∈ traits → t ∈ TRAIT_OPTIONS)
  ∧ (length traits ≤ 9)%nat
  ∧ ∀ base, apply_trait_weights base traits = apply_trait_weights base (take 3 traits).
Proof.
  cbv zeta.
  assert (Hmain : NoDup (resolve_traits llm_reply qualities_text qualities_selected
                           qualities_priority)
                  ∧ ∀ t, t ∈ resolve_traits llm_reply qualities_text
                               qualities_selected qualities_priority
                         → t ∈ TRAIT_OPTIONS).
  { unfold resolve_traits.
    destruct (normalize_traits_spec qualities_priority) as [Hp1 Hp2].
    destruct (normalize_traits qualities_priority) as [|t ts] eqn:E; [|done].
    destruct (unique_ordered_spec
                (llm_map_traits llm_reply (default "" qualities_text)
                 ++ normalize_traits qualities_selected)) as [Hu1 Hu2].
    split; [done|]. intros t Ht. apply Hu2 in Ht.
    apply elem_of_app in Ht as [Ht|Ht].
    - unfold llm_map_traits in Ht.
      destruct (llm_reply (default "" qualities_text)) as [ts|].
      + by apply (normalize_traits_spec (Some ts)).
      + by apply elem_of_nil in Ht.
    - by apply (normalize_traits_spec qualities_selected). }
  destruct Hmain as [Hnd Hin]. split; [done|]. split; [done|]. split.
  - change 9%nat with (length TRAIT_OPTIONS).
    apply submseteq_length, NoDup_submseteq; done.
  - intros base. unfold apply_trait_weights.
    change (length TRAIT_PRIORITY_MULTIPLIERS) with 3%nat.
    by rewrite take_take, Nat.min_id.
Qed.

(** *** The weight tables in the store *)

Lemma add_item_other (w r : Store.ref) (multiplier : Z) (h : Store.store)
    (kv : string * Z) :
  r ≠ w → Store.add_item w multiplier h kv !! r = h !! r.
Proof. intros Hne. unfold Store.add_item. by rewrite lookup_alter_ne. Qed.

Lemma add_items_other (w r : Store.ref) (multiplier : Z)
    (overrides : list (string * Z)) (h : Store.store) :
  r ≠ w → foldl (Store.add_item w multiplier) h overrides !! r = h !! r.
Proof.
  intros Hne. revert h. induction overrides as [|kv rest IH]; intros h; [done|].
  cbn [foldl]. rewrite IH. by apply add_item_other.
Qed.

Lemma add_items_self (w : Store.ref) (multiplier : Z)
    (overrides : list (string * Z)) (h : Store.store) (d : gmap string Z) :
  h !! w = Some d →
  foldl (Store.add_item w multiplier) h overrides !! w
  = Some (add_overrides d overrides multiplier).
Proof.
  revert h d. induction overrides as [|kv rest IH]; intros h d Hd; [done|].
  cbn [foldl]. unfold add_overrides. cbn [foldl]. apply IH.
  unfold Store.add_item. by rewrite lookup_alter_eq, Hd.
Qed.

Lemma store_trait_loop_other (w r : Store.ref) (idx : nat) (traits : list string)
    (h : Store.store) :
  r ≠ w → Store.trait_loop w idx traits h !! r = h !! r.
Proof.
  intros Hne. revert idx h. induction traits as [|t rest IH]; intros idx h; [done|].
  cbn [Store.trait_loop]. rewrite IH. by apply add_items_other.
Qed.

Lemma store_trait_loop_self (w : Store.ref) (idx : nat) (traits : list string)
    (h : Store.store) (d : gmap string Z) :
  h !! w = Some d →
  Store.trait_loop w idx traits h !! w = Some (trait_loop d idx traits).
Proof.
  revert idx h d. induction traits as [|t rest IH]; intros idx h d Hd; [done|].
  cbn [Store.trait_loop trait_loop]. apply IH. by apply add_items_self.
Qed.

(** C9.  Weight personalisation leaves the table it is given as it was:
    [apply_trait_weights] returns a reference that was not in use before
    the call, different from [base_weights]; after the call the object at
    [base_weights], and every other object of the store, has the contents
    it had before, and the new object holds the personalised table.  So
    [get_weights_for_traits] leaves the global [WEIGHTS] as it was. *)
Theorem apply_trait_weights_frame (base_weights : Store.ref)
    (traits_ordered : list string) (h : Store.store) (d : gmap string Z) :
  h !! base_weights = Some d →
  ∃ weights h',
    Store.apply_trait_weights base_weights traits_ordered h = Some (weights, h')
    ∧ h !! weights = None
    ∧ weights ≠ base_weights
    ∧ h' !! base_weights = Some d
    ∧ (∀ r, r ≠ weights → h' !! r = h !! r)
    ∧ h' !! weights = Some (apply_trait_weights d traits_ordered)
    ∧ (Store.holds_WEIGHTS base_weights h →
       Store.get_weights_for_traits base_weights traits_ordered h = Some (weights, h')
       ∧ Store.holds_WEIGHTS base_weights h'
       ∧ h' !! weights = Some (get_weights_for_traits traits_ordered)).
Proof.
  intros Hd.
  set (weights := fresh (dom h)).
  assert (Hfresh : h !! weights = None).
  { apply not_elem_of_dom. apply is_fresh. }
  assert (Hne : weights ≠ base_weights).
  { intros Heq. rewrite Heq in Hfresh. congruence. }
  assert (Hrun : Store.apply_trait_weights base_weights traits_ordered h
                 = Some (weights,
                         Store.trait_loop weights 0
                           (take (length TRAIT_PRIORITY_MULTIPLIERS) traits_ordered)
                           (<[weights := d]> h))).
  { unfold Store.apply_trait_weights. rewrite Hd. reflexivity. }
  assert (Hother : ∀ r, r ≠ weights →
            Store.trait_loop weights 0
              (take (length TRAIT_PRIORITY_MULTIPLIERS) traits_ordered)
              (<[weights := d]> h) !! r = h !! r).
  { intros r Hr. rewrite store_trait_loop_other by done.
    by rewrite lookup_insert_ne. }
  assert (Hself : Store.trait_loop weights 0
              (take (length TRAIT_PRIORITY_MULTIPLIERS) traits_ordered)
              (<[weights := d]> h) !! weights
            = Some (apply_trait_weights d traits_ordered)).
  { unfold apply_trait_weights. apply store_trait_loop_self.
    by rewrite lookup_insert_eq. }
  eexists _, _. split; [exact Hrun|]. split; [done|]. split; [done|].
  split; [by rewrite Hother|]. split; [done|]. split; [done|].
  unfold Store.holds_WEIGHTS, Store.get_weights_for_traits. intros HW.
  split; [done|]. split; [by rewrite Hother|].
  rewrite Hself. unfold get_weights_for_traits. congruence.
Qed.

(** The theorem in the store that holds only the global table, for the
    traits health and wealth. *)
Lemma apply_trait_weights_frame_witness :
  ∃ weights h',
    Store.apply_trait_weights 1%positive ["health"; "wealth"]
      {[1%positive := WEIGHTS]} = Some (weights, h')
    ∧ ({[1%positive := WEIGHTS]} : Store.store) !! weights = None
    ∧ weights ≠ 1%positive
    ∧ h' !! 1%positive = Some WEIGHTS
    ∧ (∀ r, r ≠ weights → h' !! r = ({[1%positive := WEIGHTS]} : Store.store) !! r)
    ∧ h' !! weights = Some (apply_trait_weights WEIGHTS ["health"; "wealth"])
    ∧ (Store.holds_WEIGHTS 1%positive {[1%positive := WEIGHTS]} →
       Store.get_weights_for_traits 1%positive ["health"; "wealth"]
         {[1%positive := WEIGHTS]} = Some (weights, h')
       ∧ Store.holds_WEIGHTS 1%positive h'
       ∧ h' !! weights = Some (get_weights_for_traits ["health"; "wealth"])).
Proof.
  apply apply_trait_weights_frame. apply lookup_singleton_eq.
Defined.

(** ** astrology_engine.py: houses *)

Lemma house_contains_iff (cusps : list Q) (lon : Q) (i : Z) :
  house_contains cusps lon i = true ↔ in_house_arc cusps lon i.
Proof.
  unfold house_contains, in_house_arc.
  destruct (Qle_bool (house_start cusps i) (house_end cusps i)).
  - by rewrite andb_true_iff, Qle_bool_iff, Qlt_bool_iff.
  - by rewrite orb_true_iff, Qle_bool_iff, Qlt_bool_iff.
Qed.

Lemma house_contains_proper (cusps : list Q) (lon lon' : Q) (i : Z) :
  (lon == lon')%Q → house_contains cusps lon i = house_contains cusps lon' i.
Proof.
  intros Heq. unfold house_contains, Py.Qlt_bool. cbv zeta.
  rewrite (Qleb_comp _ _ (reflexivity (house_start cusps i)) _ _ Heq).
  by rewrite (Qleb_comp _ _ (reflexivity (house_end cusps i)) _ _ Heq).
Qed.

(** One house: it holds the longitude exactly when passing from its start
    to its end moves the longitude from one side to the other, or the
    house wraps. *)
Lemma arc_count (cusps : list Q) (lon : Q) (i : Z) :
  b2z (house_contains cusps lon i)
  = b2z (Py.Qlt_bool lon (house_end cusps i))
    - b2z (Py.Qlt_bool lon (house_start cusps i))
    + b2z (wraps cusps i).
Proof.
  unfold house_contains, wraps.
  destruct (Qle_bool (house_start cusps i) (house_end cusps i)) eqn:E;
    destruct (Qle_bool (house_start cusps i) lon) eqn:E1;
    destruct (Py.Qlt_bool lon (house_end cusps i)) eqn:E2;
    destruct (Py.Qlt_bool lon (house_start cusps i)) eqn:E3;
    try reflexivity; exfalso;
    rewrite ?Qle_bool_iff, ?Qle_bool_false_iff, ?Qlt_bool_iff,
      ?Qlt_bool_false_iff in *; lra.
Qed.

Lemma seqZ_1_12 : seqZ 1 12 = [1; 2; 3; 4; 5; 6; 7; 8; 9; 10; 11; 12].
Proof. reflexivity. Qed.

(** The houses that hold a longitude are as many as the houses that
    wrap. *)
Lemma houses_holding_count (cusps : list Q) (lon : Q) :
  count (house_contains cusps lon) (seqZ 1 12) = count (wraps cusps) (seqZ 1 12).
Proof.
  rewrite seqZ_1_12. unfold count. cbn [foldr].
  rewrite !arc_count.
  change (house_end cusps 1) with (house_start cusps 2).
  change (house_end cusps 2) with (house_start cusps 3).
  change (house_end cusps 3) with (house_start cusps 4).
  change (house_end cusps 4) with (house_start cusps 5).
  change (house_end cusps 5) with (house_start cusps 6).
  change (house_end cusps 6) with (house_start cusps 7).
  change (house_end cusps 7) with (house_start cusps 8).
  change (house_end cusps 8) with (house_start cusps 9).
  change (house_end cusps 9) with (house_start cusps 10).
  change (house_end cusps 10) with (house_start cusps 11).
  change (house_end cusps 11) with (house_start cusps 12).
  change (house_end cusps 12) with (house_start cusps 1).
  lia.
Qed.

Lemma count_cons (f : Z → bool) (i : Z) (l : list Z) :
  count f (i :: l) = b2z (f i) + count f l.
Proof. reflexivity. Qed.

Lemma count_nonneg (f : Z → bool) (l : list Z) : 0 ≤ count f l.
Proof.
  induction l as [|i l IH]; [done|].
  rewrite count_cons. unfold b2z. destruct (f i); lia.
Qed.

Lemma count_zero (f : Z → bool) (l : list Z) (j : Z) :
  count f l = 0 → j ∈ l → f j = false.
Proof.
  induction l as [|i l IH]; intros Hc Hj; [by apply elem_of_nil in Hj|].
  rewrite count_cons in Hc. pose proof (count_nonneg f l). unfold b2z in Hc.
  apply elem_of_cons in Hj as [->|Hj].
  - destruct (f i); [lia|done].
  - apply IH; [|done]. destruct (f i); lia.
Qed.

(** When exactly one index passes the test, the loop returns it. *)
Lemma house_loop_unique (cusps : list Q) (lon : Q) (l : list Z) :
  count (house_contains cusps lon) l = 1 →
  house_loop cusps lon l ∈ l
  ∧ house_contains cusps lon (house_loop cusps lon l) = true
  ∧ ∀ j, j ∈ l → house_contains cusps lon j = true → j = house_loop cusps lon l.
Proof.
  induction l as [|i l IH]; intros Hc; [cbn in Hc; lia|].
  cbn [house_loop]. rewrite count_cons in Hc. unfold b2z in Hc.
  destruct (house_contains cusps lon i) eqn:E.
  - split; [by left|]. split; [done|]. intros j Hj Hcj.
    apply elem_of_cons in Hj as [->|Hj]; [done|].
    rewrite (count_zero _ l j) in Hcj; [done|lia|done].
  - destruct (IH ltac:(lia)) as (H1 & H2 & H3).
    split; [by right|]. split; [done|]. intros j Hj Hcj.
    apply elem_of_cons in Hj as [->|Hj]; [congruence|by apply H3].
Qed.

(** C7.  For a ring of twelve cusps and a longitude in [0, 360), exactly
    one house index in 1..12 has the longitude in its half-open arc
    (wrapping at 360°), and [house_for_longitude] returns that index. *)
Theorem house_assignment_total_exclusive (cusps ring : list Q) (lon : Q) :
  _normalize_cusps cusps = Ok ring →
  is_ring ring →
  (0 <= lon)%Q → (lon < 360)%Q →
  ∃ i, house_for_longitude cusps lon = Ok i
       ∧ 1 ≤ i ≤ 12
       ∧ in_house_arc ring lon i
       ∧ ∀ j, 1 ≤ j ≤ 12 → in_house_arc ring lon j → j = i.
Proof.
  intros Hnorm Hring Hlo Hhi.
  unfold house_for_longitude. rewrite Hnorm. cbn [mbind res_mbind res_bind].
  assert (Hlon : (Py.fmod lon 360 == lon)%Q) by (by apply fmod_small).
  assert (Hc : count (house_contains ring (Py.fmod lon 360)) (seqZ 1 12) = 1).
  { rewrite houses_holding_count. exact Hring. }
  destruct (house_loop_unique ring (Py.fmod lon 360) (seqZ 1 12) Hc)
    as (Hin & Hcont & Huniq).
  eexists. split; [reflexivity|].
  apply elem_of_seqZ in Hin. split; [lia|]. split.
  - apply house_contains_iff. by rewrite <- (house_contains_proper _ _ _ _ Hlon).
  - intros j Hj Harc. apply Huniq; [apply elem_of_seqZ; lia|].
    rewrite (house_contains_proper _ _ _ _ Hlon). by apply house_contains_iff.
Qed.

(** The theorem at twelve equal houses that start at 10°, for the
    longitude 5°, which lies in the wrapping twelfth house. *)
Lemma house_assignment_total_exclusive_witness :
  ∃ i, house_for_longitude [10; 40; 70; 100; 130; 160; 190; 220; 250; 280; 310; 340]%Q 5 = Ok i
       ∧ 1 ≤ i ≤ 12
       ∧ in_house_arc [0; 10; 40; 70; 100; 130; 160; 190; 220; 250; 280; 310; 340]%Q 5 i
       ∧ ∀ j, 1 ≤ j ≤ 12 →
           in_house_arc [0; 10; 40; 70; 100; 130; 160; 190; 220; 250; 280; 310; 340]%Q 5 j
           → j = i.
Proof.
  apply house_assignment_total_exclusive.
  - reflexivity.
  - by vm_compute.
  - by vm_compute.
  - by vm_compute.
Defined.

(** Without a ring the loop may find no house: with twelve equal cusps no
    arc holds the longitude 45°, and the function falls back on house 1. *)
Lemma house_fallback_without_ring :
  house_for_longitude (replicate 12 0%Q) 45 = Ok 1
  ∧ count (wraps (0%Q :: replicate 12 0%Q)) (seqZ 1 12) = 0
  ∧ ∀ j, 1 ≤ j ≤ 12 → ¬ in_house_arc (0%Q :: replicate 12 0%Q) 45 j.
Proof.
  split; [by vm_compute|]. split; [by vm_compute|].
  intros j Hj Harc. apply house_contains_iff in Harc.
  assert (Hc : count (house_contains (0%Q :: replicate 12 0%Q) 45) (seqZ 1 12) = 0)
    by (by vm_compute).
  rewrite (count_zero _ _ j Hc) in Harc; [done|]. apply elem_of_seqZ. lia.
Qed.

(** ** astrology_engine.py: the dasha timeline *)

Lemma nakshatra_span_pos : (0 < NAKSHATRA_SPAN)%Q.
Proof. by vm_compute. Qed.









(** ** The order of strings *)

Lemma ascii_compare_refl (c : ascii) : Ascii.compare c c = Eq.
Proof. unfold Ascii.compare. apply N.compare_refl. Qed.

Lemma ascii_compare_lt_trans (a b c : ascii) :
  Ascii.compare a b = Lt → Ascii.compare b c = Lt → Ascii.compare a c = Lt.
Proof. unfold Ascii.compare. rewrite !N.compare_lt_iff. lia. Qed.

Lemma str_compare_refl (s : string) : String.compare s s = Eq.
Proof. induction s as [|c s IH]; [done|]. cbn. by rewrite ascii_compare_refl. Qed.

Lemma str_compare_lt_trans (a b c : string) :
  String.compare a b = Lt → String.compare b c = Lt → String.compare a c = Lt.
Proof.
  revert b c. induction a as [|x a IH]; intros [|y b] [|z c]; cbn; try done.
  destruct (Ascii.compare x y) eqn:Exy; [|intros _|done].
  - apply Ascii.compare_eq_iff in Exy as ->.
    destruct (Ascii.compare y z); [apply IH|done|done].
  - destruct (Ascii.compare y z) eqn:Eyz; [|intros _|done].
    + apply Ascii.compare_eq_iff in Eyz as <-. by rewrite Exy.
    + by rewrite (ascii_compare_lt_trans _ _ _ Exy Eyz).
Qed.

Lemma str_ltb_trans (a b c : string) :
  Py.str_ltb a b = true → Py.str_ltb b c = true → Py.str_ltb a c = true.
Proof.
  unfold Py.str_ltb, String.ltb.
  destruct (String.compare a b) eqn:E1; try done.
  destruct (String.compare b c) eqn:E2; try done.
  by rewrite (str_compare_lt_trans _ _ _ E1 E2).
Qed.

Lemma str_ltb_irrefl (a : string) : Py.str_ltb a a = false.
Proof. unfold Py.str_ltb, String.ltb. by rewrite str_compare_refl. Qed.

Lemma str_leb_iff (a b : string) :
  Py.str_leb a b = true ↔ Py.str_ltb a b = true ∨ a = b.
Proof.
  unfold Py.str_leb, Py.str_ltb, String.leb, String.ltb.
  destruct (String.compare a b) eqn:E.
  - apply String.compare_eq_iff in E. naive_solver.
  - naive_solver.
  - split; [done|]. intros [?| ->]; [done|]. by rewrite str_compare_refl in E.
Qed.

Lemma str_trichotomy (a b : string) :
  Py.str_ltb a b = true ∨ a = b ∨ Py.str_ltb b a = true.
Proof.
  unfold Py.str_ltb, String.ltb. rewrite (String.compare_antisym a b).
  destruct (String.compare b a) eqn:E; cbn; auto.
  apply String.compare_eq_iff in E. auto.
Qed.

Lemma str_ltb_asym (a b : string) :
  Py.str_ltb a b = true → Py.str_ltb b a = false.
Proof.
  unfold Py.str_ltb, String.ltb. rewrite (String.compare_antisym a b).
  by destruct (String.compare b a).
Qed.

(** ** muhurat_engine.py: the ranking *)

Lemma key_leb_ranks_before (m1 m2 : Muhurat) :
  key_leb (sort_key m1) (sort_key m2) = true ↔ ranks_before m1 m2.
Proof.
  unfold key_leb, sort_key, ranks_before.
  destruct (- m_score m1 <? - m_score m2) eqn:E1.
  { apply Z.ltb_lt in E1. split; [intros _; left; lia|done]. }
  apply Z.ltb_ge in E1.
  destruct (- m_score m2 <? - m_score m1) eqn:E2.
  { apply Z.ltb_lt in E2. split; [done|]. intros [?|[? _]]; lia. }
  apply Z.ltb_ge in E2.
  destruct (Py.str_ltb (m_date m1) (m_date m2)) eqn:E3.
  { split; [intros _; right; split; [lia|by left]|done]. }
  destruct (Py.str_ltb (m_date m2) (m_date m1)) eqn:E4.
  { split; [done|]. intros [?|[_ [?|[Heq _]]]]; [lia|done|].
    rewrite Heq, str_ltb_irrefl in E4. done. }
  destruct (str_trichotomy (m_date m1) (m_date m2)) as [?|[Heq|?]]; [congruence| |congruence].
  split.
  - intros Ht. right. split; [lia|]. right. done.
  - intros [?|[_ [?|[_ ?]]]]; [lia|congruence|done].
Qed.

Lemma ranks_before_total (m1 m2 : Muhurat) :
  ranks_before m1 m2 ∨ ranks_before m2 m1.
Proof.
  unfold ranks_before.
  destruct (Z.lt_trichotomy (m_score m1) (m_score m2)) as [?|[Hs|?]]; [by right; left| |by left; left].
  destruct (str_trichotomy (m_date m1) (m_date m2)) as [?|[Hd|?]].
  - left. right. split; [done|by left].
  - destruct (str_trichotomy (m_time m1) (m_time m2)) as [?|[Ht|?]].
    + left. right. split; [done|]. right. split; [done|]. apply str_leb_iff. by left.
    + left. right. split; [done|]. right. split; [done|]. apply str_leb_iff. by right.
    + right. right. split; [done|]. right. split; [done|]. apply str_leb_iff. by left.
  - right. right. split; [done|by left].
Qed.

Lemma ranks_before_trans (m1 m2 m3 : Muhurat) :
  ranks_before m1 m2 → ranks_before m2 m3 → ranks_before m1 m3.
Proof.
  unfold ranks_before.
  intros [H1|[E1 H1]] [H2|[E2 H2]]; [left; lia|left; lia|left; lia|].
  right. split; [lia|].
  destruct H1 as [H1|[D1 T1]], H2 as [H2|[D2 T2]].
  - left. by eapply str_ltb_trans.
  - left. by rewrite <- D2.
  - left. by rewrite D1.
  - right. split; [congruence|].
    apply str_leb_iff in T1, T2. apply str_leb_iff.
    destruct T1 as [T1| ->], T2 as [T2| <-]; auto.
    left. by eapply str_ltb_trans.
Qed.

Lemma sort_insert_perm (m : Muhurat) (l : list Muhurat) :
  sort_insert m l ≡ₚ m :: l.
Proof.
  induction l as [|m' l IH]; [done|]. cbn [sort_insert].
  destruct (key_leb (sort_key m) (sort_key m')); [done|].
  rewrite IH. apply Permutation_swap.
Qed.

Lemma sort_results_perm (l : list Muhurat) : sort_results l ≡ₚ l.
Proof.
  induction l as [|m l IH]; [done|].
  change (sort_results (m :: l)) with (sort_insert m (sort_results l)).
  rewrite sort_insert_perm. by constructor.
Qed.

Lemma sort_insert_sorted (m : Muhurat) (l : list Muhurat) :
  StronglySorted ranks_before l → StronglySorted ranks_before (sort_insert m l).
Proof.
  induction 1 as [|m' l Hs IH Hall]; [repeat constructor|].
  cbn [sort_insert]. destruct (key_leb (sort_key m) (sort_key m')) eqn:E.
  - apply key_leb_ranks_before in E. constructor; [by constructor|].
    constructor; [done|]. eapply Forall_impl; [exact Hall|].
    intros x Hx. by eapply ranks_before_trans.
  - assert (Hm : ranks_before m' m).
    { destruct (ranks_before_total m m') as [H|H]; [|done].
      apply key_leb_ranks_before in H. congruence. }
    constructor; [done|].
    rewrite sort_insert_perm. by constructor.
Qed.

Lemma sort_results_sorted (l : list Muhurat) :
  StronglySorted ranks_before (sort_results l).
Proof.
  induction l as [|m l IH]; [constructor|].
  change (sort_results (m :: l)) with (sort_insert m (sort_results l)).
  by apply sort_insert_sorted.
Qed.

Lemma slice_to_nonneg {A} (l : list A) (n : Z) :
  0 ≤ n →
  Py.slice_to l n = take (Z.to_nat n) l
  ∧ Z.of_nat (length (Py.slice_to l n)) ≤ n.
Proof.
  intros Hn. unfold Py.slice_to.
  destruct (n <? 0) eqn:E; [apply Z.ltb_lt in E; lia|].
  split; [done|]. rewrite length_take. lia.
Qed.

(** ** The calendar *)

Ltac month_cases m :=
  let H := fresh in
  assert (H : m = 1 ∨ m = 2 ∨ m = 3 ∨ m = 4 ∨ m = 5 ∨ m = 6 ∨ m = 7 ∨ m = 8
              ∨ m = 9 ∨ m = 10 ∨ m = 11 ∨ m = 12) by lia;
  destruct H as [->|[->|[->|[->|[->|[->|[->|[->|[->|[->|[->| ->]]]]]]]]]]].

Lemma days_in_month_bounds (y m : Z) : 28 ≤ Py._days_in_month y m ≤ 31.
Proof. unfold Py._days_in_month. repeat case_match; lia. Qed.

Lemma days_before_next_month (y m : Z) :
  1 ≤ m ≤ 11 →
  Py._days_before_month y (m + 1) = Py._days_before_month y m + Py._days_in_month y m.
Proof.
  intros Hm. unfold Py._days_before_month, Py._days_in_month.
  generalize (Py._is_leap y). intros leap.
  month_cases m; try lia; cbn; destruct leap; reflexivity.
Qed.

Lemma days_before_next_year (y : Z) :
  Py._days_before_year (y + 1)
  = Py._days_before_year y + 365 + (if Py._is_leap y then 1 else 0).
Proof.
  unfold Py._days_before_year, Py._is_leap. cbv zeta.
  replace (y + 1 - 1) with y by lia.
  destruct (y mod 4 =? 0) eqn:E4; destruct (y mod 100 =? 0) eqn:E100;
    destruct (y mod 400 =? 0) eqn:E400; cbn [negb andb orb];
    rewrite ?Z.eqb_eq, ?Z.eqb_neq in *;
    Z.div_mod_to_equations; lia.
Qed.

Lemma days_before_year_mono (y1 y2 : Z) :
  y1 ≤ y2 → Py._days_before_year y1 ≤ Py._days_before_year y2.
Proof.
  intros Hy. unfold Py._days_before_year. cbv zeta.
  pose proof (Z.div_le_mono (y1 - 1) (y2 - 1) 4 ltac:(lia) ltac:(lia)).
  pose proof (Z.div_le_mono (y1 - 1) (y2 - 1) 400 ltac:(lia) ltac:(lia)).
  pose proof (Z.div_le_mono (y2 - 1) (y1 - 1 + (y2 - y1) * 100) 100
                ltac:(lia) ltac:(lia)) as H100.
  rewrite Z.div_add in H100 by lia.
  set (a4 := (y1 - 1) / 4) in *. set (b4 := (y2 - 1) / 4) in *.
  set (a100 := (y1 - 1) / 100) in *. set (b100 := (y2 - 1) / 100) in *.
  set (a400 := (y1 - 1) / 400) in *. set (b400 := (y2 - 1) / 400) in *.
  clearbody a4 b4 a100 b100 a400 b400. lia.
Qed.

Lemma days_before_month_mono (y m1 m2 : Z) :
  1 ≤ m1 → m1 ≤ m2 → m2 ≤ 12 →
  Py._days_before_month y m1 ≤ Py._days_before_month y m2.
Proof.
  intros H1 H12 H2. unfold Py._days_before_month.
  generalize (Py._is_leap y). intros leap.
  month_cases m1; try lia; month_cases m2; try lia;
    destruct leap; by vm_compute.
Qed.

Lemma days_before_month_bounds (y m : Z) :
  1 ≤ m ≤ 12 →
  0 ≤ Py._days_before_month y m
  ∧ Py._days_before_month y m + Py._days_in_month y m
    ≤ 365 + (if Py._is_leap y then 1 else 0).
Proof.
  intros Hm. unfold Py._days_before_month, Py._days_in_month.
  generalize (Py._is_leap y). intros leap.
  month_cases m; try lia; destruct leap; split; by vm_compute.
Qed.

(** [d + timedelta(days=1)] is a date again, it is the next day, and it
    comes later. *)
Lemma add_one_day_spec (d d' : Py.date) :
  Py.valid_date d → Py.add_one_day d = Ok d' →
  Py.valid_date d'
  ∧ Py.date_compare d d' = Lt
  ∧ Py.toordinal d' = Py.toordinal d + 1.
Proof.
  destruct d as [y m dd]. unfold Py.valid_date, Py.add_one_day, Py.date_compare,
    Py.toordinal. cbn [Py.year Py.month Py.day].
  intros (Hy & Hm & Hd).
  destruct (dd <? Py._days_in_month y m) eqn:E1.
  { apply Z.ltb_lt in E1. intros [= <-]. cbn [Py.year Py.month Py.day].
    rewrite !Z.compare_refl. split; [lia|]. split; [|lia].
    apply Z.compare_lt_iff. lia. }
  apply Z.ltb_ge in E1.
  destruct (m <? 12) eqn:E2.
  { apply Z.ltb_lt in E2. intros [= <-]. cbn [Py.year Py.month Py.day].
    pose proof (days_in_month_bounds y (m + 1)).
    rewrite Z.compare_refl. split; [lia|]. split.
    - assert (Hlt : (m ?= m + 1) = Lt) by (apply Z.compare_lt_iff; lia).
      by rewrite Hlt.
    - rewrite days_before_next_month by lia. lia. }
  apply Z.ltb_ge in E2.
  destruct (y <? 9999) eqn:E3; [|done].
  apply Z.ltb_lt in E3. intros [= <-]. cbn [Py.year Py.month Py.day].
  assert (m = 12) as -> by lia.
  split; [split; [lia|]; split; [lia|]; by vm_compute|]. split.
  - assert (Hlt : (y ?= y + 1) = Lt) by (apply Z.compare_lt_iff; lia).
    by rewrite Hlt.
  - rewrite days_before_next_year.
    assert (dd = 31) as -> by (unfold Py._days_in_month in *; cbn in *; lia).
    assert (H1 : Py._days_before_month (y + 1) 1 = 0).
    { unfold Py._days_before_month. by destruct (Py._is_leap (y + 1)). }
    assert (H12 : Py._days_before_month y 12
                  = 334 + (if Py._is_leap y then 1 else 0)).
    { unfold Py._days_before_month. by destruct (Py._is_leap y). }
    rewrite H1, H12. lia.
Qed.

(** The ordinal of a date grows with the date. *)
Lemma toordinal_mono (a b : Py.date) :
  Py.valid_date a → Py.valid_date b →
  Py.date_leb a b = true → Py.toordinal a ≤ Py.toordinal b.
Proof.
  destruct a as [y1 m1 d1], b as [y2 m2 d2].
  unfold Py.valid_date, Py.date_leb, Py.date_compare, Py.toordinal.
  cbn [Py.year Py.month Py.day].
  intros (Hy1 & Hm1 & Hd1) (Hy2 & Hm2 & Hd2).
  pose proof (days_before_month_bounds y1 m1 Hm1) as [B1 B1'].
  pose proof (days_before_month_bounds y2 m2 Hm2) as [B2 B2'].
  destruct (y1 ?= y2) eqn:Ey.
  - apply Z.compare_eq in Ey as ->.
    destruct (m1 ?= m2) eqn:Em.
    + apply Z.compare_eq in Em as ->.
      destruct (d1 ?= d2) eqn:Ed; [| |done]; intros _.
      * apply Z.compare_eq in Ed. lia.
      * rewrite Z.compare_lt_iff in Ed. lia.
    + intros _. rewrite Z.compare_lt_iff in Em.
      pose proof (days_before_month_mono y2 (m1 + 1) m2 ltac:(lia) ltac:(lia) ltac:(lia)).
      rewrite days_before_next_month in H by lia. lia.
    + done.
  - intros _. rewrite Z.compare_lt_iff in Ey.
    pose proof (days_before_year_mono (y1 + 1) y2 ltac:(lia)).
    rewrite days_before_next_year in H. lia.
  - done.
Qed.

Lemma date_compare_lt_trans (a b c : Py.date) :
  Py.date_compare a b = Lt → Py.date_compare b c = Lt → Py.date_compare a c = Lt.
Proof.
  destruct a as [y1 m1 d1], b as [y2 m2 d2], c as [y3 m3 d3].
  unfold Py.date_compare. cbn [Py.year Py.month Py.day].
  destruct (y1 ?= y2) eqn:E1; [|intros _|done];
    destruct (y2 ?= y3) eqn:E2; try done.
  - apply Z.compare_eq in E1 as ->. rewrite E2.
    destruct (m2 ?= m3) eqn:E3; destruct (m1 ?= m2) eqn:E4; try done.
    + apply Z.compare_eq in E3 as ->. rewrite E4. rewrite !Z.compare_lt_iff. lia.
    + apply Z.compare_eq in E3 as ->. by rewrite E4.
    + apply Z.compare_eq in E4 as ->. by rewrite E3.
    + rewrite Z.compare_lt_iff in E3, E4.
      assert (Hlt : (m1 ?= m3) = Lt) by (apply Z.compare_lt_iff; lia). by rewrite Hlt.
  - apply Z.compare_eq in E1 as ->. by rewrite E2.
  - apply Z.compare_eq in E2 as <-. by rewrite E1.
  - intros _. rewrite Z.compare_lt_iff in E1, E2.
    assert (Hlt : (y1 ?= y3) = Lt) by (apply Z.compare_lt_iff; lia). by rewrite Hlt.
Qed.

(** ** Dates and times as strings *)

Lemma same_comparison_eq (c1 c2 : comparison) :
  same_comparison c1 c2 = true → c1 = c2.
Proof. by destruct c1, c2. Qed.

(** Two-digit renderings compare as the numbers. *)
Lemma fmt02_compare (a b : Z) :
  0 ≤ a < 100 → 0 ≤ b < 100 →
  String.compare (Py.fmt02 a) (Py.fmt02 b) = (a ?= b).
Proof.
  intros Ha Hb.
  assert (Hall : forallb (λ a, forallb (λ b,
            same_comparison (String.compare (Py.fmt02 a) (Py.fmt02 b)) (a ?= b))
            (seqZ 0 100)) (seqZ 0 100) = true) by (by vm_compute).
  rewrite forallb_forall in Hall.
  specialize (Hall a ltac:(apply list_elem_of_In, elem_of_seqZ; lia)).
  rewrite forallb_forall in Hall.
  specialize (Hall b ltac:(apply list_elem_of_In, elem_of_seqZ; lia)).
  by apply same_comparison_eq.
Qed.

(** The four digits of a year are the two digits of its century and the
    two digits of the year in the century. *)
Lemma fmt04_split (y : Z) :
  0 ≤ y < 10000 →
  Py.fmt04 y = Py.fmt02 (y / 100) +:+ Py.fmt02 (y mod 100).
Proof.
  intros Hy.
  assert (Hall : forallb (λ y,
            bool_decide (Py.fmt04 y = Py.fmt02 (y / 100) +:+ Py.fmt02 (y mod 100)))
            (seqZ 0 10000) = true) by (by vm_compute).
  rewrite forallb_forall in Hall.
  specialize (Hall y ltac:(apply list_elem_of_In, elem_of_seqZ; lia)).
  by apply bool_decide_eq_true in Hall.
Qed.

Lemma append_cons (c : ascii) (s t : string) :
  String c s +:+ t = String c (s +:+ t).
Proof. reflexivity. Qed.

Lemma append_nil (t : string) : "" +:+ t = t.
Proof. reflexivity. Qed.

Lemma append_assoc (s t u : string) : (s +:+ t) +:+ u = s +:+ (t +:+ u).
Proof.
  induction s as [|c s IH]; [done|]. by rewrite !append_cons, IH.
Qed.

(** Strings that open with two-digit renderings compare by the
    renderings first. *)
Lemma fmt02_app_compare (a b : Z) (s t : string) :
  String.compare (Py.fmt02 a +:+ s) (Py.fmt02 b +:+ t)
  = match String.compare (Py.fmt02 a) (Py.fmt02 b) with
    | Eq => String.compare s t
    | c => c
    end.
Proof.
  unfold Py.fmt02. rewrite !append_cons, !append_nil.
  cbn [String.compare].
  destruct (Ascii.compare (Py.digit (a / 10)) (Py.digit (b / 10))); [|done|done].
  by destruct (Ascii.compare (Py.digit a) (Py.digit b)).
Qed.

Lemma fmt02_compare_alone (a b : Z) :
  String.compare (Py.fmt02 a) (Py.fmt02 b)
  = String.compare (Py.fmt02 a +:+ "") (Py.fmt02 b +:+ "").
Proof. reflexivity. Qed.

Lemma century_split (a b : Z) :
  0 ≤ a < 10000 → 0 ≤ b < 10000 →
  (a ?= b) = match a / 100 ?= b / 100 with
             | Eq => a mod 100 ?= b mod 100
             | c => c
             end.
Proof.
  intros Ha Hb.
  pose proof (Z.div_mod a 100 ltac:(lia)). pose proof (Z.div_mod b 100 ltac:(lia)).
  pose proof (Z.mod_pos_bound a 100 ltac:(lia)).
  pose proof (Z.mod_pos_bound b 100 ltac:(lia)).
  destruct (a / 100 ?= b / 100) eqn:E.
  - apply Z.compare_eq in E.
    destruct (a mod 100 ?= b mod 100) eqn:E'.
    + apply Z.compare_eq in E'. apply Z.compare_eq_iff. lia.
    + rewrite Z.compare_lt_iff in E'. apply Z.compare_lt_iff. lia.
    + rewrite Z.compare_gt_iff in E'. apply Z.compare_gt_iff. lia.
  - rewrite Z.compare_lt_iff in E. apply Z.compare_lt_iff. lia.
  - rewrite Z.compare_gt_iff in E. apply Z.compare_gt_iff. lia.
Qed.

Lemma isoformat_compare (a b : Py.date) :
  printable_date a → printable_date b →
  String.compare (Py.isoformat a) (Py.isoformat b) = Py.date_compare a b.
Proof.
  intros (Ya & Ma & Da) (Yb & Mb & Db).
  assert (Ca : 0 ≤ Py.year a / 100 < 100)
    by (split; [apply Z.div_pos|apply Z.div_lt_upper_bound]; lia).
  assert (Cb : 0 ≤ Py.year b / 100 < 100)
    by (split; [apply Z.div_pos|apply Z.div_lt_upper_bound]; lia).
  pose proof (Z.mod_pos_bound (Py.year a) 100 ltac:(lia)).
  pose proof (Z.mod_pos_bound (Py.year b) 100 ltac:(lia)).
  unfold Py.isoformat, Py.date_compare.
  rewrite !fmt04_split by done.
  rewrite !append_assoc.
  rewrite (century_split (Py.year a) (Py.year b)) by done.
  rewrite fmt02_app_compare, fmt02_compare by done.
  destruct (Py.year a / 100 ?= Py.year b / 100); [|done|done].
  rewrite fmt02_app_compare, fmt02_compare by done.
  destruct (Py.year a mod 100 ?= Py.year b mod 100); [|done|done].
  rewrite ?append_cons, ?append_nil. cbn [String.compare].
  rewrite ascii_compare_refl.
  rewrite fmt02_app_compare, fmt02_compare by done.
  destruct (Py.month a ?= Py.month b); [|done|done].
  rewrite ?append_cons, ?append_nil. cbn [String.compare].
  rewrite ascii_compare_refl.
  by rewrite fmt02_compare.
Qed.

Lemma time_str_compare (h1 m1 h2 m2 : Z) :
  0 ≤ h1 < 100 → 0 ≤ m1 < 100 → 0 ≤ h2 < 100 → 0 ≤ m2 < 100 →
  String.compare (time_str h1 m1) (time_str h2 m2)
  = match h1 ?= h2 with
    | Eq => m1 ?= m2
    | c => c
    end.
Proof.
  intros H1 M1 H2 M2. unfold time_str.
  rewrite fmt02_app_compare, fmt02_compare by done.
  destruct (h1 ?= h2); [|done|done].
  rewrite ?append_cons, ?append_nil. cbn [String.compare].
  rewrite ascii_compare_refl. by rewrite fmt02_compare.
Qed.

(** ** muhurat_engine.py: the scan *)

Section scan_facts.
Context (svc : Services) (p : scan_params).
Context (strict_filters : bool) (min_score : Z).

Abbreviation scan_slot' := (scan_slot svc p strict_filters min_score).
Abbreviation evaluate_slot' := (evaluate_slot svc p strict_filters min_score).
Abbreviation minute_loop' := (minute_loop svc p strict_filters min_score).
Abbreviation hour_loop' := (hour_loop svc p strict_filters min_score).
Abbreviation day_loop' := (day_loop svc p strict_filters min_score).
Abbreviation flat_loop' := (flat_loop svc p strict_filters min_score).
Abbreviation collected' := (collected svc p strict_filters min_score).
Abbreviation survives' := (survives svc p strict_filters min_score).

(** *** The nested loops are one loop over the slots in scan order *)

Lemma minute_loop_flat (d : Py.date) (hour : Z) (minutes : list Z)
    (st : scan_state) :
  minute_loop' d hour minutes st
  = flat_loop' ((λ minute, (d, hour, minute)) <$> minutes_scanned hour minutes) st.
Proof.
  revert st. induction minutes as [|minute rest IH]; intros st; [done|].
  cbn [minute_loop minutes_scanned].
  destruct ((hour =? DAY_END_HOUR) && (0 <? minute)); [done|].
  cbn [fmap list_fmap flat_loop fst snd].
  destruct (scan_slot' d hour minute st) as [[st'|]|e]; cbn; [|by apply IH|done].
  destruct (cap_reached p st'); [done|by apply IH].
Qed.

Lemma flat_loop_app (l1 l2 : list slot) (st : scan_state) :
  cap_reached p st = false →
  flat_loop' (l1 ++ l2) st
  = st' ← flat_loop' l1 st;
    (if cap_reached p st' then Ok st' else flat_loop' l2 st').
Proof.
  revert st. induction l1 as [|s l1 IH]; intros st Hcap.
  - cbn. by rewrite Hcap.
  - cbn [app flat_loop].
    destruct (scan_slot' s.1.1 s.1.2 s.2 st) as [[st'|]|e]; cbn; [|by apply IH|done].
    destruct (cap_reached p st') eqn:E; [cbn; by rewrite E|by apply IH].
Qed.

Lemma hour_loop_flat (d : Py.date) (hours : list Z) (st : scan_state) :
  cap_reached p st = false →
  hour_loop' d hours st = flat_loop' (hours ≫= hour_slots d) st.
Proof.
  revert st. induction hours as [|hour rest IH]; intros st Hcap; [done|].
  cbn [hour_loop mbind list_bind]. rewrite flat_loop_app by done.
  rewrite minute_loop_flat. fold (hour_slots d hour).
  destruct (flat_loop' (hour_slots d hour) st) as [st'|e]; cbn; [|done].
  destruct (cap_reached p st') eqn:E; [done|by apply IH].
Qed.

Lemma day_loop_flat (fuel : nat) (cur : Py.date) (st st' : scan_state) :
  cap_reached p st = false →
  day_loop' fuel cur st = Ok st' →
  flat_loop' (dates_from fuel cur (sp_ed p) ≫= day_slots) st = Ok st'.
Proof.
  revert cur st. induction fuel as [|fuel IH]; intros cur st Hcap Hrun; [done|].
  cbn [day_loop] in Hrun. cbn [dates_from].
  destruct (Py.date_leb cur (sp_ed p)); [|by cbn].
  cbn [mbind list_bind]. rewrite flat_loop_app by done.
  rewrite hour_loop_flat in Hrun by done. fold (day_slots cur) in Hrun.
  destruct (flat_loop' (day_slots cur) st) as [st1|e]; cbn in *; [|done].
  destruct (cap_reached p st1) eqn:E; [done|].
  destruct (Py.add_one_day cur) as [cur'|e]; cbn in *; [|done].
  by apply IH.
Qed.

(** *** What one pass of the loop body does *)

Lemma scan_slot_None (d : Py.date) (hour minute : Z) (st : scan_state) :
  scan_slot' d hour minute st = Ok None →
  evaluate_slot' d hour minute = Ok None
  ∨ ∃ astro score, evaluate_slot' d hour minute = Ok (Some (astro, score))
                   ∧ slot_key (Py.isoformat d) astro ∈ seen_keys st.
Proof.
  unfold scan_slot.
  destruct (evaluate_slot' d hour minute) as [[[astro score]|]|e]; cbn;
    [|by left|done].
  case_bool_decide; [|done]. intros _. right. by eexists _, _.
Qed.

Lemma scan_slot_Some (d : Py.date) (hour minute : Z) (st st' : scan_state) :
  scan_slot' d hour minute st = Ok (Some st') →
  ∃ astro score,
    evaluate_slot' d hour minute = Ok (Some (astro, score))
    ∧ (slot_key (Py.isoformat d) astro ∉ seen_keys st)
    ∧ st' = mkScanState
              (results st ++ [slot_result (d, hour, minute) astro score])
              ({[slot_key (Py.isoformat d) astro]} ∪ seen_keys st).
Proof.
  unfold scan_slot.
  destruct (evaluate_slot' d hour minute) as [[[astro score]|]|e]; cbn;
    [|done|done].
  case_bool_decide; [done|]. intros [= <-]. by eexists _, _.
Qed.

Lemma flat_loop_collected (slots : list slot) (st st' : scan_state) :
  flat_loop' slots st = Ok st' →
  ∃ visited rest,
    slots = visited ++ rest
    ∧ collected' visited st st'
    ∧ (rest = [] ∨ cap_reached p st' = true).
Proof.
  revert st. induction slots as [|s slots IH]; intros st Hrun.
  - injection Hrun as <-. exists [], []. split; [done|]. split; [constructor|by left].
  - cbn [flat_loop] in Hrun.
    destruct (scan_slot' s.1.1 s.1.2 s.2 st) as [[st1|]|e] eqn:E; cbn in Hrun;
      [|..|done].
    + destruct (cap_reached p st1) eqn:Ecap.
      * injection Hrun as <-. exists [s], slots. split; [done|].
        split; [|by right]. eapply collected_keep; [done|constructor].
      * destruct (IH _ Hrun) as (visited & rest & -> & Hcol & Hend).
        exists (s :: visited), rest. split; [done|]. split; [|done].
        by eapply collected_keep.
    + destruct (IH _ Hrun) as (visited & rest & -> & Hcol & Hend).
      exists (s :: visited), rest. split; [done|]. split; [|done].
      by eapply collected_skip.
Qed.

(** *** What the visited slots leave in the state *)

Lemma muhurat_key_slot_result (s : slot) (astro : Astro) (score : Z) :
  muhurat_key (slot_result s astro score) = slot_key (Py.isoformat s.1.1) astro.
Proof. reflexivity. Qed.

Lemma collected_spec (visited : list slot) (st st' : scan_state) :
  collected' visited st st' →
  keys_agree st →
  NoDup (muhurat_key <$> results st) →
  keys_agree st'
  ∧ NoDup (muhurat_key <$> results st')
  ∧ (∀ k, k ∈ seen_keys st → k ∈ seen_keys st')
  ∧ (∀ s astro score, s ∈ visited → survives' s astro score →
       slot_key (Py.isoformat s.1.1) astro ∈ seen_keys st')
  ∧ ∃ new,
      results st' = results st ++ new
      ∧ ∀ r, r ∈ new →
          ∃ before s after astro score,
            visited = before ++ s :: after
            ∧ survives' s astro score
            ∧ r = slot_result s astro score
            ∧ (muhurat_key r ∉ seen_keys st)
            ∧ ∀ s' astro' score', s' ∈ before → survives' s' astro' score' →
                slot_key (Py.isoformat s'.1.1) astro' ≠ muhurat_key r.
Proof.
  induction 1 as [st|s visited st st' Hskip Hcol IH|s visited st st1 st' Hkeep Hcol IH];
    intros Hagree Hnd.
  - split; [done|]. split; [done|]. split; [done|].
    split; [intros s a sc Hs; by apply elem_of_nil in Hs|].
    exists []. split; [by rewrite app_nil_r|].
    intros r Hr. by apply elem_of_nil in Hr.
  - destruct (IH Hagree Hnd) as (A1 & A2 & A3 & A4 & new & A5 & A6).
    split; [done|]. split; [done|]. split; [done|]. split.
    + intros s0 a sc Hs0 Hsurv. apply elem_of_cons in Hs0 as [->|Hs0]; [|by eapply A4].
      apply scan_slot_None in Hskip as [Hnone|(a' & sc' & Hev & Hseen)].
      * unfold survives in Hsurv. congruence.
      * unfold survives in Hsurv. rewrite Hev in Hsurv.
        injection Hsurv as <- <-. by apply A3.
    + exists new. split; [done|]. intros r Hr.
      destruct (A6 r Hr) as (before & s0 & after & a & sc & -> & B1 & B2 & B3 & B4).
      exists (s :: before), s0, after, a, sc. split; [done|]. split; [done|].
      split; [done|]. split; [done|].
      intros s' a' sc' Hs' Hsurv'. apply elem_of_cons in Hs' as [->|Hs']; [|by eapply B4].
      apply scan_slot_None in Hskip as [Hnone|(a'' & sc'' & Hev & Hseen)].
      * unfold survives in Hsurv'. congruence.
      * unfold survives in Hsurv'. rewrite Hev in Hsurv'.
        injection Hsurv' as <- <-. congruence.
  - apply scan_slot_Some in Hkeep as (a0 & sc0 & Hev & Hnew & ->).
    assert (Hagree1 : keys_agree
              (mkScanState (results st ++ [slot_result (s.1.1, s.1.2, s.2) a0 sc0])
                 ({[slot_key (Py.isoformat s.1.1) a0]} ∪ seen_keys st))).
    { intros k. cbn [seen_keys results]. rewrite fmap_app, elem_of_app, elem_of_union.
      rewrite (Hagree k). cbn [fmap list_fmap]. rewrite list_elem_of_singleton.
      rewrite elem_of_singleton. rewrite muhurat_key_slot_result. cbn [fst snd].
      tauto. }
    assert (Hnd1 : NoDup (muhurat_key <$>
              (results st ++ [slot_result (s.1.1, s.1.2, s.2) a0 sc0]))).
    { rewrite fmap_app. apply NoDup_app. split; [done|]. split; [|apply NoDup_singleton].
      intros k Hk Hk'. cbn [fmap list_fmap] in Hk'.
      apply list_elem_of_singleton in Hk' as ->.
      rewrite muhurat_key_slot_result in Hk. cbn [fst snd] in Hk.
      apply Hnew. by apply Hagree. }
    destruct (IH Hagree1 Hnd1) as (A1 & A2 & A3 & A4 & new & A5 & A6).
    cbn [seen_keys results] in *.
    split; [done|]. split; [done|]. split.
    { intros k Hk. apply A3. by apply elem_of_union_r. }
    split.
    + intros s0 a sc Hs0 Hsurv. apply elem_of_cons in Hs0 as [->|Hs0]; [|by eapply A4].
      unfold survives in Hsurv. rewrite Hev in Hsurv. injection Hsurv as <- <-.
      apply A3. apply elem_of_union_l. by apply elem_of_singleton.
    + exists (slot_result (s.1.1, s.1.2, s.2) a0 sc0 :: new).
      split; [by rewrite A5, <- app_assoc|].
      intros r Hr. apply elem_of_cons in Hr as [->|Hr].
      * exists [], s, visited, a0, sc0. split; [done|]. split; [done|].
        split; [by destruct s as [[? ?] ?]|]. split; [done|].
        intros s' a' sc' Hs'. by apply elem_of_nil in Hs'.
      * destruct (A6 r Hr) as (before & s0 & after & a & sc & -> & B1 & B2 & B3 & B4).
        exists (s :: before), s0, after, a, sc. split; [done|]. split; [done|].
        split; [done|]. split.
        { intros Hin. apply B3. by apply elem_of_union_r. }
        intros s' a' sc' Hs' Hsurv'.
        apply elem_of_cons in Hs' as [->|Hs']; [|by eapply B4].
        unfold survives in Hsurv'. rewrite Hev in Hsurv'.
        injection Hsurv' as <- <-. intros Heq. apply B3. rewrite <- Heq.
        apply elem_of_union_l. by apply elem_of_singleton.
Qed.

(** *** The scan as a whole *)

Lemma run_scan_collected (rs : list Muhurat) :
  0 < sp_hard_cap p →
  _run_scan svc p strict_filters min_score = Ok rs →
  ∃ visited rest st,
    scan_order p = visited ++ rest
    ∧ collected' visited (mkScanState [] ∅) st
    ∧ results st = rs
    ∧ (rest = [] ∨ cap_reached p st = true).
Proof.
  intros Hcap Hrun. unfold _run_scan in Hrun.
  destruct (day_loop' (scan_fuel p) (sp_sd p) (mkScanState [] ∅)) as [st|e] eqn:E;
    cbn in Hrun; [|done].
  injection Hrun as <-.
  apply day_loop_flat in E; [|unfold cap_reached; cbn; apply Z.leb_gt; lia].
  destruct (flat_loop_collected _ _ _ E) as (visited & rest & Hsplit & Hcol & Hend).
  by exists visited, rest, st.
Qed.

End scan_facts.

(** ** muhurat_engine.py: the scan order *)

Lemma day_slots_grid (d : Py.date) :
  day_slots d = (λ hm, (d, hm.1, hm.2)) <$> day_grid.
Proof. reflexivity. Qed.

Lemma day_grid_on_clock :
  Forall (λ hm, 0 ≤ hm.1 < 24 ∧ 0 ≤ hm.2 < 60) day_grid.
Proof. apply (bool_decide_unpack _). by vm_compute. Qed.

Lemma day_grid_sorted :
  StronglySorted (λ a b, match a.1 ?= b.1 with
                         | Eq => a.2 ?= b.2
                         | c => c
                         end = Lt) day_grid.
Proof. apply (bool_decide_unpack _). by vm_compute. Qed.

Lemma date_compare_refl (d : Py.date) : Py.date_compare d d = Eq.
Proof. unfold Py.date_compare. by rewrite !Z.compare_refl. Qed.

Lemma date_compare_eq (a b : Py.date) : Py.date_compare a b = Eq → a = b.
Proof.
  destruct a as [y1 m1 d1], b as [y2 m2 d2]. unfold Py.date_compare.
  cbn [Py.year Py.month Py.day].
  destruct (y1 ?= y2) eqn:E1; try done. destruct (m1 ?= m2) eqn:E2; try done.
  intros E3. apply Z.compare_eq in E1, E2, E3. by subst.
Qed.

(** The dates the generator yields are dates, and each comes after the
    one before it. *)
Lemma dates_from_spec (fuel : nat) (cur ed : Py.date) :
  Py.valid_date cur →
  Forall (λ d, Py.valid_date d ∧ (d = cur ∨ Py.date_compare cur d = Lt))
    (dates_from fuel cur ed)
  ∧ StronglySorted (λ a b, Py.date_compare a b = Lt) (dates_from fuel cur ed).
Proof.
  revert cur. induction fuel as [|fuel IH]; intros cur Hv.
  { split; constructor. }
  cbn [dates_from]. destruct (Py.date_leb cur ed); [|split; constructor].
  destruct (Py.add_one_day cur) as [cur'|e] eqn:E.
  - destruct (add_one_day_spec _ _ Hv E) as (Hv' & Hlt & _).
    destruct (IH cur' Hv') as [IH1 IH2].
    assert (Hall : Forall (λ d, Py.valid_date d ∧ Py.date_compare cur d = Lt)
                     (dates_from fuel cur' ed)).
    { eapply Forall_impl; [exact IH1|]. intros d [Hd [-> |Hd']]; [done|].
      split; [done|]. by eapply date_compare_lt_trans. }
    split.
    + constructor; [by auto|]. eapply Forall_impl; [exact Hall|].
      intros d [? ?]. auto.
    + constructor; [done|]. eapply Forall_impl; [exact Hall|].
      by intros d [? ?].
  - split.
    + constructor; [by auto|constructor].
    + constructor; constructor.
Qed.

Lemma scan_order_elem (p : scan_params) (s : slot) :
  s ∈ scan_order p ↔
  s.1.1 ∈ dates_from (scan_fuel p) (sp_sd p) (sp_ed p) ∧ (s.1.2, s.2) ∈ day_grid.
Proof.
  unfold scan_order. rewrite list_elem_of_bind. split.
  - intros (d & Hs & Hd). rewrite day_slots_grid in Hs.
    apply list_elem_of_fmap in Hs as ([h m] & -> & Hhm). done.
  - intros [Hd Hhm]. exists s.1.1. split; [|done].
    rewrite day_slots_grid. apply list_elem_of_fmap. exists (s.1.2, s.2).
    split; [by destruct s as [[? ?] ?]|done].
Qed.

(** Every slot of the scan order is a slot on the calendar and on the
    clock. *)
Lemma scan_order_valid (p : scan_params) (s : slot) :
  Py.valid_date (sp_sd p) → s ∈ scan_order p → valid_slot s.
Proof.
  intros Hv Hs. apply scan_order_elem in Hs as [Hd Hhm].
  destruct (dates_from_spec (scan_fuel p) (sp_sd p) (sp_ed p) Hv) as [Hall _].
  rewrite Forall_forall in Hall. destruct (Hall _ Hd) as [Hvd _].
  pose proof day_grid_on_clock as Hclock. rewrite Forall_forall in Hclock.
  specialize (Hclock _ Hhm). split; [done|]. exact Hclock.
Qed.

Lemma sorted_bind {A B} (R : relation A) (S : relation B) (f : A → list B)
    (l : list A) :
  StronglySorted R l →
  (∀ a, a ∈ l → StronglySorted S (f a)) →
  (∀ a1 a2 b1 b2, R a1 a2 → b1 ∈ f a1 → b2 ∈ f a2 → S b1 b2) →
  StronglySorted S (l ≫= f).
Proof.
  intros Hl Hf Hcross. induction Hl as [|a l Hl IH Hall]; [constructor|].
  cbn [mbind list_bind]. apply StronglySorted_app. split; [|split].
  - intros b1 b2 Hb1 Hb2. apply list_elem_of_bind in Hb2 as (a2 & Hb2 & Ha2).
    rewrite Forall_forall in Hall. by eapply Hcross; [apply Hall| |].
  - apply Hf. by left.
  - apply IH. intros a' Ha'. apply Hf. by right.
Qed.

(** The scan order is the order of the slots in time. *)
Lemma scan_order_chronological (p : scan_params) :
  Py.valid_date (sp_sd p) →
  StronglySorted (λ s1 s2, slot_compare s1 s2 = Lt) (scan_order p).
Proof.
  intros Hv. unfold scan_order.
  destruct (dates_from_spec (scan_fuel p) (sp_sd p) (sp_ed p) Hv) as [_ Hsorted].
  eapply sorted_bind; [exact Hsorted| |].
  - intros d _. rewrite day_slots_grid.
    eapply StronglySorted_fmap; [|exact day_grid_sorted].
    intros [h1 m1] [h2 m2]. unfold slot_compare. cbn [fst snd].
    by rewrite date_compare_refl.
  - intros d1 d2 s1 s2 Hlt Hs1 Hs2. rewrite day_slots_grid in Hs1, Hs2.
    apply list_elem_of_fmap in Hs1 as (hm1 & -> & _).
    apply list_elem_of_fmap in Hs2 as (hm2 & -> & _).
    unfold slot_compare. cbn [fst snd]. by rewrite Hlt.
Qed.

Lemma valid_date_printable (d : Py.date) : Py.valid_date d → printable_date d.
Proof.
  intros (Hy & Hm & Hd). pose proof (days_in_month_bounds (Py.year d) (Py.month d)).
  unfold printable_date. lia.
Qed.

(** On result items of slots the ranking by strings is the ranking by
    score and then by time. *)
Lemma ranks_before_chronological (s1 s2 : slot) (a1 a2 : Astro) (sc1 sc2 : Z) :
  valid_slot s1 → valid_slot s2 →
  ranks_before (slot_result s1 a1 sc1) (slot_result s2 a2 sc2)
  ↔ sc2 < sc1 ∨ (sc1 = sc2 ∧ slot_compare s1 s2 ≠ Gt).
Proof.
  destruct s1 as [[d1 h1] m1], s2 as [[d2 h2] m2].
  intros (Hd1 & Hh1 & Hm1) (Hd2 & Hh2 & Hm2). cbn [fst snd] in *.
  unfold ranks_before, slot_result, make_result, slot_compare.
  cbn [m_score m_date m_time fst snd].
  unfold Py.str_ltb, Py.str_leb, String.ltb, String.leb.
  pose proof (isoformat_compare d1 d2 (valid_date_printable _ Hd1)
                (valid_date_printable _ Hd2)) as Hiso.
  pose proof (time_str_compare h1 m1 h2 m2 ltac:(lia) ltac:(lia) ltac:(lia)
                ltac:(lia)) as Htime.
  rewrite Hiso, Htime.
  assert (Heq : Py.isoformat d1 = Py.isoformat d2 ↔ Py.date_compare d1 d2 = Eq).
  { split.
    - intros E. rewrite <- Hiso, E. apply str_compare_refl.
    - intros E. by rewrite (date_compare_eq _ _ E). }
  rewrite Heq.
  destruct (Py.date_compare d1 d2);
    destruct (match h1 ?= h2 with Eq => m1 ?= m2 | c => c end);
    intuition congruence.
Qed.

(** ** muhurat_engine.py: the fuel of the day loop *)

Section fuel.
Context (svc : Services) (p : scan_params).
Context (strict_filters : bool) (min_score : Z).

(** Once the fuel covers the days from [cur] to the end date, more fuel
    changes nothing. *)
Lemma day_loop_fuel (fuel extra : nat) (cur : Py.date) (st : scan_state) :
  Py.valid_date cur → Py.valid_date (sp_ed p) →
  (1 ≤ fuel)%nat →
  Py.toordinal (sp_ed p) - Py.toordinal cur + 2 ≤ Z.of_nat fuel →
  day_loop svc p strict_filters min_score (fuel + extra) cur st
  = day_loop svc p strict_filters min_score fuel cur st.
Proof.
  revert cur st. induction fuel as [|fuel IH]; intros cur st Hv Hve H1 Hb; [lia|].
  cbn [Nat.add day_loop].
  destruct (Py.date_leb cur (sp_ed p)) eqn:E; [|done].
  pose proof (toordinal_mono _ _ Hv Hve E) as Hord.
  destruct (hour_loop svc p strict_filters min_score cur
              (py_range DAY_START_HOUR (DAY_END_HOUR + 1) 1) st) as [st'|e]; [|done].
  cbn [mbind res_mbind res_bind].
  destruct (cap_reached p st'); [done|].
  destruct (Py.add_one_day cur) as [cur'|e] eqn:Enext; [|done].
  cbn [mbind res_mbind res_bind].
  destruct (add_one_day_spec _ _ Hv Enext) as (Hv' & _ & Hord').
  apply IH; [done|done|lia|lia].
Qed.

Lemma scan_fuel_enough (extra : nat) :
  Py.valid_date (sp_sd p) → Py.valid_date (sp_ed p) →
  day_loop svc p strict_filters min_score (scan_fuel p + extra) (sp_sd p)
    (mkScanState [] ∅)
  = day_loop svc p strict_filters min_score (scan_fuel p) (sp_sd p)
      (mkScanState [] ∅).
Proof.
  intros Hv Hve. apply day_loop_fuel; [done|done|unfold scan_fuel; lia|].
  unfold scan_fuel, Py.days_between. lia.
Qed.

End fuel.

(** ** muhurat_engine.py: the claims on the scanner *)

(** C5.  Within one scan no two candidates of the result list share a
    signature.  The scan order is the order of the slots in time; the
    slots the scan visits are an initial part of it, all of it unless the
    hard cap was reached.  Every visited slot that reaches the
    de-duplication step has a candidate with its signature in the result
    list, and every candidate of the list is the item of the earliest
    visited slot that reaches the de-duplication step with that
    signature. *)
Theorem scan_keeps_first_of_each_signature (svc : Services) (p : scan_params)
    (strict_filters : bool) (min_score : Z) (rs : list Muhurat) :
  Py.valid_date (sp_sd p) →
  0 < sp_hard_cap p →
  _run_scan svc p strict_filters min_score = Ok rs →
  NoDup (muhurat_key <$> rs)
  ∧ StronglySorted (λ s1 s2, slot_compare s1 s2 = Lt) (scan_order p)
  ∧ ∃ visited rest,
      scan_order p = visited ++ rest
      ∧ (rest = [] ∨ sp_hard_cap p ≤ Z.of_nat (length rs))
      ∧ (∀ s astro score,
           s ∈ visited → survives svc p strict_filters min_score s astro score →
           ∃ r, r ∈ rs ∧ muhurat_key r = slot_key (Py.isoformat s.1.1) astro)
      ∧ (∀ r, r ∈ rs →
           ∃ before s after astro score,
             visited = before ++ s :: after
             ∧ survives svc p strict_filters min_score s astro score
             ∧ r = slot_result s astro score
             ∧ ∀ s' astro' score',
                 s' ∈ before →
                 survives svc p strict_filters min_score s' astro' score' →
                 slot_key (Py.isoformat s'.1.1) astro' ≠ muhurat_key r).
Proof.
  intros Hvalid Hcap Hrun.
  destruct (run_scan_collected _ _ _ _ _ Hcap Hrun)
    as (visited & rest & st & Hsplit & Hcol & <- & Hend).
  destruct (collected_spec _ _ _ _ _ _ _ Hcol) as (A1 & A2 & A3 & A4 & new & A5 & A6).
  { intros k. cbn. rewrite elem_of_nil. set_solver. }
  { cbn. apply NoDup_nil_2. }
  split; [done|]. split; [by apply scan_order_chronological|].
  exists visited, rest. split; [done|]. split.
  { destruct Hend as [->|Hc]; [by left|right].
    unfold cap_reached in Hc. by apply Z.leb_le in Hc. }
  split.
  - intros s a sc Hs Hsurv. specialize (A4 s a sc Hs Hsurv).
    apply A1 in A4. apply list_elem_of_fmap in A4 as (r & Hr1 & Hr2). eauto.
  - intros r Hr. cbn in A5. rewrite A5 in Hr.
    destruct (A6 r Hr) as (before & s & after & a & sc & B0 & B1 & B2 & _ & B4).
    by exists before, s, after, a, sc.
Qed.

Lemma demo_day_valid : Py.valid_date demo_day.
Proof. unfold Py.valid_date. repeat split; by vm_compute. Qed.

(** The theorem at one day of a service whose factor set changes at
    noon: of the 25 slots outside Rahu Kalam, two are kept. *)
Lemma scan_keeps_first_of_each_signature_witness :
  ∃ rs,
    _run_scan demo_services demo_params false 0 = Ok rs
    ∧ (m_time <$> rs) = ["06:00"; "12:00"]
    ∧ NoDup (muhurat_key <$> rs)
    ∧ StronglySorted (λ s1 s2, slot_compare s1 s2 = Lt) (scan_order demo_params)
    ∧ ∃ visited rest,
        scan_order demo_params = visited ++ rest
        ∧ (rest = [] ∨ sp_hard_cap demo_params ≤ Z.of_nat (length rs))
        ∧ (∀ s astro score,
             s ∈ visited → survives demo_services demo_params false 0 s astro score →
             ∃ r, r ∈ rs ∧ muhurat_key r = slot_key (Py.isoformat s.1.1) astro)
        ∧ (∀ r, r ∈ rs →
             ∃ before s after astro score,
               visited = before ++ s :: after
               ∧ survives demo_services demo_params false 0 s astro score
               ∧ r = slot_result s astro score
               ∧ ∀ s' astro' score',
                   s' ∈ before →
                   survives demo_services demo_params false 0 s' astro' score' →
                   slot_key (Py.isoformat s'.1.1) astro' ≠ muhurat_key r).
Proof.
  eexists. split; [vm_compute; reflexivity|]. split; [reflexivity|].
  apply scan_keeps_first_of_each_signature.
  - exact demo_day_valid.
  - by vm_compute.
  - vm_compute. reflexivity.
Defined.

Lemma prepare_Ok (svc : Services) (sd ed : Py.date) (location : LocationInput)
    (max_results : Z) (qualities_text : option string)
    (qualities_selected qualities_priority : option (list string))
    (parents : option (Parents LocationInput)) (p : scan_params) :
  prepare svc sd ed location max_results qualities_text qualities_selected
    qualities_priority parents = Ok p →
  sp_sd p = sd ∧ sp_ed p = ed ∧ 50 ≤ sp_hard_cap p
  ∧ sp_traits p = resolve_traits (llm_reply svc) qualities_text qualities_selected
                    qualities_priority
  ∧ sp_weights p = get_weights_for_traits (sp_traits p)
  ∧ Py.date_leb sd ed = true
  ∧ Py.days_between sd ed ≤ 365.
Proof.
  unfold prepare.
  destruct (Py.date_ltb ed sd) eqn:E1; [done|].
  destruct (365 <? Py.days_between sd ed) eqn:E2; [done|].
  destruct (resolve_location svc location) as [loc|e]; [|done].
  cbn [mbind res_mbind res_bind].
  destruct (resolve_parents svc parents) as [[pr pm]|e]; [|done].
  cbn [mbind res_mbind res_bind]. intros [= <-].
  cbn [sp_sd sp_ed sp_hard_cap sp_traits sp_weights].
  split; [done|]. split; [done|]. split; [lia|]. split; [done|]. split; [done|].
  split; [|by apply Z.ltb_ge].
  unfold Py.date_ltb, Py.date_leb in *.
  destruct ed as [y2 m2 d2], sd as [y1 m1 d1]. unfold Py.date_compare in *.
  cbn [Py.year Py.month Py.day] in *.
  rewrite (Z.compare_antisym y1 y2), (Z.compare_antisym m1 m2),
    (Z.compare_antisym d1 d2) in E1.
  clear E2.
  destruct (y1 ?= y2); cbn [CompOpp] in *; try done;
    destruct (m1 ?= m2); cbn [CompOpp] in *; try done;
    by destruct (d1 ?= d2).
Qed.

(** C3.  When [suggest_muhurats] returns, the relaxed scan has been run
    exactly when the strict scan returned no candidate.  When the strict
    scan returned candidates, it is the only scan run and its candidates,
    ranked and cut to [max_results], are what is returned; otherwise the
    candidates of the relaxed scan are. *)
Theorem relaxed_scan_iff_strict_empty (svc : Services) (start_date end_date : Py.date)
    (location : LocationInput) (max_results : Z) (qualities_text : option string)
    (qualities_selected qualities_priority : option (list string))
    (parents : option (Parents LocationInput)) (s : Suggestion) :
  suggest_muhurats svc start_date end_date location max_results qualities_text
    qualities_selected qualities_priority parents = Ok s →
  ∃ p strict,
    prepare svc start_date end_date location max_results qualities_text
      qualities_selected qualities_priority parents = Ok p
    ∧ _run_scan svc p true 10 = Ok strict
    ∧ ((false, 0) ∈ scans_run s ↔ strict = [])
    ∧ (strict ≠ [] →
       scans_run s = [(true, 10)]
       ∧ ranked s = Py.slice_to (sort_results strict) max_results)
    ∧ (strict = [] →
       ∃ relaxed,
         _run_scan svc p false 0 = Ok relaxed
         ∧ scans_run s = [(true, 10); (false, 0)]
         ∧ ranked s = Py.slice_to (sort_results relaxed) max_results).
Proof.
  unfold suggest_muhurats. intros Hrun.
  apply bind_Ok in Hrun as (p & Hp & Hrun).
  apply bind_Ok in Hrun as ([results scans] & Htwo & Hrun).
  injection Hrun as <-. cbn [ranked scans_run].
  unfold two_phase in Htwo.
  apply bind_Ok in Htwo as (strict & Hstrict & Htwo).
  exists p, strict. split; [done|]. split; [done|].
  destruct strict as [|m strict].
  - apply bind_Ok in Htwo as (relaxed & Hrelaxed & Htwo).
    injection Htwo as <- <-. split; [split; [done|set_solver]|].
    split; [done|]. intros _. by exists relaxed.
  - injection Htwo as <- <-. split.
    + split; [|done]. intros Hin. apply list_elem_of_singleton in Hin. done.
    + split; [done|]. done.
Qed.

(** The theorem at a service under which no slot scores 10: the strict
    scan finds nothing, the relaxed scan runs and its candidate is
    returned. *)
Lemma relaxed_scan_iff_strict_empty_witness :
  ∃ s p strict,
    suggest_muhurats bleak_services demo_day demo_day demo_location 3 None None
      None None = Ok s
    ∧ (m_time <$> ranked s) = ["06:00"]
    ∧ prepare bleak_services demo_day demo_day demo_location 3 None None None None
      = Ok p
    ∧ _run_scan bleak_services p true 10 = Ok strict
    ∧ ((false, 0) ∈ scans_run s ↔ strict = [])
    ∧ (strict ≠ [] →
       scans_run s = [(true, 10)]
       ∧ ranked s = Py.slice_to (sort_results strict) 3)
    ∧ (strict = [] →
       ∃ relaxed,
         _run_scan bleak_services p false 0 = Ok relaxed
         ∧ scans_run s = [(true, 10); (false, 0)]
         ∧ ranked s = Py.slice_to (sort_results relaxed) 3).
Proof.
  assert (Hrun : ∃ s, suggest_muhurats bleak_services demo_day demo_day demo_location
                        3 None None None None = Ok s
                      ∧ (m_time <$> ranked s) = ["06:00"]).
  { eexists. split; [vm_compute; reflexivity|reflexivity]. }
  destruct Hrun as (s & Hs & Ht).
  destruct (relaxed_scan_iff_strict_empty _ _ _ _ _ _ _ _ _ _ Hs)
    as (p & strict & H1 & H2 & H3 & H4 & H5).
  exists s, p, strict.
  exact (conj Hs (conj Ht (conj H1 (conj H2 (conj H3 (conj H4 H5)))))).
Defined.

(** Every candidate of a scan is the result item of a slot of the scan
    order that reaches the de-duplication step. *)
Lemma run_scan_from_slots (svc : Services) (p : scan_params)
    (strict_filters : bool) (min_score : Z) (rs : list Muhurat) :
  0 < sp_hard_cap p →
  _run_scan svc p strict_filters min_score = Ok rs →
  ∀ r, r ∈ rs →
    ∃ s astro score,
      s ∈ scan_order p
      ∧ survives svc p strict_filters min_score s astro score
      ∧ r = slot_result s astro score.
Proof.
  intros Hcap Hrun r Hr.
  destruct (run_scan_collected _ _ _ _ _ Hcap Hrun)
    as (visited & rest & st & Hsplit & Hcol & <- & Hend).
  destruct (collected_spec _ _ _ _ _ _ _ Hcol) as (_ & _ & _ & _ & new & A5 & A6).
  { intros k. cbn. rewrite elem_of_nil. set_solver. }
  { cbn. apply NoDup_nil_2. }
  cbn in A5. rewrite A5 in Hr.
  destruct (A6 r Hr) as (before & s & after & a & sc & -> & B1 & B2 & _).
  exists s, a, sc. split; [|done]. rewrite Hsplit.
  apply elem_of_app. left. apply elem_of_app. right. by left.
Qed.

(** C4.  The list [suggest_muhurats] returns is the list of collected
    candidates, sorted and cut: the sorted list is a rearrangement of the
    collected candidates in which every item ranks before all later ones,
    by score descending, then date ascending, then time ascending, and
    what is returned is its first [max_results] items.  The candidates
    are result items of slots of the scan order, and on such items the
    comparison of the date and time strings is the comparison of the
    slots in time. *)
Theorem ranking_sorted_and_cut (svc : Services) (start_date end_date : Py.date)
    (location : LocationInput) (max_results : Z) (qualities_text : option string)
    (qualities_selected qualities_priority : option (list string))
    (parents : option (Parents LocationInput)) (s : Suggestion) :
  Py.valid_date start_date →
  0 ≤ max_results →
  suggest_muhurats svc start_date end_date location max_results qualities_text
    qualities_selected qualities_priority parents = Ok s →
  ∃ p collected scans,
    prepare svc start_date end_date location max_results qualities_text
      qualities_selected qualities_priority parents = Ok p
    ∧ two_phase svc p = Ok (collected, scans)
    ∧ sort_results collected ≡ₚ collected
    ∧ StronglySorted ranks_before (sort_results collected)
    ∧ ranked s = take (Z.to_nat max_results) (sort_results collected)
    ∧ Z.of_nat (length (ranked s)) ≤ max_results
    ∧ (∀ m, m ∈ collected →
         ∃ sl astro score,
           sl ∈ scan_order p ∧ valid_slot sl ∧ m = slot_result sl astro score)
    ∧ (∀ s1 s2 a1 a2 sc1 sc2, valid_slot s1 → valid_slot s2 →
         ranks_before (slot_result s1 a1 sc1) (slot_result s2 a2 sc2)
         ↔ sc2 < sc1 ∨ (sc1 = sc2 ∧ slot_compare s1 s2 ≠ Gt)).
Proof.
  intros Hvalid Hmax Hrun. unfold suggest_muhurats in Hrun.
  apply bind_Ok in Hrun as (p & Hp & Hrun).
  apply bind_Ok in Hrun as ([collected scans] & Htwo & Hrun).
  injection Hrun as <-. cbn [ranked].
  destruct (prepare_Ok _ _ _ _ _ _ _ _ _ _ Hp) as (Hsd & _ & Hcap & _).
  exists p, collected, scans. split; [done|]. split; [done|].
  split; [apply sort_results_perm|]. split; [apply sort_results_sorted|].
  destruct (slice_to_nonneg (sort_results collected) max_results Hmax) as [Hs1 Hs2].
  split; [done|]. split; [done|]. split; [|by apply ranks_before_chronological].
  assert (Hfrom : ∀ strict_filters min_score rs,
            _run_scan svc p strict_filters min_score = Ok rs →
            ∀ m, m ∈ rs → ∃ sl astro score,
              sl ∈ scan_order p ∧ valid_slot sl ∧ m = slot_result sl astro score).
  { intros sf ms rs Hrs m Hm.
    destruct (run_scan_from_slots svc p sf ms rs ltac:(lia) Hrs m Hm)
      as (sl & a & sc & Hin & _ & ->).
    exists sl, a, sc. split; [done|]. split; [|done].
    eapply scan_order_valid; [|done]. by rewrite Hsd. }
  unfold two_phase in Htwo.
  apply bind_Ok in Htwo as (strict & Hstrict & Htwo).
  destruct strict as [|m0 strict].
  - apply bind_Ok in Htwo as (relaxed & Hrelaxed & Htwo).
    injection Htwo as <- <-. by eapply Hfrom.
  - injection Htwo as <- <-. by eapply Hfrom.
Qed.

(** The theorem at one day of the service whose factor set changes at
    noon: the later candidate has the higher score and comes first. *)
Lemma ranking_sorted_and_cut_witness :
  ∃ s p collected scans,
    suggest_muhurats demo_services demo_day demo_day demo_location 3 None None
      None None = Ok s
    ∧ ((λ m, (m_score m, m_time m)) <$> ranked s) = [(50, "12:00"); (46, "06:00")]
    ∧ prepare demo_services demo_day demo_day demo_location 3 None None None None
      = Ok p
    ∧ two_phase demo_services p = Ok (collected, scans)
    ∧ sort_results collected ≡ₚ collected
    ∧ StronglySorted ranks_before (sort_results collected)
    ∧ ranked s = take (Z.to_nat 3) (sort_results collected)
    ∧ Z.of_nat (length (ranked s)) ≤ 3
    ∧ (∀ m, m ∈ collected →
         ∃ sl astro score,
           sl ∈ scan_order p ∧ valid_slot sl ∧ m = slot_result sl astro score)
    ∧ (∀ s1 s2 a1 a2 sc1 sc2, valid_slot s1 → valid_slot s2 →
         ranks_before (slot_result s1 a1 sc1) (slot_result s2 a2 sc2)
         ↔ sc2 < sc1 ∨ (sc1 = sc2 ∧ slot_compare s1 s2 ≠ Gt)).
Proof.
  assert (Hrun : ∃ s, suggest_muhurats demo_services demo_day demo_day demo_location
                        3 None None None None = Ok s
                      ∧ ((λ m, (m_score m, m_time m)) <$> ranked s)
                        = [(50, "12:00"); (46, "06:00")]).
  { eexists. split; [vm_compute; reflexivity|reflexivity]. }
  destruct Hrun as (s & Hs & Ht).
  destruct (ranking_sorted_and_cut demo_services demo_day demo_day demo_location 3
              None None None None s demo_day_valid ltac:(lia) Hs)
    as (p & collected & scans & H1 & H2 & H3 & H4 & H5 & H6 & H7 & H8).
  exists s, p, collected, scans.
  exact (conj Hs (conj Ht (conj H1 (conj H2 (conj H3 (conj H4 (conj H5
           (conj H6 (conj H7 H8))))))))).
Defined.

(** ** The engine returns *)

(** Personalised tables keep every factor and keep the weights
    non-negative. *)
Lemma add_overrides_nonneg (w : gmap string Z) (overrides : list (string * Z))
    (multiplier : Z) :
  weights_nonneg w → 0 ≤ multiplier → Forall (λ kv, 0 ≤ kv.2) overrides →
  weights_nonneg (add_overrides w overrides multiplier).
Proof.
  intros Hw Hm Hall. revert w Hw. unfold add_overrides.
  induction Hall as [|[k v] rest Hv Hall IH]; intros w Hw; [done|].
  cbn [foldl fst snd]. apply IH. intros k' Hk'.
  destruct (decide (k = k')) as [<-|Hne].
  - rewrite lookup_insert_eq. eexists. split; [done|].
    destruct (Hw k Hk') as (v0 & -> & Hv0). cbn in *. nia.
  - rewrite lookup_insert_ne by done. by apply Hw.
Qed.

Lemma trait_loop_nonneg (w : gmap string Z) (idx : nat) (traits : list string) :
  weights_nonneg w → weights_nonneg (trait_loop w idx traits).
Proof.
  revert w idx. induction traits as [|t rest IH]; intros w idx Hw; [done|].
  cbn [trait_loop]. apply IH. apply add_overrides_nonneg; [done| |].
  - assert (Hall : Forall (λ m, 0 ≤ m) TRAIT_PRIORITY_MULTIPLIERS)
      by (apply (bool_decide_unpack _); by vm_compute).
    destruct (TRAIT_PRIORITY_MULTIPLIERS !! idx) as [m|] eqn:E; [|done].
    rewrite Forall_forall in Hall. apply Hall. by eapply list_elem_of_lookup_2.
  - assert (Hall : map_Forall (λ _ ovs, Forall (λ kv : string * Z, 0 ≤ kv.2) ovs)
                     TRAIT_WEIGHT_OVERRIDES)
      by (apply (bool_decide_unpack _); by vm_compute).
    destruct (TRAIT_WEIGHT_OVERRIDES !! t) as [ovs|] eqn:E; [|constructor].
    by apply (Hall t ovs).
Qed.

Lemma get_weights_for_traits_nonneg (traits : list string) :
  weights_nonneg (get_weights_for_traits traits).
Proof.
  unfold get_weights_for_traits, apply_trait_weights.
  apply trait_loop_nonneg. check_weights.
Qed.

Lemma compute_score_returns (astro : Astro) (parents_meta : option ParentsMeta)
    (w : gmap string Z) :
  weights_nonneg w → nakshatra astro ∈ NAKSHATRA_LIST →
  ∃ s, compute_score astro parents_meta w = Ok s.
Proof.
  intros Hw Hnak.
  destruct (raw_score_bounds astro parents_meta w Hw Hnak) as (raw & Hraw & _).
  destruct (max_possible_Ok w Hw) as [Hmax _].
  unfold compute_score. rewrite Hraw, Hmax. cbn [mbind res_mbind res_bind].
  destruct (max_sum w <=? 0); by eexists.
Qed.

Section returns.
Context (svc : Services) (p : scan_params).
Context (strict_filters : bool) (min_score : Z).
Context (Hsvc : services_answer svc).
Context (Hw : weights_nonneg (sp_weights p)).

Lemma evaluate_slot_returns (d : Py.date) (hour minute : Z) :
  ∃ r, evaluate_slot svc p strict_filters min_score d hour minute = Ok r.
Proof.
  destruct Hsvc as (_ & Hastro & Hdasha & _).
  unfold evaluate_slot. cbv zeta.
  destruct (is_rahu_kalam _); [by eexists|].
  destruct (Hastro (Py.isoformat d) (time_str hour minute) (sp_resolved_location p))
    as (astro & -> & Hnak).
  cbn [mbind res_mbind res_bind].
  assert (Hpd : ∃ pd,
    match sp_parents_resolved p with
    | Some pr =>
        md ← calculate_dasha_lord_for_birth svc (date_of_birth (mother pr))
               (time_of_birth (mother pr)) (location (mother pr)) (utc_datetime astro);
        fd ← calculate_dasha_lord_for_birth svc (date_of_birth (father pr))
               (time_of_birth (father pr)) (location (father pr)) (utc_datetime astro);
        Ok (Some (mkParentsDasha (Some md) (Some fd)))
    | None => Ok None
    end = Ok pd).
  { destruct (sp_parents_resolved p) as [pr|]; [|by eexists].
    destruct (Hdasha (date_of_birth (mother pr)) (time_of_birth (mother pr))
                (location (mother pr)) (utc_datetime astro)) as (md & ->).
    destruct (Hdasha (date_of_birth (father pr)) (time_of_birth (father pr))
                (location (father pr)) (utc_datetime astro)) as (fd & ->).
    by eexists. }
  destruct Hpd as (pd & ->). cbn [mbind res_mbind res_bind].
  destruct (strict_filters && _ && _); [by eexists|].
  destruct (compute_score_returns (set_parents_dasha astro pd) (sp_parents_meta p)
              (sp_weights p) Hw Hnak) as (s & ->).
  cbn [mbind res_mbind res_bind]. destruct (s <? min_score); by eexists.
Qed.

Lemma scan_slot_returns (d : Py.date) (hour minute : Z) (st : scan_state) :
  ∃ r, scan_slot svc p strict_filters min_score d hour minute st = Ok r.
Proof.
  unfold scan_slot. destruct (evaluate_slot_returns d hour minute) as (r & ->).
  cbn [mbind res_mbind res_bind]. destruct r as [[astro score]|]; [|by eexists].
  case_bool_decide; by eexists.
Qed.

Lemma flat_loop_returns (slots : list slot) (st : scan_state) :
  ∃ st', flat_loop svc p strict_filters min_score slots st = Ok st'.
Proof.
  revert st. induction slots as [|s slots IH]; intros st; [by eexists|].
  cbn [flat_loop]. destruct (scan_slot_returns s.1.1 s.1.2 s.2 st) as (r & ->).
  cbn [mbind res_mbind res_bind]. destruct r as [st'|]; [|apply IH].
  destruct (cap_reached p st'); [by eexists|apply IH].
Qed.

Lemma date_leb_year (a b : Py.date) :
  Py.date_leb a b = true → Py.year a ≤ Py.year b.
Proof.
  unfold Py.date_leb, Py.date_compare.
  destruct (Py.year a ?= Py.year b) eqn:E; [| |done]; intros _.
  - apply Z.compare_eq in E. lia.
  - rewrite Z.compare_lt_iff in E. lia.
Qed.

Lemma add_one_day_returns (d : Py.date) :
  Py.year d < 9999 → ∃ d', Py.add_one_day d = Ok d'.
Proof.
  intros Hy. unfold Py.add_one_day.
  destruct (_ <? _); [by eexists|]. destruct (_ <? _); [by eexists|].
  destruct (Py.year d <? 9999) eqn:E; [by eexists|].
  apply Z.ltb_ge in E. lia.
Qed.

Lemma day_loop_returns (fuel : nat) (cur : Py.date) (st : scan_state) :
  Py.valid_date cur → Py.valid_date (sp_ed p) → Py.year (sp_ed p) < 9999 →
  (1 ≤ fuel)%nat →
  Py.toordinal (sp_ed p) - Py.toordinal cur + 2 ≤ Z.of_nat fuel →
  cap_reached p st = false →
  ∃ st', day_loop svc p strict_filters min_score fuel cur st = Ok st'.
Proof.
  revert cur st. induction fuel as [|fuel IH]; intros cur st Hv Hve Hy H1 Hb Hcap; [lia|].
  cbn [day_loop]. destruct (Py.date_leb cur (sp_ed p)) eqn:E; [|by eexists].
  pose proof (toordinal_mono _ _ Hv Hve E) as Hord.
  pose proof (date_leb_year _ _ E) as Hyear.
  rewrite hour_loop_flat by done.
  destruct (flat_loop_returns
              (py_range DAY_START_HOUR (DAY_END_HOUR + 1) 1 ≫= hour_slots cur) st)
    as (st' & ->).
  cbn [mbind res_mbind res_bind].
  destruct (cap_reached p st') eqn:Ecap; [by eexists|].
  destruct (add_one_day_returns cur ltac:(lia)) as (cur' & Hnext). rewrite Hnext.
  cbn [mbind res_mbind res_bind].
  destruct (add_one_day_spec _ _ Hv Hnext) as (Hv' & _ & Hord').
  apply IH; [done|done|done|lia|lia|done].
Qed.

Lemma run_scan_returns :
  Py.valid_date (sp_sd p) → Py.valid_date (sp_ed p) → Py.year (sp_ed p) < 9999 →
  0 < sp_hard_cap p →
  ∃ rs, _run_scan svc p strict_filters min_score = Ok rs.
Proof.
  intros Hv Hve Hy Hcap. unfold _run_scan.
  destruct (day_loop_returns (scan_fuel p) (sp_sd p) (mkScanState [] ∅))
    as (st & ->); try done.
  - unfold scan_fuel. lia.
  - unfold scan_fuel, Py.days_between. lia.
  - unfold cap_reached. cbn. apply Z.leb_gt. lia.
  - by eexists.
Qed.

End returns.

(** With collaborators that answer, a request for dates in order, at most
    365 days apart and ending before the year 9999, is answered with a
    result. *)
Lemma suggest_muhurats_returns (svc : Services) (start_date end_date : Py.date)
    (place : LocationInput) (max_results : Z) (qualities_text : option string)
    (qualities_selected qualities_priority : option (list string))
    (parents : option (Parents LocationInput)) :
  services_answer svc →
  Py.valid_date start_date → Py.valid_date end_date → Py.year end_date < 9999 →
  Py.date_ltb end_date start_date = false →
  Py.days_between start_date end_date ≤ 365 →
  ∃ s, suggest_muhurats svc start_date end_date place max_results qualities_text
         qualities_selected qualities_priority parents = Ok s.
Proof.
  intros Hsvc Hv Hve Hy Hord Hspan.
  assert (Hprep : ∃ p, prepare svc start_date end_date place max_results
                         qualities_text qualities_selected qualities_priority parents
                       = Ok p).
  { unfold prepare. rewrite Hord.
    destruct (365 <? Py.days_between start_date end_date) eqn:E;
      [apply Z.ltb_lt in E; lia|].
    destruct Hsvc as (Hloc & _ & _ & Hmeta).
    destruct (Hloc place) as (loc & ->). cbn [mbind res_mbind res_bind].
    assert (Hpar : ∃ r, resolve_parents svc parents = Ok r).
    { unfold resolve_parents. destruct parents as [ps|]; [|by eexists].
      destruct (Hloc (location (mother ps))) as (ml & ->).
      destruct (Hloc (location (father ps))) as (fl & ->).
      cbn [mbind res_mbind res_bind location date_of_birth time_of_birth].
      destruct (Hmeta (date_of_birth (mother ps)) (time_of_birth (mother ps)) ml)
        as (mm & ->).
      destruct (Hmeta (date_of_birth (father ps)) (time_of_birth (father ps)) fl)
        as (fm & ->).
      by eexists. }
    destruct Hpar as ([pr pm] & ->). cbn [mbind res_mbind res_bind]. by eexists. }
  destruct Hprep as (p & Hp).
  destruct (prepare_Ok _ _ _ _ _ _ _ _ _ _ Hp) as (Hsd & Hed & Hcap & _ & Hweights & _).
  assert (Hw : weights_nonneg (sp_weights p))
    by (rewrite Hweights; apply get_weights_for_traits_nonneg).
  unfold suggest_muhurats. rewrite Hp. cbn [mbind res_mbind res_bind].
  unfold two_phase.
  destruct (run_scan_returns svc p true 10 Hsvc Hw) as (strict & ->);
    [by rewrite Hsd|by rewrite Hed|by rewrite Hed|lia|].
  cbn [mbind res_mbind res_bind]. destruct strict as [|m strict]; [|by eexists].
  destruct (run_scan_returns svc p false 0 Hsvc Hw) as (relaxed & ->);
    [by rewrite Hsd|by rewrite Hed|by rewrite Hed|lia|].
  by eexists.
Qed.

(** * Further properties: the astrology module, the scan, the scoring
    and the qualities *)

(** ** astrology_engine.py: longitudes against the tables *)

Lemma int_of_float_nonneg (x : Q) : (0 <= x)%Q → Py.int_of_float x = Qfloor x.
Proof.
  intros H. unfold Py.int_of_float. apply Qle_bool_iff in H. by rewrite H.
Qed.

(** [k] is the index of the arc of width [w] that holds [x], counting the
    arcs from 0. *)
Lemma floor_div_arc (x w : Q) :
  (0 < w)%Q →
  (inject_Z (Qfloor (x / w)) * w <= x)%Q
  ∧ (x < (inject_Z (Qfloor (x / w)) + 1) * w)%Q.
Proof.
  intros Hw.
  pose proof (Qfloor_le (x / w)) as H1.
  pose proof (Qlt_floor (x / w)) as H2.
  rewrite inject_Z_plus in H2. change (inject_Z 1) with 1%Q in H2.
  set (f := inject_Z (Qfloor (x / w))) in *.
  assert (Hx : (x == (x / w) * w)%Q) by (field; lra).
  set (z := (x / w)%Q) in *. clearbody z f.
  split.
  - assert (H : (0 <= (z - f) * w)%Q) by (apply Qmult_le_0_compat; lra).
    assert (E : ((z - f) * w == z * w - f * w)%Q) by ring.
    rewrite E in H. lra.
  - assert (H : (0 < (f + 1 - z) * w)%Q) by (apply Qmult_lt_0_compat; lra).
    assert (E : ((f + 1 - z) * w == (f + 1) * w - z * w)%Q) by ring.
    rewrite E in H. lra.
Qed.

Lemma arc_index_unique (x w : Q) (j k : Z) :
  (0 < w)%Q →
  (inject_Z j * w <= x)%Q → (x < (inject_Z k + 1) * w)%Q → j ≤ k.
Proof.
  intros Hw H1 H2.
  destruct (Z_lt_le_dec k j) as [Hlt|]; [exfalso|done].
  assert (Hq : (inject_Z k + 1 <= inject_Z j)%Q).
  { change 1%Q with (inject_Z 1). rewrite <- inject_Z_plus, <- Zle_Qle. lia. }
  assert (H : (0 <= (inject_Z j - (inject_Z k + 1)) * w)%Q)
    by (apply Qmult_le_0_compat; lra).
  assert (E : ((inject_Z j - (inject_Z k + 1)) * w
               == inject_Z j * w - (inject_Z k + 1) * w)%Q) by ring.
  rewrite E in H. lra.
Qed.

Lemma floor_div_unique (x w : Q) (k : Z) :
  (0 < w)%Q →
  (inject_Z k * w <= x)%Q → (x < (inject_Z k + 1) * w)%Q → Qfloor (x / w) = k.
Proof.
  intros Hw H1 H2. destruct (floor_div_arc x w Hw) as [F1 F2].
  pose proof (arc_index_unique x w _ _ Hw F1 H2).
  pose proof (arc_index_unique x w _ _ Hw H1 F2). lia.
Qed.

Lemma list_getitem_Ok {A} (l : list A) (i : Z) :
  0 ≤ i < Z.of_nat (length l) →
  ∃ v, list_getitem l i = Ok v ∧ l !! Z.to_nat i = Some v.
Proof.
  intros [H0 H1]. unfold list_getitem.
  destruct (Z.ltb_spec i 0) as [?|_]; [lia|]. cbv zeta.
  destruct (Z.ltb_spec i 0) as [?|_]; [lia|].
  destruct (l !! Z.to_nat i) as [v|] eqn:E; [by eauto|].
  apply lookup_ge_None in E. lia.
Qed.

Lemma list_getitem_IndexError {A} (l : list A) (i : Z) :
  Z.of_nat (length l) ≤ i → list_getitem l i = Raise IndexError.
Proof.
  intros H. unfold list_getitem.
  destruct (Z.ltb_spec i 0) as [?|_]; [lia|]. cbv zeta.
  destruct (Z.ltb_spec i 0) as [?|_]; [lia|].
  destruct (l !! Z.to_nat i) as [v|] eqn:E; [|done].
  apply lookup_lt_Some in E. lia.
Qed.





Lemma arc_lookup {A} (l : list A) (x w : Q) :
  (0 < w)%Q → (0 <= x)%Q → (x < inject_Z (Z.of_nat (length l)) * w)%Q →
  ∃ v, list_getitem l (Py.int_of_float (x / w)) = Ok v
       ∧ l !! Z.to_nat (Qfloor (x / w)) = Some v
       ∧ 0 ≤ Qfloor (x / w) < Z.of_nat (length l).
Proof.
  intros Hw Hx Hlen.
  assert (Hq : (0 <= x / w)%Q) by (apply Qle_shift_div_l; lra).
  rewrite (int_of_float_nonneg _ Hq).
  destruct (floor_div_arc x w Hw) as [K1 K2].
  assert (Hr : 0 ≤ Qfloor (x / w) < Z.of_nat (length l)).
  { split.
    - apply (arc_index_unique x w 0 _ Hw); [|done].
      change (inject_Z 0) with 0%Q. lra.
    - assert (Qfloor (x / w) ≤ Z.of_nat (length l) - 1); [|lia].
      apply (arc_index_unique x w _ _ Hw); [done|].
      assert (E : (inject_Z (Z.of_nat (length l) - 1) + 1
                   == inject_Z (Z.of_nat (length l)))%Q).
      { change 1%Q with (inject_Z 1). rewrite <- inject_Z_plus.
        by replace (Z.of_nat (length l) - 1 + 1) with (Z.of_nat (length l)) by lia. }
      by rewrite E. }
  destruct (list_getitem_Ok l _ Hr) as (v & G1 & G2). eauto.
Qed.

Lemma get_rashi_spec (lon : Q) :
  (0 <= lon)%Q → (lon < 360)%Q →
  ∃ name, get_rashi lon = Ok name
          ∧ RASHI_LIST !! Z.to_nat (Qfloor (lon / 30)) = Some name
          ∧ 0 ≤ Qfloor (lon / 30) < 12.
Proof.
  intros Hlo Hhi. unfold get_rashi.
  apply (arc_lookup RASHI_LIST lon 30); [lra|done|].
  change (inject_Z (Z.of_nat (length RASHI_LIST)) * 30)%Q with (12 * 30)%Q. lra.
Qed.

Lemma get_rashi_elem (lon : Q) :
  (0 <= lon)%Q → (lon < 360)%Q →
  ∃ name, get_rashi lon = Ok name ∧ name ∈ RASHI_LIST.
Proof.
  intros Hlo Hhi. destruct (get_rashi_spec lon Hlo Hhi) as (name & H1 & H2 & _).
  exists name. split; [done|]. by eapply list_elem_of_lookup_2.
Qed.

Lemma elem_of_list_cases {A} (x : A) (l : list A) (P : A → Prop) :
  Forall P l → x ∈ l → P x.
Proof. intros HF Hx. by eapply Forall_forall in HF. Qed.



(** X2.  At 360° and beyond both table look-ups leave their lists:
    [get_nakshatra_and_pada] and [get_rashi] raise [IndexError]. *)
Theorem longitude_tables_end_at_360 (lon : Q) :
  (360 <= lon)%Q →
  get_nakshatra_and_pada lon = Raise IndexError
  ∧ get_rashi lon = Raise IndexError.
Proof.
  intros Hlon. pose proof nakshatra_span_pos as Hs.
  assert (E27 : (27 * NAKSHATRA_SPAN == 360)%Q) by (by vm_compute).
  split.
  - unfold get_nakshatra_and_pada.
    assert (Hq : (0 <= lon / NAKSHATRA_SPAN)%Q) by (apply Qle_shift_div_l; lra).
    rewrite (int_of_float_nonneg _ Hq).
    rewrite list_getitem_IndexError; [done|].
    destruct (floor_div_arc lon NAKSHATRA_SPAN Hs) as [_ K2].
    change (Z.of_nat (length NAKSHATRA_LIST)) with 27.
    apply (arc_index_unique lon NAKSHATRA_SPAN 27 _ Hs); [|done].
    change (inject_Z 27) with 27%Q. lra.
  - unfold get_rashi.
    assert (Hq : (0 <= lon / 30)%Q) by (apply Qle_shift_div_l; lra).
    rewrite (int_of_float_nonneg _ Hq).
    rewrite list_getitem_IndexError; [done|].
    assert (H30 : (0 < 30)%Q) by lra.
    destruct (floor_div_arc lon 30 H30) as [_ K2].
    change (Z.of_nat (length RASHI_LIST)) with 12.
    apply (arc_index_unique lon 30 12 _ H30); [|done].
    change (inject_Z 12) with 12%Q. lra.
Qed.

(** The theorem at 360° itself. *)
Lemma longitude_tables_end_at_360_witness :
  get_nakshatra_and_pada 360 = Raise IndexError
  ∧ get_rashi 360 = Raise IndexError.
Proof.
  apply longitude_tables_end_at_360. by vm_compute.
Defined.





(** The lords of the twelve signs. *)
Lemma sign_lord_spec (rashi : string) :
  rashi ∈ RASHI_LIST →
  ∃ lord, get_sign_lord rashi = Ok lord
          ∧ lord ∈ ["Sun"; "Moon"; "Mars"; "Mercury"; "Jupiter"; "Venus"; "Saturn"]
          ∧ is_Some (PLANET_FRIENDS !! lord).
Proof.
  intros Hin.
  assert (Hall : forallb (λ r, match SIGN_LORDS !! r with
                               | Some lord =>
                                   bool_decide (lord ∈ ["Sun"; "Moon"; "Mars"; "Mercury";
                                                        "Jupiter"; "Venus"; "Saturn"])
                                   && bool_decide (is_Some (PLANET_FRIENDS !! lord))
                               | None => false
                               end) RASHI_LIST = true) by (by vm_compute).
  rewrite forallb_forall in Hall. specialize (Hall rashi).
  rewrite <- list_elem_of_In in Hall. specialize (Hall Hin).
  unfold get_sign_lord, getitem.
  destruct (SIGN_LORDS !! rashi) as [lord|]; [|done].
  apply andb_true_iff in Hall as [H1 H2].
  apply bool_decide_eq_true in H1, H2. eauto.
Qed.

(** X5.  Every sign of [RASHI_LIST] has a lord; the lord is one of the
    seven planets, never a lunar node, and has an entry in
    [PLANET_FRIENDS].  For a name outside the list [get_sign_lord] raises
    [KeyError]. *)
Theorem every_sign_has_a_lord (rashi : string) :
  (rashi ∈ RASHI_LIST →
   ∃ lord, get_sign_lord rashi = Ok lord
           ∧ lord ∈ ["Sun"; "Moon"; "Mars"; "Mercury"; "Jupiter"; "Venus"; "Saturn"]
           ∧ is_Some (PLANET_FRIENDS !! lord))
  ∧ (rashi ∉ RASHI_LIST → get_sign_lord rashi = Raise (KeyError rashi)).
Proof.
  split.
  - apply sign_lord_spec.
  - intros Hnot. unfold get_sign_lord, getitem, SIGN_LORDS.
    rewrite (not_elem_of_list_to_map_1 _ rashi); [done|]. exact Hnot.
Qed.

(** The theorem at the sign Karka and at a name that is no sign. *)
Lemma every_sign_has_a_lord_witness :
  (∃ lord, get_sign_lord "Karka (Cancer)" = Ok lord
           ∧ lord ∈ ["Sun"; "Moon"; "Mars"; "Mercury"; "Jupiter"; "Venus"; "Saturn"]
           ∧ is_Some (PLANET_FRIENDS !! lord))
  ∧ get_sign_lord "Cancer" = Raise (KeyError "Cancer").
Proof.
  split.
  - apply (proj1 (every_sign_has_a_lord "Karka (Cancer)")).
    apply (bool_decide_unpack _). by vm_compute.
  - apply (proj2 (every_sign_has_a_lord "Cancer")).
    apply (bool_decide_unpack _). by vm_compute.
Defined.

(** ** astrology_engine.py: houses, beyond the ring *)

Lemma house_loop_range (cusps : list Q) (lon : Q) (l : list Z) :
  Forall (λ i, 1 ≤ i ≤ 12) l → 1 ≤ house_loop cusps lon l ≤ 12.
Proof.
  induction 1 as [|i l Hi _ IH]; cbn [house_loop]; [lia|].
  by destruct (house_contains cusps lon i).
Qed.

Lemma seqZ_1_12_range : Forall (λ i, 1 ≤ i ≤ 12) (seqZ 1 12).
Proof. apply Forall_forall. intros i Hi. apply elem_of_seqZ in Hi. lia. Qed.

(** X6.  [house_for_longitude] raises [ValueError] exactly when the cusp
    list has neither 12 nor 13 entries; otherwise it returns a house
    number from 1 to 12, whatever the cusps and the longitude are. *)
Theorem house_number_or_value_error (cusps : list Q) (lon : Q) :
  (length cusps = 12%nat ∨ length cusps = 13%nat →
   ∃ i, house_for_longitude cusps lon = Ok i ∧ 1 ≤ i ≤ 12)
  ∧ (length cusps ≠ 12%nat → length cusps ≠ 13%nat →
     ∃ msg, house_for_longitude cusps lon = Raise (ValueError msg)).
Proof.
  unfold house_for_longitude, _normalize_cusps. split.
  - intros [E|E]; rewrite E; cbn [Nat.eqb mbind res_mbind res_bind];
      (eexists; split; [reflexivity|]); apply house_loop_range, seqZ_1_12_range.
  - intros H12 H13.
    destruct (Nat.eqb_spec (length cusps) 13) as [?|_]; [done|].
    destruct (Nat.eqb_spec (length cusps) 12) as [?|_]; [done|]. by eexists.
Qed.

(** The theorem at twelve equal cusps, which form no ring, and at a list
    of three cusps. *)
Lemma house_number_or_value_error_witness :
  (∃ i, house_for_longitude (replicate 12 0%Q) 45 = Ok i ∧ 1 ≤ i ≤ 12)
  ∧ ∃ msg, house_for_longitude [10; 20; 30]%Q 45 = Raise (ValueError msg).
Proof.
  split.
  - apply (proj1 (house_number_or_value_error (replicate 12 0%Q) 45)). by left.
  - by apply (proj2 (house_number_or_value_error [10; 20; 30]%Q 45)).
Defined.

Lemma fmod_period (x y : Q) (k : Z) :
  (0 < y)%Q → (Py.fmod (x + inject_Z k * y) y == Py.fmod x y)%Q.
Proof.
  intros Hy. unfold Py.fmod.
  assert (E : Qfloor ((x + inject_Z k * y) / y) = Qfloor (x / y) + k).
  { destruct (floor_div_arc x y Hy) as [F1 F2].
    apply floor_div_unique; [done| |]; rewrite inject_Z_plus.
    - assert (E : ((inject_Z (Qfloor (x / y)) + inject_Z k) * y
                   == inject_Z (Qfloor (x / y)) * y + inject_Z k * y)%Q) by ring.
      rewrite E. lra.
    - assert (E : ((inject_Z (Qfloor (x / y)) + inject_Z k + 1) * y
                   == (inject_Z (Qfloor (x / y)) + 1) * y + inject_Z k * y)%Q) by ring.
      rewrite E. lra. }
  rewrite E, inject_Z_plus. ring.
Qed.

Lemma house_loop_proper (cusps : list Q) (lon lon' : Q) (l : list Z) :
  (lon == lon')%Q → house_loop cusps lon l = house_loop cusps lon' l.
Proof.
  intros E. induction l as [|i l IH]; cbn [house_loop]; [done|].
  by rewrite (house_contains_proper cusps lon lon' i E), IH.
Qed.

Lemma cusp_above_dummy (x y : Q) (cusps : list Q) (i : Z) :
  1 ≤ i → cusp (x :: cusps) i = cusp (y :: cusps) i.
Proof.
  intros Hi. unfold cusp.
  destruct (Z.to_nat i) as [|n] eqn:E; [lia|done].
Qed.

Lemma house_contains_above_dummy (x y : Q) (cusps : list Q) (lon : Q) (i : Z) :
  1 ≤ i →
  house_contains (x :: cusps) lon i = house_contains (y :: cusps) lon i.
Proof.
  intros Hi. unfold house_contains, house_start, house_end.
  rewrite (cusp_above_dummy x y cusps i), (cusp_above_dummy x y cusps 1),
    (cusp_above_dummy x y cusps (i + 1)); [done|lia..].
Qed.

Lemma house_loop_above_dummy (x y : Q) (cusps : list Q) (lon : Q) (l : list Z) :
  Forall (λ i, 1 ≤ i ≤ 12) l →
  house_loop (x :: cusps) lon l = house_loop (y :: cusps) lon l.
Proof.
  induction 1 as [|i l Hi _ IH]; cbn [house_loop]; [done|].
  rewrite (house_contains_above_dummy x y cusps lon i), IH; [done|lia].
Qed.

(** X7.  The house depends on the longitude only modulo 360, and entry 0
    of a 13-long cusp list is never read: the list gives the same houses
    as its last twelve entries. *)
Theorem house_reads_what_it_needs (cusps : list Q) (x lon : Q) (k : Z) :
  house_for_longitude cusps (lon + inject_Z k * 360) = house_for_longitude cusps lon
  ∧ (length cusps = 12%nat →
     house_for_longitude (x :: cusps) lon = house_for_longitude cusps lon).
Proof.
  split.
  - unfold house_for_longitude. destruct (_normalize_cusps cusps) as [ring|e]; [|done].
    cbn [mbind res_mbind res_bind]. f_equal.
    apply house_loop_proper, fmod_period. lra.
  - intros E. unfold house_for_longitude, _normalize_cusps.
    cbn [length]. rewrite E. cbn [Nat.eqb mbind res_mbind res_bind].
    by rewrite (house_loop_above_dummy x 0 cusps _ _ seqZ_1_12_range).
Qed.

(** The theorem at twelve houses that start at 10°, with a thirteenth
    entry in front. *)
Lemma house_reads_what_it_needs_witness :
  house_for_longitude [10; 40; 70; 100; 130; 160; 190; 220; 250; 280; 310; 340]%Q
    (5 + inject_Z 2 * 360)
  = house_for_longitude [10; 40; 70; 100; 130; 160; 190; 220; 250; 280; 310; 340]%Q 5
  ∧ house_for_longitude
      [77; 10; 40; 70; 100; 130; 160; 190; 220; 250; 280; 310; 340]%Q 5
    = house_for_longitude [10; 40; 70; 100; 130; 160; 190; 220; 250; 280; 310; 340]%Q 5.
Proof.
  split.
  - apply (proj1 (house_reads_what_it_needs _ 0 5 2)).
  - by apply (proj2 (house_reads_what_it_needs _ 77 5 0)).
Defined.

Lemma house_start_in_range (cusps : list Q) (i : Z) :
  (0 <= house_start cusps i)%Q ∧ (house_start cusps i < 360)%Q.
Proof. unfold house_start. apply fmod_bounds. lra. Qed.

(** In a ring, a house that is not empty holds its own cusp, and no other
    house does. *)
Lemma cusp_in_own_house (cusps ring : list Q) (i : Z) :
  _normalize_cusps cusps = Ok ring →
  is_ring ring →
  1 ≤ i ≤ 12 →
  ¬ (house_start ring i == house_end ring i)%Q →
  house_for_longitude cusps (house_start ring i) = Ok i.
Proof.
  intros Hnorm Hring Hi Hne.
  unfold house_for_longitude. rewrite Hnorm. cbn [mbind res_mbind res_bind].
  destruct (house_start_in_range ring i) as [S0 S1].
  assert (Hlon : (Py.fmod (house_start ring i) 360 == house_start ring i)%Q)
    by (by apply fmod_small).
  rewrite (house_loop_proper _ _ _ _ Hlon).
  assert (Hc : count (house_contains ring (house_start ring i)) (seqZ 1 12) = 1).
  { rewrite houses_holding_count. exact Hring. }
  destruct (house_loop_unique ring _ (seqZ 1 12) Hc) as (_ & _ & Huniq).
  f_equal. symmetry. apply Huniq; [apply elem_of_seqZ; lia|].
  apply house_contains_iff. unfold in_house_arc.
  destruct (Qle_bool (house_start ring i) (house_end ring i)) eqn:E.
  - apply Qle_bool_iff in E. split; [lra|].
    destruct (Qlt_le_dec (house_start ring i) (house_end ring i)) as [?|Hge]; [done|].
    exfalso. apply Hne. by apply Qle_antisym.
  - left. lra.
Qed.

(** ** astrology_engine.py: the dasha timeline, beyond the birth instant *)





















(** ** nakshatra_table.py *)

Lemma syllable_table_complete :
  forallb (λ nak, forallb (λ pada,
             match get_recommended_syllables nak pada with
             | [s] => negb (String.eqb s "")
             | _ => false
             end) [1; 2; 3; 4]) NAKSHATRA_LIST = true.
Proof. by vm_compute. Qed.

Lemma syllable_table_keys :
  (fst <$> map_to_list NAKSHATRA_PADA_SYLLABLES) ≡ₚ NAKSHATRA_LIST.
Proof.
  unfold NAKSHATRA_PADA_SYLLABLES. rewrite map_to_list_to_map.
  - done.
  - apply (bool_decide_unpack _). by vm_compute.
Qed.

Lemma pada_table_outside (s1 s2 s3 s4 : string) (pada : Z) :
  pada < 1 ∨ 4 < pada → pada_table s1 s2 s3 s4 !! pada = None.
Proof.
  intros H. unfold pada_table. apply not_elem_of_list_to_map_1. cbn.
  rewrite !elem_of_cons, elem_of_nil. lia.
Qed.

(** X10.  The syllable table is complete and never raises: each pada,
    1 to 4, of each of the 27 nakshatras has exactly one recommended
    syllable, and any other nakshatra name or pada number gets the empty
    list. *)
Theorem every_pada_has_one_syllable (nakshatra : string) (pada : Z) :
  (nakshatra ∈ NAKSHATRA_LIST → 1 ≤ pada ≤ 4 →
   ∃ s, get_recommended_syllables nakshatra pada = [s] ∧ s ≠ "")
  ∧ (nakshatra ∉ NAKSHATRA_LIST ∨ pada < 1 ∨ 4 < pada →
     get_recommended_syllables nakshatra pada = []).
Proof.
  split.
  - intros Hnak Hpada.
    pose proof syllable_table_complete as Hall.
    rewrite forallb_forall in Hall. specialize (Hall nakshatra).
    rewrite <- list_elem_of_In in Hall. specialize (Hall Hnak).
    rewrite forallb_forall in Hall. specialize (Hall pada).
    rewrite <- list_elem_of_In in Hall.
    assert (Hin : pada ∈ [1; 2; 3; 4]).
    { change [1; 2; 3; 4] with (seqZ 1 4). apply elem_of_seqZ. lia. }
    specialize (Hall Hin).
    destruct (get_recommended_syllables nakshatra pada) as [|s [|? ?]]; try done.
    exists s. split; [done|]. intros ->. done.
  - intros H. unfold get_recommended_syllables.
    destruct (NAKSHATRA_PADA_SYLLABLES !! nakshatra) as [table|] eqn:E;
      cbn [default]; [|by rewrite lookup_empty].
    destruct H as [Hnot|Hpada].
    + exfalso. apply Hnot. rewrite <- syllable_table_keys.
      apply list_elem_of_fmap. exists (nakshatra, table). split; [done|].
      by apply elem_of_map_to_list.
    + assert (Hall : map_Forall (λ _ t, ∃ s1 s2 s3 s4, t = pada_table s1 s2 s3 s4)
                       NAKSHATRA_PADA_SYLLABLES).
      { unfold NAKSHATRA_PADA_SYLLABLES. apply map_Forall_to_list.
        rewrite map_to_list_to_map; [|apply (bool_decide_unpack _); by vm_compute].
        repeat (constructor; [cbn; by eexists _, _, _, _|]).
        constructor. }
      destruct (Hall _ _ E) as (s1 & s2 & s3 & s4 & ->).
      unfold id. by rewrite pada_table_outside.
Qed.

(** The theorem at the third pada of Pushya, and at a fifth pada. *)
Lemma every_pada_has_one_syllable_witness :
  (∃ s, get_recommended_syllables "Pushya" 3 = [s] ∧ s ≠ "")
  ∧ get_recommended_syllables "Pushya" 5 = [].
Proof.
  split.
  - apply (proj1 (every_pada_has_one_syllable "Pushya" 3)).
    + apply (bool_decide_unpack _). by vm_compute.
    + lia.
  - apply (proj2 (every_pada_has_one_syllable "Pushya" 5)). right. lia.
Defined.

(** ** astrology_engine.py: the chart *)

Lemma normalize_cusps_length (cusps ring : list Q) :
  _normalize_cusps cusps = Ok ring → length ring = 13%nat.
Proof.
  unfold _normalize_cusps.
  destruct (Nat.eqb_spec (length cusps) 13) as [E|_]; [by intros [= <-]|].
  destruct (Nat.eqb_spec (length cusps) 12) as [E|_]; [|done].
  intros [= <-]. cbn. by rewrite E.
Qed.













Lemma ring_getitem (ring : list Q) (i : Z) :
  length ring = 13%nat → 0 ≤ i ≤ 12 →
  list_getitem ring i = Ok (cusp ring i) ∧ cusp ring i ∈ ring.
Proof.
  intros Hlen Hi.
  destruct (list_getitem_Ok ring i) as (c & Hc & Hlook); [lia|].
  unfold cusp. rewrite Hlook. split; [done|]. by eapply list_elem_of_lookup_2.
Qed.


Lemma get_lagna_spec (lib : Libraries) (jd lat lon : Q) (ring : list Q) :
  _normalize_cusps (swe_houses lib jd lat lon).1 = Ok ring →
  ∃ sign, get_lagna lib jd lat lon = Ok sign
          ∧ get_rashi (Py.fmod (cusp ring 0) 360) = Ok sign.
Proof.
  intros Hnorm. unfold get_lagna. rewrite Hnorm. cbn [mbind res_mbind res_bind].
  destruct (ring_getitem ring 0 (normalize_cusps_length _ _ Hnorm)) as [Hget _]; [lia|].
  rewrite Hget. cbn [mbind res_mbind res_bind].
  destruct (fmod_bounds (cusp ring 0) 360) as [A0 A1]; [lra|].
  destruct (get_rashi_elem _ A0 A1) as (sign & Hsign & _). by exists sign.
Qed.

Lemma get_eighth_house_rashi_spec (lib : Libraries) (jd lat lon : Q) (ring : list Q) :
  _normalize_cusps (swe_houses lib jd lat lon).1 = Ok ring →
  ∃ sign, get_eighth_house_rashi lib jd lat lon = Ok sign
          ∧ get_rashi (house_start ring 7) = Ok sign.
Proof.
  intros Hnorm. unfold get_eighth_house_rashi.
  destruct (swe_houses lib jd lat lon) as [cusps ascmc]. cbn [fst] in Hnorm.
  rewrite Hnorm. cbn [mbind res_mbind res_bind].
  destruct (ring_getitem ring 7 (normalize_cusps_length _ _ Hnorm)) as [Hget _]; [lia|].
  rewrite Hget. cbn [mbind res_mbind res_bind]. fold (house_start ring 7).
  destruct (house_start_in_range ring 7) as [A0 A1].
  destruct (get_rashi_elem _ A0 A1) as (sign & Hsign & _). by exists sign.
Qed.











(** ** astrology_engine.py: the factor set *)




Lemma get_lagna_twelve (lib : Libraries) (jd_ut lat lon : Q) :
  length (swe_houses lib jd_ut lat lon).1 = 12%nat →
  get_lagna lib jd_ut lat lon = Ok "Mesha (Aries)".
Proof.
  intros E. unfold get_lagna, _normalize_cusps. rewrite E.
  cbn [Nat.eqb mbind res_mbind res_bind].
  change (list_getitem (0%Q :: (swe_houses lib jd_ut lat lon).1) 0) with (Ok 0%Q).
  cbn [mbind res_mbind res_bind]. by vm_compute.
Qed.

Ltac bind_inv H :=
  repeat (apply bind_Ok in H as (? & ? & H);
          repeat match type of H with
                 | context [let '(_, _) := ?x in _] => destruct x
                 end).

(** A factor set that [calculate_astrology] returned holds the lagna that
    [get_lagna] found. *)
Lemma calculate_astrology_lagna (lib : Libraries) (date_of_birth time_of_birth : string)
    (place_of_birth : place_or_location) (astro : Astro) :
  Astrology.calculate_astrology lib date_of_birth time_of_birth place_of_birth
  = Ok astro →
  ∃ jd lat lon, get_lagna lib jd lat lon = Ok (lagna astro).
Proof.
  intros H. unfold Astrology.calculate_astrology in H. bind_inv H.
  injection H as <-. cbn [lagna]. eauto.
Qed.

Lemma demo_place_resolves :
  _normalize_location demo_libraries demo_place = Ok (19.076, 72.8777, "Asia/Kolkata")%Q.
Proof. reflexivity. Qed.

Lemma demo_time_parses :
  _parse_local_datetime demo_libraries "2025-06-01" "06:00" "Asia/Kolkata" = Ok 0%Q.
Proof. reflexivity. Qed.





(** X15.  [get_lagna] does not read the ascendant.  It unpacks the cusps
    where the ascendant is meant, so it returns the sign of entry 0 of the
    normalised cusp list: for twelve cusps from the ephemeris that entry
    is the filler 0.0 and the lagna is Mesha (Aries), whatever the
    instant and the place. *)
Theorem lagna_of_twelve_cusps_is_mesha (lib : Libraries) (jd_ut lat lon : Q)
    (ring : list Q) :
  _normalize_cusps (swe_houses lib jd_ut lat lon).1 = Ok ring →
  (∃ sign, get_lagna lib jd_ut lat lon = Ok sign
           ∧ get_rashi (Py.fmod (cusp ring 0) 360) = Ok sign)
  ∧ (length (swe_houses lib jd_ut lat lon).1 = 12%nat →
     get_lagna lib jd_ut lat lon = Ok "Mesha (Aries)").
Proof.
  intros Hnorm. split; [by apply get_lagna_spec|apply get_lagna_twelve].
Qed.

(** The theorem for the example ephemeris, whose ascendant at 100° is in
    Karka. *)
Lemma lagna_of_twelve_cusps_is_mesha_witness :
  (∃ sign, get_lagna demo_libraries 0 19.076 72.8777 = Ok sign
           ∧ get_rashi (Py.fmod (cusp (0%Q :: demo_cusps) 0) 360) = Ok sign)
  ∧ (length (swe_houses demo_libraries 0 19.076 72.8777).1 = 12%nat →
     get_lagna demo_libraries 0 19.076 72.8777 = Ok "Mesha (Aries)").
Proof.
  apply lagna_of_twelve_cusps_is_mesha. reflexivity.
Defined.

(** X16.  [get_eighth_house_rashi] reads entry 7 of the 1-indexed cusp
    list: it returns the sign of the cusp that opens house 7, a longitude
    that [house_for_longitude] puts in house 7 when the cusps form a ring
    and the house is not empty. *)
Theorem eighth_house_rashi_reads_cusp_seven (lib : Libraries) (jd_ut lat lon : Q)
    (ring : list Q) :
  _normalize_cusps (swe_houses lib jd_ut lat lon).1 = Ok ring →
  ∃ sign,
    get_eighth_house_rashi lib jd_ut lat lon = Ok sign
    ∧ get_rashi (house_start ring 7) = Ok sign
    ∧ (is_ring ring → ¬ (house_start ring 7 == house_end ring 7)%Q →
       house_for_longitude ring (house_start ring 7) = Ok 7).
Proof.
  intros Hnorm.
  destruct (get_eighth_house_rashi_spec lib jd_ut lat lon ring Hnorm)
    as (sign & H1 & H2).
  exists sign. split; [done|]. split; [done|].
  intros Hring Hne. apply cusp_in_own_house; try done; try lia.
  unfold _normalize_cusps. by rewrite (normalize_cusps_length _ _ Hnorm).
Qed.

(** The theorem for the example ephemeris: the cusp at 190° opens house
    7, in Tula, and house 8 starts at 220°, in Vrischika. *)
Lemma eighth_house_rashi_reads_cusp_seven_witness :
  ∃ sign,
    get_eighth_house_rashi demo_libraries 0 19.076 72.8777 = Ok sign
    ∧ get_rashi (house_start (0%Q :: demo_cusps) 7) = Ok sign
    ∧ (is_ring (0%Q :: demo_cusps) →
       ¬ (house_start (0%Q :: demo_cusps) 7 == house_end (0%Q :: demo_cusps) 7)%Q →
       house_for_longitude (0%Q :: demo_cusps) (house_start (0%Q :: demo_cusps) 7)
       = Ok 7).
Proof.
  apply eighth_house_rashi_reads_cusp_seven. reflexivity.
Defined.

(** ** muhurat_engine.py: what the suggestions are *)

Lemma slice_to_elem {A} (l : list A) (n : Z) (x : A) : x ∈ Py.slice_to l n → x ∈ l.
Proof. unfold Py.slice_to. destruct (n <? 0); apply subseteq_take. Qed.

(** What a call that returned has done. *)
Lemma suggest_muhurats_inv (svc : Services) (start_date end_date : Py.date)
    (place : LocationInput) (max_results : Z) (qualities_text : option string)
    (qualities_selected qualities_priority : option (list string))
    (parents : option (Parents LocationInput)) (s : Suggestion) :
  suggest_muhurats svc start_date end_date place max_results qualities_text
    qualities_selected qualities_priority parents = Ok s →
  ∃ p strict_filters min_score rs,
    prepare svc start_date end_date place max_results qualities_text
      qualities_selected qualities_priority parents = Ok p
    ∧ _run_scan svc p strict_filters min_score = Ok rs
    ∧ ((strict_filters = true ∧ min_score = 10 ∧ rs ≠ []
        ∧ scans_run s = [(true, 10)])
       ∨ (strict_filters = false ∧ min_score = 0
          ∧ _run_scan svc p true 10 = Ok []
          ∧ scans_run s = [(true, 10); (false, 0)]))
    ∧ ranked s = Py.slice_to (sort_results rs) max_results
    ∧ traits_used (meta s) = sp_traits p
    ∧ weights_used (meta s) = sp_weights p.
Proof.
  unfold suggest_muhurats. intros Hrun.
  apply bind_Ok in Hrun as (p & Hp & Hrun).
  apply bind_Ok in Hrun as ([results scans] & Htwo & Hrun).
  injection Hrun as <-. cbn [ranked scans_run meta traits_used weights_used].
  unfold two_phase in Htwo.
  apply bind_Ok in Htwo as (strict & Hstrict & Htwo).
  destruct strict as [|m strict].
  - apply bind_Ok in Htwo as (relaxed & Hrelaxed & Htwo).
    injection Htwo as <- <-. exists p, false, 0, relaxed.
    split; [done|]. split; [done|]. split; [by right|done].
  - injection Htwo as <- <-. exists p, true, 10, (m :: strict).
    split; [done|]. split; [done|]. split; [by left|done].
Qed.

(** What the loop body has found out about a slot that it did not leave
    by a [continue] before the de-duplication. *)
Lemma evaluate_slot_Some (svc : Services) (p : scan_params) (strict_filters : bool)
    (min_score : Z) (d : Py.date) (hour minute : Z) (astro : Astro) (score : Z) :
  evaluate_slot svc p strict_filters min_score d hour minute = Ok (Some (astro, score)) →
  ∃ astro0,
    is_rahu_kalam (Py.mkdatetime d hour minute) = false
    ∧ calculate_astrology svc (Py.isoformat d) (time_str hour minute)
        (sp_resolved_location p) = Ok astro0
    ∧ astro = set_parents_dasha astro0 (parents_dasha astro)
    ∧ (strict_filters = true → sp_traits p ≠ [] →
       passes_trait_filters astro0 (sp_traits p) = true)
    ∧ compute_score astro (sp_parents_meta p) (sp_weights p) = Ok score
    ∧ min_score ≤ score.
Proof.
  unfold evaluate_slot. cbv zeta.
  destruct (is_rahu_kalam _) eqn:Hk; [done|]. intros H.
  apply bind_Ok in H as (astro0 & Hastro & H).
  apply bind_Ok in H as (pd & Hpd & H).
  exists astro0. split; [done|]. split; [done|].
  destruct (strict_filters && negb (bool_decide (sp_traits p = []))
            && negb (passes_trait_filters astro0 (sp_traits p))) eqn:Hf; [done|].
  apply bind_Ok in H as (sc & Hsc & H).
  destruct (Z.ltb_spec sc min_score) as [?|Hmin]; [done|].
  injection H as <- <-. cbn [parents_dasha set_parents_dasha].
  split; [done|]. split; [|done].
  intros -> Htraits. rewrite (bool_decide_eq_false_2 _ Htraits) in Hf.
  cbn in Hf. by apply negb_false_iff in Hf.
Qed.

Lemma dates_from_le (fuel : nat) (cur ed d : Py.date) :
  d ∈ dates_from fuel cur ed → Py.date_leb d ed = true.
Proof.
  revert cur. induction fuel as [|fuel IH]; intros cur; cbn [dates_from].
  - by intros H%elem_of_nil.
  - destruct (Py.date_leb cur ed) eqn:E; [|by intros H%elem_of_nil].
    intros [->|H]%elem_of_cons; [done|].
    destruct (Py.add_one_day cur); [by eapply IH|by apply elem_of_nil in H].
Qed.

Lemma date_leb_of_compare (a b : Py.date) :
  a = b ∨ Py.date_compare a b = Lt → Py.date_leb a b = true.
Proof.
  unfold Py.date_leb. intros [-> | ->]; [by rewrite date_compare_refl|done].
Qed.

Lemma score_of_slot_result (s : slot) (astro : Astro) (score : Z) :
  m_score (slot_result s astro score) = score.
Proof. done. Qed.

(** Every item of a scan is the result of a slot of the range that passed
    the tests of the loop body. *)
Lemma run_scan_items (svc : Services) (p : scan_params) (strict_filters : bool)
    (min_score : Z) (rs : list Muhurat) (m : Muhurat) :
  Py.valid_date (sp_sd p) →
  0 < sp_hard_cap p →
  _run_scan svc p strict_filters min_score = Ok rs →
  m ∈ rs →
  ∃ d hour minute astro astro0,
    m = make_result (Py.isoformat d) (time_str hour minute) astro (m_score m)
    ∧ Py.valid_date d
    ∧ Py.date_leb (sp_sd p) d = true ∧ Py.date_leb d (sp_ed p) = true
    ∧ (hour, minute) ∈ day_grid
    ∧ is_rahu_kalam (Py.mkdatetime d hour minute) = false
    ∧ calculate_astrology svc (Py.isoformat d) (time_str hour minute)
        (sp_resolved_location p) = Ok astro0
    ∧ astro = set_parents_dasha astro0 (parents_dasha astro)
    ∧ (strict_filters = true → sp_traits p ≠ [] →
       passes_trait_filters astro0 (sp_traits p) = true)
    ∧ compute_score astro (sp_parents_meta p) (sp_weights p) = Ok (m_score m)
    ∧ min_score ≤ m_score m.
Proof.
  intros Hvalid Hcap Hrun Hm.
  destruct (run_scan_from_slots svc p strict_filters min_score rs Hcap Hrun m Hm)
    as ([[d hour] minute] & astro & score & Hin & Hsurv & ->).
  apply scan_order_elem in Hin as [Hd Hgrid]. cbn [fst snd] in *.
  unfold survives in Hsurv. cbn [fst snd] in Hsurv.
  destruct (evaluate_slot_Some _ _ _ _ _ _ _ _ _ Hsurv)
    as (astro0 & Hk & Hcalc & Hset & Hfilter & Hscore & Hmin).
  destruct (dates_from_spec (scan_fuel p) (sp_sd p) (sp_ed p) Hvalid) as [Hall _].
  rewrite Forall_forall in Hall. destruct (Hall d Hd) as [Hdv Hdc].
  exists d, hour, minute, astro, astro0. rewrite score_of_slot_result.
  split; [done|]. split; [done|]. split.
  { apply date_leb_of_compare. destruct Hdc as [-> | ?]; [by left|by right]. }
  split; [by eapply dates_from_le|]. by repeat split.
Qed.

Lemma passes_trait_filters_set_parents_dasha (astro : Astro)
    (pd : option ParentsDasha) (traits : list string) :
  passes_trait_filters (set_parents_dasha astro pd) traits
  = passes_trait_filters astro traits.
Proof. by destruct astro. Qed.

(** X17.  Every suggestion that [suggest_muhurats] returns stands for a
    slot that passed the tests of the scan: its date is a date of the
    requested range, its time is on the half-hour grid of the daily
    window, the slot is not in Rahu Kalam, and its score is not negative.
    When only the strict scan ran, the score is at least 10 and the
    factor set passes the row filter of the primary trait. *)
Theorem suggestions_pass_the_tests (svc : Services) (start_date end_date : Py.date)
    (place : LocationInput) (max_results : Z) (qualities_text : option string)
    (qualities_selected qualities_priority : option (list string))
    (parents : option (Parents LocationInput)) (s : Suggestion) :
  Py.valid_date start_date →
  suggest_muhurats svc start_date end_date place max_results qualities_text
    qualities_selected qualities_priority parents = Ok s →
  ∀ m, m ∈ ranked s →
    ∃ d hour minute astro,
      m = make_result (Py.isoformat d) (time_str hour minute) astro (m_score m)
      ∧ Py.valid_date d
      ∧ Py.date_leb start_date d = true ∧ Py.date_leb d end_date = true
      ∧ (hour, minute) ∈ day_grid
      ∧ is_rahu_kalam (Py.mkdatetime d hour minute) = false
      ∧ 0 ≤ m_score m
      ∧ (scans_run s = [(true, 10)] →
         10 ≤ m_score m
         ∧ passes_trait_filters astro (traits_used (meta s)) = true).
Proof.
  intros Hvalid Hrun m Hm.
  destruct (suggest_muhurats_inv _ _ _ _ _ _ _ _ _ _ Hrun)
    as (p & strict & min_score & rs & Hprep & Hscan & Hcase & Hranked & Htraits & _).
  destruct (prepare_Ok _ _ _ _ _ _ _ _ _ _ Hprep) as (Hsd & Hed & Hcap & _).
  rewrite Hranked in Hm. apply slice_to_elem in Hm.
  rewrite sort_results_perm in Hm.
  destruct (run_scan_items svc p strict min_score rs m) as
    (d & hour & minute & astro & astro0 & Hres & Hdv & Hlo & Hhi & Hgrid & Hk
     & _ & Hset & Hfilter & _ & Hmin); [by rewrite Hsd|lia|done|done|].
  rewrite Hsd in Hlo. rewrite Hed in Hhi.
  exists d, hour, minute, astro.
  split; [done|]. split; [done|]. split; [done|]. split; [done|]. split; [done|].
  split; [done|].
  destruct Hcase as [(-> & -> & _ & Hscans)|(-> & -> & _ & Hscans)].
  - split; [lia|]. intros _. split; [done|]. rewrite Htraits.
    destruct (sp_traits p) as [|t ts] eqn:E; [done|].
    rewrite Hset, passes_trait_filters_set_parents_dasha. by apply Hfilter.
  - split; [done|]. by rewrite Hscans.
Qed.

(** The theorem for one day of scanning under a service whose factor set
    changes at noon. *)
Lemma suggestions_pass_the_tests_witness :
  ∃ s,
    suggest_muhurats demo_services demo_day demo_day demo_location 3 None None
      None None = Ok s
    ∧ ∀ m, m ∈ ranked s →
        ∃ d hour minute astro,
          m = make_result (Py.isoformat d) (time_str hour minute) astro (m_score m)
          ∧ Py.valid_date d
          ∧ Py.date_leb demo_day d = true ∧ Py.date_leb d demo_day = true
          ∧ (hour, minute) ∈ day_grid
          ∧ is_rahu_kalam (Py.mkdatetime d hour minute) = false
          ∧ 0 ≤ m_score m
          ∧ (scans_run s = [(true, 10)] →
             10 ≤ m_score m
             ∧ passes_trait_filters astro (traits_used (meta s)) = true).
Proof.
  assert (Hrun : ∃ s, suggest_muhurats demo_services demo_day demo_day demo_location
                        3 None None None None = Ok s).
  { eexists. vm_compute. reflexivity. }
  destruct Hrun as (s & Hs). exists s. split; [exact Hs|].
  exact (suggestions_pass_the_tests demo_services demo_day demo_day demo_location 3
           None None None None s demo_day_valid Hs).
Defined.

Lemma flat_loop_cap (svc : Services) (p : scan_params) (strict_filters : bool)
    (min_score : Z) (slots : list slot) (st st' : scan_state) :
  cap_reached p st = false →
  flat_loop svc p strict_filters min_score slots st = Ok st' →
  Z.of_nat (length (results st')) ≤ Z.max 1 (sp_hard_cap p).
Proof.
  revert st. induction slots as [|sl slots IH]; intros st Hcap; cbn [flat_loop].
  - intros [= <-]. unfold cap_reached in Hcap. apply Z.leb_gt in Hcap. lia.
  - intros H. apply bind_Ok in H as (r & Hr & H). destruct r as [st1|].
    + destruct (cap_reached p st1) eqn:E; [|by eapply IH].
      injection H as <-.
      apply scan_slot_Some in Hr as (astro & score & _ & _ & ->).
      cbn [results]. rewrite length_app. cbn [length].
      unfold cap_reached in Hcap. apply Z.leb_gt in Hcap. lia.
    + by eapply IH.
Qed.

(** X18.  The scan is bounded: [hard_cap] is 50 or five times
    [max_results], whichever is larger, and a scan never returns more
    candidates than that. *)
Theorem scan_stops_at_the_hard_cap (svc : Services) (start_date end_date : Py.date)
    (place : LocationInput) (max_results : Z) (qualities_text : option string)
    (qualities_selected qualities_priority : option (list string))
    (parents : option (Parents LocationInput)) (p : scan_params)
    (strict_filters : bool) (min_score : Z) (rs : list Muhurat) :
  prepare svc start_date end_date place max_results qualities_text
    qualities_selected qualities_priority parents = Ok p →
  _run_scan svc p strict_filters min_score = Ok rs →
  sp_hard_cap p = Z.max 50 (max_results * 5)
  ∧ Z.of_nat (length rs) ≤ sp_hard_cap p.
Proof.
  intros Hprep Hrun.
  assert (Hcap : sp_hard_cap p = Z.max 50 (max_results * 5)).
  { unfold prepare in Hprep.
    destruct (Py.date_ltb end_date start_date); [done|].
    destruct (365 <? Py.days_between start_date end_date); [done|].
    apply bind_Ok in Hprep as (loc & _ & Hprep).
    apply bind_Ok in Hprep as ([pr pm] & _ & Hprep). by injection Hprep as <-. }
  split; [done|].
  unfold _run_scan in Hrun. apply bind_Ok in Hrun as (st & Hloop & Hrun).
  injection Hrun as <-.
  assert (H0 : cap_reached p (mkScanState [] ∅) = false).
  { unfold cap_reached. cbn. apply Z.leb_gt. lia. }
  apply day_loop_flat in Hloop; [|done].
  pose proof (flat_loop_cap _ _ _ _ _ _ _ H0 Hloop). lia.
Qed.

(** The theorem for one day of scanning. *)
Lemma scan_stops_at_the_hard_cap_witness :
  ∃ rs,
    prepare demo_services demo_day demo_day demo_location 3 None None None None
    = Ok demo_params
    ∧ _run_scan demo_services demo_params false 0 = Ok rs
    ∧ sp_hard_cap demo_params = Z.max 50 (3 * 5)
    ∧ Z.of_nat (length rs) ≤ sp_hard_cap demo_params.
Proof.
  assert (Hp : prepare demo_services demo_day demo_day demo_location 3 None
                 None None None = Ok demo_params).
  { vm_compute. reflexivity. }
  assert (Hrs : ∃ rs, _run_scan demo_services demo_params false 0 = Ok rs).
  { eexists. vm_compute. reflexivity. }
  destruct Hrs as (rs & Hrs). exists rs.
  exact (conj Hp (conj Hrs
           (scan_stops_at_the_hard_cap demo_services demo_day demo_day demo_location 3
              None None None None demo_params false 0 rs Hp Hrs))).
Defined.

Lemma demo_services_answer : services_answer demo_services.
Proof.
  split; [|split; [|split]].
  - intros l. by eexists.
  - intros d t l. cbn. destruct (String.ltb t "12:00").
    + exists plain_astro. split; [reflexivity|].
      apply (bool_decide_unpack _). by vm_compute.
    + exists noon_astro. split; [reflexivity|].
      apply (bool_decide_unpack _). by vm_compute.
  - intros d t l u. by eexists.
  - intros d t l. by eexists.
Qed.

(** X19.  The date range is checked before anything else is done: an end
    before the start, or a range of more than 365 days, raises
    [ValueError] whatever the services would answer.  With services that
    answer and dates before the year 9999 these are the only failures:
    the call returns exactly when the end is not before the start and at
    most 365 days after it. *)
Theorem date_range_decides_success (svc : Services) (start_date end_date : Py.date)
    (place : LocationInput) (max_results : Z) (qualities_text : option string)
    (qualities_selected qualities_priority : option (list string))
    (parents : option (Parents LocationInput)) :
  (Py.date_ltb end_date start_date = true →
   suggest_muhurats svc start_date end_date place max_results qualities_text
     qualities_selected qualities_priority parents
   = Raise (ValueError "end_date must be >= start_date"))
  ∧ (Py.date_ltb end_date start_date = false →
     365 < Py.days_between start_date end_date →
     suggest_muhurats svc start_date end_date place max_results qualities_text
       qualities_selected qualities_priority parents
     = Raise (ValueError "date range must be <= 365 days"))
  ∧ (services_answer svc →
     Py.valid_date start_date → Py.valid_date end_date → Py.year end_date < 9999 →
     (is_Ok (suggest_muhurats svc start_date end_date place max_results
               qualities_text qualities_selected qualities_priority parents)
      ↔ Py.date_ltb end_date start_date = false
        ∧ Py.days_between start_date end_date ≤ 365)).
Proof.
  split; [|split].
  - intros E. unfold suggest_muhurats, prepare. by rewrite E.
  - intros E1 E2. unfold suggest_muhurats, prepare. rewrite E1.
    apply Z.ltb_lt in E2. by rewrite E2.
  - intros Hsvc Hsd Hed Hyear. split.
    + intros [s Hs]. unfold suggest_muhurats in Hs.
      apply bind_Ok in Hs as (p & Hp & _). unfold prepare in Hp.
      destruct (Py.date_ltb end_date start_date); [done|].
      destruct (Z.ltb_spec 365 (Py.days_between start_date end_date)); [done|].
      split; [done|lia].
    + intros [E1 E2]. by apply suggest_muhurats_returns.
Qed.

(** The theorem for a range that ends before it starts, for a range of
    366 days, and for one day. *)
Lemma date_range_decides_success_witness :
  suggest_muhurats demo_services (Py.mkdate 2025 6 2) demo_day demo_location 3
    None None None None
  = Raise (ValueError "end_date must be >= start_date")
  ∧ suggest_muhurats demo_services (Py.mkdate 2025 1 1) (Py.mkdate 2026 1 2)
      demo_location 3 None None None None
    = Raise (ValueError "date range must be <= 365 days")
  ∧ (is_Ok (suggest_muhurats demo_services demo_day demo_day demo_location 3
              None None None None)
     ↔ Py.date_ltb demo_day demo_day = false
       ∧ Py.days_between demo_day demo_day ≤ 365).
Proof.
  split; [|split].
  - apply (proj1 (date_range_decides_success demo_services (Py.mkdate 2025 6 2)
                    demo_day demo_location 3 None None None None)).
    reflexivity.
  - apply (proj1 (proj2 (date_range_decides_success demo_services (Py.mkdate 2025 1 1)
                           (Py.mkdate 2026 1 2) demo_location 3 None None None None))).
    + reflexivity.
    + by vm_compute.
  - apply (proj2 (proj2 (date_range_decides_success demo_services demo_day demo_day
                           demo_location 3 None None None None))).
    + exact demo_services_answer.
    + exact demo_day_valid.
    + exact demo_day_valid.
    + cbn. lia.
Defined.

(** ** muhurat_engine.py on top of astrology_engine.py *)

Lemma lagna_filter_rejects_mesha (astro : Astro) (t : string) (ts : list string) :
  t ∈ LAGNA_TRAITS → lagna astro = "Mesha (Aries)" →
  passes_trait_filters astro (t :: ts) = false.
Proof.
  intros Ht Hl. unfold LAGNA_TRAITS in Ht.
  assert (Hin : opt_in (astro_get astro "lagna") BENEFIC_LAGNAS = false).
  { change (astro_get astro "lagna") with (Some (lagna astro)). by rewrite Hl. }
  repeat (apply elem_of_cons in Ht as [-> | Ht]); [..|by apply elem_of_nil in Ht].
  - change (passes_trait_filters astro ("health" :: ts))
      with (opt_in (astro_get astro "lagna") BENEFIC_LAGNAS
            && (opt_in (astro_get astro "tithi") BENEFIC_TITHIS && true)).
    by rewrite Hin.
  - change (passes_trait_filters astro ("leadership" :: ts))
      with (opt_in (astro_get astro "lagna") BENEFIC_LAGNAS
            && (opt_in (astro_get astro "nakshatra") SHUBHA_NAKSHATRAS && true)).
    by rewrite Hin.
  - change (passes_trait_filters astro ("stability" :: ts))
      with (opt_in (astro_get astro "rashi") BENEFIC_RASHIS
            && (opt_in (astro_get astro "lagna") BENEFIC_LAGNAS && true)).
    rewrite Hin. apply andb_false_r.
  - change (passes_trait_filters astro ("courage" :: ts))
      with (opt_in (astro_get astro "lagna") BENEFIC_LAGNAS
            && (opt_in (astro_get astro "karana") BENEFIC_KARANAS && true)).
    by rewrite Hin.
Qed.

(** Under the astrology module every factor set of a slot has the lagna
    that [get_lagna] makes of twelve cusps. *)
Lemma engine_lagna (lib : Libraries) (llm : string → option (list string))
    (d t : string) (l : Location) (astro : Astro) :
  (∀ jd lat lon, length (swe_houses lib jd lat lon).1 = 12%nat) →
  calculate_astrology (engine_services lib llm) d t l = Ok astro →
  lagna astro = "Mesha (Aries)".
Proof.
  intros H12 H.
  change (Astrology.calculate_astrology lib d t (location_dict l) = Ok astro) in H.
  apply calculate_astrology_lagna in H as (jd & lat & lon & H).
  rewrite (get_lagna_twelve lib jd lat lon (H12 jd lat lon)) in H. congruence.
Qed.

(** X20.  The engine on top of the astrology module, with an ephemeris
    that returns twelve cusps: every suggestion carries the lagna Mesha
    (Aries), and when the primary trait is one whose row filter asks for a
    benefic lagna (health, leadership, stability, courage) the strict
    scan finds nothing, so the result always comes from the relaxed
    scan. *)
Theorem lagna_traits_always_fall_back (lib : Libraries)
    (llm : string → option (list string)) (start_date end_date : Py.date)
    (place : LocationInput) (max_results : Z) (qualities_text : option string)
    (qualities_selected qualities_priority : option (list string))
    (parents : option (Parents LocationInput)) (s : Suggestion) :
  (∀ jd lat lon, length (swe_houses lib jd lat lon).1 = 12%nat) →
  Py.valid_date start_date →
  suggest_muhurats (engine_services lib llm) start_date end_date place max_results
    qualities_text qualities_selected qualities_priority parents = Ok s →
  (∀ m, m ∈ ranked s → m_lagna m = "Mesha (Aries)")
  ∧ (∀ t ts, traits_used (meta s) = t :: ts → t ∈ LAGNA_TRAITS →
     scans_run s = [(true, 10); (false, 0)]).
Proof.
  intros H12 Hvalid Hrun.
  destruct (suggest_muhurats_inv _ _ _ _ _ _ _ _ _ _ Hrun)
    as (p & strict & min_score & rs & Hprep & Hscan & Hcase & Hranked & Htraits & _).
  destruct (prepare_Ok _ _ _ _ _ _ _ _ _ _ Hprep) as (Hsd & Hed & Hcap & _).
  assert (Hitem : ∀ m, m ∈ rs →
            ∃ astro0, lagna astro0 = "Mesha (Aries)" ∧ m_lagna m = lagna astro0
                      ∧ (strict = true → sp_traits p ≠ [] →
                         passes_trait_filters astro0 (sp_traits p) = true)).
  { intros m Hm.
    destruct (run_scan_items (engine_services lib llm) p strict min_score rs m) as
      (d & hour & minute & astro & astro0 & Hres & _ & _ & _ & _ & _
       & Hcalc & Hset & Hfilter & _); [by rewrite Hsd|lia|exact Hscan|exact Hm|].
    exists astro0. split; [by eapply engine_lagna|]. split; [|exact Hfilter].
    rewrite Hres, Hset. reflexivity. }
  split.
  - intros m Hm. rewrite Hranked in Hm. apply slice_to_elem in Hm.
    rewrite sort_results_perm in Hm.
    destruct (Hitem m Hm) as (astro0 & Hl & -> & _). exact Hl.
  - intros t ts Ht Hin.
    destruct Hcase as [(-> & _ & Hne & _)|(_ & _ & _ & Hscans)]; [|exact Hscans].
    destruct rs as [|m rs]; [done|].
    destruct (Hitem m) as (astro0 & Hl & _ & Hfilter); [by left|].
    rewrite <- Htraits, Ht in Hfilter.
    rewrite (lagna_filter_rejects_mesha astro0 t ts Hin Hl) in Hfilter.
    by specialize (Hfilter eq_refl ltac:(done)).
Qed.

(** The theorem for one day under the example ephemeris, with health as
    the only trait. *)
Lemma lagna_traits_always_fall_back_witness :
  ∃ s,
    suggest_muhurats (engine_services demo_libraries (λ _, None)) demo_day demo_day
      demo_location 3 None None (Some ["health"]) None = Ok s
    ∧ ranked s ≠ []
    ∧ traits_used (meta s) = ["health"]
    ∧ (∀ m, m ∈ ranked s → m_lagna m = "Mesha (Aries)")
    ∧ (∀ t ts, traits_used (meta s) = t :: ts → t ∈ LAGNA_TRAITS →
       scans_run s = [(true, 10); (false, 0)]).
Proof.
  assert (Hrun : ∃ s, suggest_muhurats (engine_services demo_libraries (λ _, None))
                        demo_day demo_day demo_location 3 None None (Some ["health"])
                        None = Ok s
                      ∧ ranked s ≠ [] ∧ traits_used (meta s) = ["health"]).
  { eexists. split; [vm_compute; reflexivity|]. split; [discriminate|reflexivity]. }
  destruct Hrun as (s & Hs & Hne & Ht). exists s.
  exact (conj Hs (conj Hne (conj Ht
           (lagna_traits_always_fall_back demo_libraries (λ _, None) demo_day demo_day
              demo_location 3 None None (Some ["health"]) None s
              (λ _ _ _, eq_refl) demo_day_valid Hs)))).
Defined.

(** ** kalam.py under the daily window *)

(** X21.  On every date exactly four of the 29 half-hour slots of the
    daily window are Rahu Kalam slots: the interval of the weekday is an
    hour and a half long, starts on a half hour and is closed at both
    ends. *)
Theorem rahu_kalam_takes_four_slots_a_day (d : Py.date) :
  length day_grid = 29%nat
  ∧ length (filter (λ hm, is_rahu_kalam (Py.mkdatetime d hm.1 hm.2) = true) day_grid)
    = 4%nat.
Proof.
  split; [reflexivity|].
  set (in_kalam (w : Z) (hm : Z * Z) :=
         match RAHU_KALAM !! w with
         | None => false
         | Some (start, end_) =>
             let hour := hour_of_day (Py.mkdatetime (Py.mkdate 1 1 1) hm.1 hm.2) in
             Qle_bool start hour && Qle_bool hour end_
         end).
  rewrite (list_filter_iff _ (λ hm, in_kalam (Py.weekday d) hm = true)) by done.
  unfold Py.weekday.
  pose proof (Z.mod_pos_bound (Py.toordinal d + 6) 7 ltac:(lia)) as Hb.
  set (w := (Py.toordinal d + 6) mod 7) in *.
  assert (Hw : w = 0 ∨ w = 1 ∨ w = 2 ∨ w = 3 ∨ w = 4 ∨ w = 5 ∨ w = 6) by lia.
  destruct Hw as [->|[->|[->|[->|[->|[->| ->]]]]]]; by vm_compute.
Qed.

(** ** scoring.py under the weight tables of qualities.py *)

Lemma list_index_from_absent (x : string) (l : list string) (i : Z) :
  x ∉ l → list_index_from x l i = Raise (ValueError "is not in list").
Proof.
  revert i. induction l as [|y l IH]; intros i Hx; cbn [list_index_from]; [done|].
  apply not_elem_of_cons in Hx as [Hne Hx].
  destruct (String.eqb_spec y x) as [->|_]; [done|]. by apply IH.
Qed.

(** X22.  Under the weight table of any trait list, [compute_score]
    returns exactly when the nakshatra of the factor set is one of the
    27; for any other nakshatra it raises the [ValueError] of
    [NAKSHATRA_LIST.index], whatever the other factors are. *)
Theorem compute_score_needs_a_known_nakshatra (astro : Astro)
    (parents_meta : option ParentsMeta) (traits : list string) :
  (is_Ok (compute_score astro parents_meta (get_weights_for_traits traits))
   ↔ nakshatra astro ∈ NAKSHATRA_LIST)
  ∧ (nakshatra astro ∉ NAKSHATRA_LIST →
     ∃ msg, compute_score astro parents_meta (get_weights_for_traits traits)
            = Raise (ValueError msg)).
Proof.
  pose proof (get_weights_for_traits_nonneg traits) as Hw.
  set (w := get_weights_for_traits traits) in *.
  assert (Hno : nakshatra astro ∉ NAKSHATRA_LIST →
                compute_score astro parents_meta w
                = Raise (ValueError "is not in list")).
  { intros Hnak. unfold compute_score, raw_score.
    destruct (base_terms_bounds astro w Hw) as (b & -> & _).
    cbn [mbind res_mbind res_bind]. unfold baby_start_dasha_lord, list_index.
    by rewrite list_index_from_absent. }
  split; [|intros Hnak; eexists; by apply Hno]. split.
  - intros [s Hs]. destruct (decide (nakshatra astro ∈ NAKSHATRA_LIST)); [done|].
    rewrite Hno in Hs by done. discriminate.
  - intros Hnak. by apply compute_score_returns.
Qed.

(** ** qualities.py: the personalised weights *)

(** The factors that [TRAIT_WEIGHT_OVERRIDES] names. *)
Lemma overrides_table_shape :
  map_Forall (λ _ ovs, Forall (λ kv : string * Z,
                                 kv.1 ∈ PERSONAL_FACTORS ∧ 0 ≤ kv.2) ovs)
    TRAIT_WEIGHT_OVERRIDES.
Proof. apply (bool_decide_unpack _). by vm_compute. Qed.

Lemma add_overrides_grows (w : gmap string Z) (overrides : list (string * Z))
    (multiplier : Z) (k : string) :
  0 ≤ multiplier →
  Forall (λ kv, kv.1 ∈ PERSONAL_FACTORS ∧ 0 ≤ kv.2) overrides →
  (k ∉ PERSONAL_FACTORS → add_overrides w overrides multiplier !! k = w !! k)
  ∧ (∀ v, w !! k = Some v →
       ∃ v', add_overrides w overrides multiplier !! k = Some v' ∧ v ≤ v').
Proof.
  intros Hm Hall. revert w. unfold add_overrides.
  induction Hall as [|[k0 v0] rest [Hk0 Hv0] Hall IH]; intros w.
  { split; [done|]. intros v Hv. exists v. split; [done|lia]. }
  cbn [foldl fst snd] in *. destruct (IH (<[k0:=default 0 (w !! k0) + v0 * multiplier]> w))
    as [IH1 IH2].
  split.
  - intros Hk. rewrite IH1 by done. apply lookup_insert_ne. by intros ->.
  - intros v Hv. destruct (decide (k0 = k)) as [->|Hne].
    + destruct (IH2 (v + v0 * multiplier)) as (v' & Hv' & Hle).
      { rewrite Hv. cbn. apply lookup_insert_eq. }
      exists v'. split; [done|nia].
    + apply IH2. by rewrite lookup_insert_ne.
Qed.

Lemma trait_loop_grows (w : gmap string Z) (idx : nat) (traits : list string)
    (k : string) :
  (k ∉ PERSONAL_FACTORS → trait_loop w idx traits !! k = w !! k)
  ∧ (∀ v, w !! k = Some v → ∃ v', trait_loop w idx traits !! k = Some v' ∧ v ≤ v').
Proof.
  revert w idx. induction traits as [|t rest IH]; intros w idx.
  { split; [done|]. intros v Hv. exists v. split; [done|lia]. }
  cbn [trait_loop].
  set (multiplier := default 0 (TRAIT_PRIORITY_MULTIPLIERS !! idx)).
  set (overrides := default [] (TRAIT_WEIGHT_OVERRIDES !! t)).
  assert (Hm : 0 ≤ multiplier).
  { assert (Hall : Forall (λ m, 0 ≤ m) TRAIT_PRIORITY_MULTIPLIERS)
      by (apply (bool_decide_unpack _); by vm_compute).
    unfold multiplier.
    destruct (TRAIT_PRIORITY_MULTIPLIERS !! idx) as [m|] eqn:E; [|done].
    rewrite Forall_forall in Hall. apply Hall. by eapply list_elem_of_lookup_2. }
  assert (Hov : Forall (λ kv : string * Z, kv.1 ∈ PERSONAL_FACTORS ∧ 0 ≤ kv.2)
                  overrides).
  { unfold overrides.
    destruct (TRAIT_WEIGHT_OVERRIDES !! t) as [ovs|] eqn:E; [|constructor].
    by apply (overrides_table_shape t ovs). }
  destruct (add_overrides_grows w overrides multiplier k Hm Hov) as [A1 A2].
  destruct (IH (add_overrides w overrides multiplier) (S idx)) as [IH1 IH2].
  split.
  - intros Hk. by rewrite IH1, A1.
  - intros v Hv. destruct (A2 v Hv) as (v1 & Hv1 & Hle1).
    destruct (IH2 v1 Hv1) as (v2 & Hv2 & Hle2). exists v2. split; [done|lia].
Qed.

(** X23.  Personalisation only adds to the weights of six factors (lagna,
    tithi, yoga, nakshatra, rashi, karana): for every trait list, known
    traits or not, every other entry of the table is the one of
    [WEIGHTS], no weight is lower than in [WEIGHTS], and so the
    normaliser [_max_possible] is at least 46, its value for
    [WEIGHTS]. *)
Theorem personal_weights_only_grow (traits : list string) :
  (∀ k, k ∉ PERSONAL_FACTORS → get_weights_for_traits traits !! k = WEIGHTS !! k)
  ∧ (∀ k v, WEIGHTS !! k = Some v →
       ∃ v', get_weights_for_traits traits !! k = Some v' ∧ v ≤ v')
  ∧ _max_possible WEIGHTS = Ok 46
  ∧ ∃ m, _max_possible (get_weights_for_traits traits) = Ok m ∧ 46 ≤ m.
Proof.
  assert (Hgrow : ∀ k v, WEIGHTS !! k = Some v →
            ∃ v', get_weights_for_traits traits !! k = Some v' ∧ v ≤ v').
  { intros k v Hv. by apply trait_loop_grows. }
  split; [intros k Hk; by apply trait_loop_grows|]. split; [exact Hgrow|].
  split; [reflexivity|].
  destruct (max_possible_Ok _ (get_weights_for_traits_nonneg traits)) as [-> _].
  eexists. split; [reflexivity|]. unfold max_sum, wt.
  repeat match goal with
  | |- context [get_weights_for_traits traits !! ?k] =>
      let v := eval vm_compute in (WEIGHTS !! k) in
      match v with
      | Some ?n =>
          let v' := fresh "v" in let E := fresh "E" in let H := fresh "H" in
          destruct (Hgrow k n eq_refl) as (v' & E & H); rewrite E; cbn [default]
      end
  end.
  unfold id. lia.
Qed.

(** ** qualities.py: [_unique_ordered] *)

Lemma truthy_Some (s : string) : truthy (Some s) = true ↔ s ≠ "".
Proof. by destruct s. Qed.

Lemma unique_ordered_loop_from_empty (items : list string) (seen : gset string)
    (out : list string) :
  _unique_ordered_loop items seen out
  = out ++ filter (λ y, y ∉ seen) (_unique_ordered_loop items ∅ []).
Proof.
  revert seen out. induction items as [|x l IH]; intros seen out.
  { cbn. by rewrite app_nil_r. }
  cbn [_unique_ordered_loop].
  destruct (truthy (Some x)) eqn:Ht; cbn [andb].
  - rewrite (bool_decide_eq_false_2 (x ∈ (∅ : gset string))) by set_solver.
    cbn [negb]. rewrite (IH ({[x]} ∪ ∅) ([] ++ [x])). cbn [app].
    rewrite filter_cons.
    destruct (decide (x ∈ seen)) as [Hin|Hout].
    + rewrite bool_decide_eq_true_2 by done. cbn [negb].
      rewrite decide_False by (intros H; by apply H).
      rewrite list_filter_filter, IH. f_equal.
      apply list_filter_iff. intros y. set_solver.
    + rewrite bool_decide_eq_false_2 by done. cbn [negb].
      rewrite decide_True by done.
      rewrite list_filter_filter, IH, <- app_assoc. cbn [app]. do 2 f_equal.
      apply list_filter_iff. intros y. set_solver.
  - apply IH.
Qed.

Lemma unique_ordered_cons (x : string) (l : list string) :
  _unique_ordered (x :: l)
  = if decide (x = "") then _unique_ordered l
    else x :: filter (λ y, y ≠ x) (_unique_ordered l).
Proof.
  unfold _unique_ordered. cbn [_unique_ordered_loop].
  destruct (decide (x = "")) as [->|Hne]; [done|].
  apply truthy_Some in Hne. rewrite Hne.
  rewrite (bool_decide_eq_false_2 (x ∈ (∅ : gset string))) by set_solver.
  cbn [andb negb]. rewrite unique_ordered_loop_from_empty. cbn [app]. f_equal.
  apply list_filter_iff. intros y. set_solver.
Qed.

Lemma unique_ordered_elem (items : list string) (x : string) :
  x ∈ _unique_ordered items ↔ x ∈ items ∧ x ≠ "".
Proof.
  induction items as [|y l IH]; [set_solver|].
  rewrite unique_ordered_cons. destruct (decide (y = "")) as [->|Hne].
  - rewrite IH. set_solver.
  - rewrite elem_of_cons, list_elem_of_filter, IH.
    destruct (decide (x = y)) as [->|]; set_solver.
Qed.

Lemma filter_all {A} (P : A → Prop) `{!∀ x, Decision (P x)} (l : list A) :
  Forall P l → filter P l = l.
Proof.
  induction 1 as [|x l Hx _ IH]; [done|].
  by rewrite filter_cons, decide_True, IH.
Qed.

Lemma unique_ordered_fixed (l : list string) :
  NoDup l → "" ∉ l → _unique_ordered l = l.
Proof.
  induction 1 as [|x l Hx Hnd IH]; intros Hempty; [done|].
  rewrite unique_ordered_cons, decide_False by set_solver.
  rewrite IH by set_solver. f_equal.
  apply filter_all, Forall_forall. intros y Hy ->. done.
Qed.

(** X24.  [_unique_ordered] keeps the first occurrence of every non-empty
    string, in the order of the input: a non-empty head is kept and its
    later copies are dropped, an empty head is dropped.  So the result
    has no duplicates, holds exactly the non-empty strings of the input,
    and is left as it is by a second pass. *)
Theorem unique_ordered_keeps_first_occurrences (items : list string) :
  (∀ x, _unique_ordered (x :: items)
        = if decide (x = "") then _unique_ordered items
          else x :: filter (λ y, y ≠ x) (_unique_ordered items))
  ∧ NoDup (_unique_ordered items)
  ∧ (∀ x, x ∈ _unique_ordered items ↔ x ∈ items ∧ x ≠ "")
  ∧ _unique_ordered (_unique_ordered items) = _unique_ordered items.
Proof.
  split; [intros x; apply unique_ordered_cons|].
  split; [apply unique_ordered_spec|].
  split; [intros x; apply unique_ordered_elem|].
  apply unique_ordered_fixed; [apply unique_ordered_spec|].
  rewrite unique_ordered_elem. by intros [_ ?].
Qed.

(** ** astrology_engine.py: locations *)

Lemma get_timezone_Ok (lib : Libraries) (lat lon : Q) (tz : string) :
  _get_timezone lib lat lon = Ok tz → tz ≠ "".
Proof.
  unfold _get_timezone. destruct (timezone_at lib lat lon) as [tz'|]; [|done].
  destruct (truthy (Some tz')) eqn:E; [|done].
  intros [= <-]. by apply truthy_Some.
Qed.

Lemma timezone_or_lookup_Ok (lib : Libraries) (tz0 : option string) (lat lon : Q)
    (tz : string) :
  timezone_or_lookup lib tz0 lat lon = Ok tz → tz ≠ "".
Proof.
  unfold timezone_or_lookup. destruct tz0 as [tz'|]; [|apply get_timezone_Ok].
  destruct (truthy (Some tz')) eqn:E; [|apply get_timezone_Ok].
  intros [= <-]. by apply truthy_Some.
Qed.

Lemma normalize_location_timezone (lib : Libraries) (l : place_or_location)
    (lat lon : Q) (tz : string) :
  _normalize_location lib l = Ok (lat, lon, tz) → tz ≠ "".
Proof.
  assert (Hf : ∀ loc, normalize_fields lib loc = Ok (lat, lon, tz) → tz ≠ "").
  { intros loc. unfold normalize_fields.
    destruct (lf_latitude loc) as [lat0|], (lf_longitude loc) as [lon0|];
      intros H;
      repeat (apply bind_Ok in H as (? & ? & H);
              repeat match type of H with
                     | context [let '(_, _) := ?x in _] => destruct x
                     end);
      injection H as <- <- <-; by eapply timezone_or_lookup_Ok. }
  destruct l as [place|loc|loc]; cbn [_normalize_location]; [|apply Hf..].
  intros H. apply bind_Ok in H as ([lat0 lon0] & _ & H).
  apply bind_Ok in H as (tz0 & Htz & H). injection H as <- <- <-.
  by eapply get_timezone_Ok.
Qed.

(** X25.  A location that [resolve_location] returned can be passed on
    in place of the request: its time zone is not empty, and resolving
    its dictionary again returns the same location without a call to the
    geocoder, the time zone finder or the language model, so under any
    libraries at all. *)
Theorem resolved_location_needs_no_lookup (lib : Libraries)
    (l : place_or_location) (loc : Location) :
  Astrology.resolve_location lib l = Ok loc →
  timezone loc ≠ ""
  ∧ ∀ lib', Astrology.resolve_location lib' (location_dict loc) = Ok loc.
Proof.
  unfold Astrology.resolve_location. intros H.
  apply bind_Ok in H as ([[lat lon] tz] & Hn & H). injection H as <-.
  apply normalize_location_timezone in Hn. cbn [timezone]. split; [done|].
  intros lib'. unfold location_dict, _normalize_location, normalize_fields.
  cbn [lf_latitude lf_longitude lf_timezone latitude longitude timezone].
  unfold timezone_or_lookup. apply truthy_Some in Hn. by rewrite Hn.
Qed.

(** The theorem for a place name that the geocoder finds at the second
    attempt. *)
Lemma resolved_location_needs_no_lookup_witness :
  Astrology.resolve_location slow_libraries (PlaceStr "Mumbai")
  = Ok (mkLocation 19.076 72.8777 "Asia/Kolkata")
  ∧ timezone (mkLocation 19.076 72.8777 "Asia/Kolkata") ≠ ""
  ∧ ∀ lib', Astrology.resolve_location lib'
              (location_dict (mkLocation 19.076 72.8777 "Asia/Kolkata"))
            = Ok (mkLocation 19.076 72.8777 "Asia/Kolkata").
Proof.
  assert (H : Astrology.resolve_location slow_libraries (PlaceStr "Mumbai")
              = Ok (mkLocation 19.076 72.8777 "Asia/Kolkata")) by reflexivity.
  exact (conj H (resolved_location_needs_no_lookup slow_libraries (PlaceStr "Mumbai")
                   (mkLocation 19.076 72.8777 "Asia/Kolkata") H)).
Defined.

(** X26.  The place string that is sent to the geocoder is empty exactly
    when all four of [place], [city], [state] and [country] are absent,
    empty or white space only. *)
Theorem composed_place_empty_iff_all_blank (loc : LocationFields) :
  _compose_place_string loc = ""
  ↔ blank (lf_place loc) ∧ blank (lf_city loc) ∧ blank (lf_state loc)
    ∧ blank (lf_country loc).
Proof.
  unfold _compose_place_string, blank.
  destruct (strip (or_else (lf_place loc) "")) as [|a place];
    destruct (strip (or_else (lf_city loc) "")) as [|b city];
    destruct (strip (or_else (lf_state loc) "")) as [|c state];
    destruct (strip (or_else (lf_country loc) "")) as [|e country];
    cbn; split; try done; intros H; decompose [and] H; done.
Qed.

(** ** The slot times of the engine in [_parse_local_datetime] *)

(** X27.  Every slot time that the scan passes on has five characters,
    so [_parse_local_datetime] completes it with zero seconds before it
    is read as an ISO time. *)
Theorem slot_times_get_seconds (lib : Libraries) (date tz_name : string)
    (hour minute : Z) :
  (hour, minute) ∈ day_grid →
  _parse_local_datetime lib date (time_str hour minute) tz_name
  = localize lib (date +:+ " " +:+ time_str hour minute +:+ ":00") tz_name.
Proof.
  intros Hin.
  assert (Hall : forallb (λ hm, String.eqb (strip (time_str hm.1 hm.2))
                                   (time_str hm.1 hm.2)
                                && (String.length (time_str hm.1 hm.2) =? 5)%nat)
                   day_grid = true) by (by vm_compute).
  rewrite forallb_forall in Hall. apply list_elem_of_In, Hall in Hin.
  cbn [fst snd] in Hin. apply andb_true_iff in Hin as [Hs Hl].
  apply String.eqb_eq in Hs. unfold _parse_local_datetime.
  rewrite Hs, Hl. reflexivity.
Qed.

(** The theorem for the slot at 06:00. *)
Lemma slot_times_get_seconds_witness :
  (6, 0) ∈ day_grid
  ∧ _parse_local_datetime demo_libraries "2025-06-01" (time_str 6 0) "Asia/Kolkata"
    = localize demo_libraries ("2025-06-01" +:+ " " +:+ time_str 6 0 +:+ ":00")
        "Asia/Kolkata".
Proof.
  assert (Hin : (6, 0) ∈ day_grid) by (apply (bool_decide_unpack _); by vm_compute).
  exact (conj Hin (slot_times_get_seconds demo_libraries "2025-06-01" "Asia/Kolkata"
                     6 0 Hin)).
Defined.

(** ** [calculate_parent_meta] beside [calculate_astrology] *)



(** ** muhurat_engine.py: the dates of a scan *)

Lemma toordinal_lt (a b : Py.date) :
  Py.valid_date a → Py.valid_date b →
  Py.date_compare a b = Lt → Py.toordinal a < Py.toordinal b.
Proof.
  destruct a as [y1 m1 d1], b as [y2 m2 d2].
  unfold Py.valid_date, Py.date_compare, Py.toordinal.
  cbn [Py.year Py.month Py.day].
  intros (Hy1 & Hm1 & Hd1) (Hy2 & Hm2 & Hd2).
  pose proof (days_before_month_bounds y1 m1 Hm1) as [B1 B1'].
  pose proof (days_before_month_bounds y2 m2 Hm2) as [B2 B2'].
  destruct (y1 ?= y2) eqn:Ey.
  - apply Z.compare_eq in Ey as ->.
    destruct (m1 ?= m2) eqn:Em.
    + apply Z.compare_eq in Em as ->. rewrite Z.compare_lt_iff. lia.
    + intros _. rewrite Z.compare_lt_iff in Em.
      pose proof (days_before_month_mono y2 (m1 + 1) m2 ltac:(lia) ltac:(lia) ltac:(lia)).
      rewrite days_before_next_month in H by lia. lia.
    + done.
  - intros _. rewrite Z.compare_lt_iff in Ey.
    pose proof (days_before_year_mono (y1 + 1) y2 ltac:(lia)).
    rewrite days_before_next_year in H. lia.
  - done.
Qed.

Lemma date_compare_gt (a b : Py.date) :
  Py.date_compare a b = Gt → Py.date_compare b a = Lt.
Proof.
  destruct a as [y1 m1 d1], b as [y2 m2 d2]. unfold Py.date_compare.
  cbn [Py.year Py.month Py.day].
  rewrite (Z.compare_antisym y1 y2), (Z.compare_antisym m1 m2),
    (Z.compare_antisym d1 d2).
  destruct (y1 ?= y2); cbn; try done.
  destruct (m1 ?= m2); cbn; try done.
  by destruct (d1 ?= d2).
Qed.

(** The generator yields the days from [cur] to [ed], one after the
    other. *)
Lemma dates_from_ordinals (fuel : nat) (cur ed : Py.date) :
  Py.valid_date cur → Py.valid_date ed → Py.year ed < 9999 →
  Py.toordinal cur ≤ Py.toordinal ed + 1 →
  Py.toordinal ed - Py.toordinal cur + 1 < Z.of_nat fuel →
  Py.toordinal <$> dates_from fuel cur ed
  = seqZ (Py.toordinal cur) (Py.toordinal ed - Py.toordinal cur + 1).
Proof.
  revert cur. induction fuel as [|fuel IH]; intros cur Hv Hve Hy Hle Hfuel; [lia|].
  cbn [dates_from]. destruct (Py.date_leb cur ed) eqn:E.
  - pose proof (toordinal_mono _ _ Hv Hve E) as Hord.
    destruct (add_one_day_returns cur) as (cur' & Hcur').
    { apply date_leb_year in E. lia. }
    rewrite Hcur'. destruct (add_one_day_spec _ _ Hv Hcur') as (Hv' & _ & Hnext).
    rewrite fmap_cons, IH by (try done; lia).
    rewrite (seqZ_cons (Py.toordinal cur)) by lia. f_equal.
    rewrite Hnext. f_equal; lia.
  - unfold Py.date_leb in E.
    destruct (Py.date_compare cur ed) eqn:Ec; try done.
    apply date_compare_gt, toordinal_lt in Ec; [|done..].
    rewrite seqZ_nil by lia. done.
Qed.

Lemma length_bind_const {A B} (f : A → list B) (l : list A) (n : nat) :
  (∀ x, length (f x) = n) → length (l ≫= f) = (n * length l)%nat.
Proof.
  intros Hf. induction l as [|x l IH]; cbn; [lia|].
  rewrite length_app, Hf, IH. lia.
Qed.

(** X29.  For a range of valid dates that ends before the year 9999, the
    dates a scan goes through are the days from the start to the end,
    both included and one after the other: one more than
    [(ed - sd).days] of them (none when the end is before the start), so
    the three loops reach 29 slots for each day of the range. *)
Theorem scan_dates_are_the_days_of_the_range (p : scan_params) :
  Py.valid_date (sp_sd p) → Py.valid_date (sp_ed p) → Py.year (sp_ed p) < 9999 →
  Py.toordinal <$> dates_from (scan_fuel p) (sp_sd p) (sp_ed p)
  = seqZ (Py.toordinal (sp_sd p)) (Py.days_between (sp_sd p) (sp_ed p) + 1)
  ∧ length (scan_order p)
    = (29 * Z.to_nat (Py.days_between (sp_sd p) (sp_ed p) + 1))%nat.
Proof.
  intros Hv Hve Hy.
  assert (Hdates : Py.toordinal <$> dates_from (scan_fuel p) (sp_sd p) (sp_ed p)
                   = seqZ (Py.toordinal (sp_sd p))
                       (Py.days_between (sp_sd p) (sp_ed p) + 1)).
  { unfold Py.days_between.
    destruct (Z.le_gt_cases (Py.toordinal (sp_sd p)) (Py.toordinal (sp_ed p) + 1))
      as [Hle|Hgt].
    - apply dates_from_ordinals; try done. unfold scan_fuel, Py.days_between. lia.
    - rewrite seqZ_nil by lia. unfold scan_fuel. cbn [dates_from].
      destruct (Py.date_leb (sp_sd p) (sp_ed p)) eqn:E; [|done].
      pose proof (toordinal_mono _ _ Hv Hve E). lia. }
  split; [exact Hdates|].
  unfold scan_order. rewrite (length_bind_const day_slots _ 29) by done.
  f_equal. rewrite <- (length_fmap Py.toordinal), Hdates. apply length_seqZ.
Qed.

(** The theorem for a range of one day. *)
Lemma scan_dates_are_the_days_of_the_range_witness :
  Py.toordinal <$> dates_from (scan_fuel demo_params) (sp_sd demo_params)
                     (sp_ed demo_params)
  = seqZ (Py.toordinal (sp_sd demo_params))
      (Py.days_between (sp_sd demo_params) (sp_ed demo_params) + 1)
  ∧ length (scan_order demo_params)
    = (29 * Z.to_nat (Py.days_between (sp_sd demo_params) (sp_ed demo_params) + 1))%nat.
Proof.
  apply scan_dates_are_the_days_of_the_range.
  - exact demo_day_valid.
  - exact demo_day_valid.
  - by vm_compute.
Defined.

(** ** astrology_engine.py: the geocoder *)

Lemma geocode_loop_Ok (lib : Libraries) (place : string) (timeouts : list Z)
    (last_err : string) (lat lon : Q) :
  geocode_loop lib place timeouts last_err = Ok (lat, lon)
  ↔ ∃ before t after,
      timeouts = before ++ t :: after
      ∧ Forall (λ t', gave_up (geocode lib place t')) before
      ∧ geocode lib place t = GeoFound lat lon.
Proof.
  revert last_err. induction timeouts as [|t0 ts IH]; intros last_err.
  { cbn. split; [done|]. intros (before & t & after & H & _). by destruct before. }
  cbn [geocode_loop].
  assert (Hskip : gave_up (geocode lib place t0) →
            ((∃ before t after,
                ts = before ++ t :: after
                ∧ Forall (λ t', gave_up (geocode lib place t')) before
                ∧ geocode lib place t = GeoFound lat lon)
             ↔ ∃ before t after,
                 t0 :: ts = before ++ t :: after
                 ∧ Forall (λ t', gave_up (geocode lib place t')) before
                 ∧ geocode lib place t = GeoFound lat lon)).
  { intros Hg. split.
    - intros (before & t & after & -> & Hall & Hfound).
      exists (t0 :: before), t, after. split; [done|]. split; [by constructor|done].
    - intros (before & t & after & Heq & Hall & Hfound).
      destruct before as [|t1 before]; cbn in Heq; injection Heq as -> ->.
      + rewrite Hfound in Hg. by destruct Hg as [?|[? ?]].
      + apply Forall_cons in Hall as [_ Hall]. by exists before, t, after. }
  destruct (geocode lib place t0) as [a b| |msg|e] eqn:E.
  - split.
    + intros [= -> ->]. exists [], t0, ts. split; [done|]. split; [constructor|done].
    + intros (before & t & after & Heq & Hall & Hfound).
      destruct before as [|t1 before]; cbn in Heq; injection Heq as -> ->.
      * rewrite E in Hfound. by injection Hfound as -> ->.
      * apply Forall_cons in Hall as [Hg _]. rewrite E in Hg.
        by destruct Hg as [?|[? ?]].
  - rewrite IH. apply Hskip. by left.
  - rewrite IH. apply Hskip. right. by eexists.
  - split; [done|].
    intros (before & t & after & Heq & Hall & Hfound).
    destruct before as [|t1 before]; cbn in Heq; injection Heq as -> ->.
    + by rewrite E in Hfound.
    + apply Forall_cons in Hall as [Hg _]. rewrite E in Hg.
      by destruct Hg as [?|[? ?]].
Qed.

Lemma geocode_loop_gives_up (lib : Libraries) (place : string) (timeouts : list Z)
    (last_err : string) :
  Forall (λ t, gave_up (geocode lib place t)) timeouts →
  ∃ msg, geocode_loop lib place timeouts last_err = Raise (ValueError msg).
Proof.
  intros Hall. revert last_err.
  induction Hall as [|t ts Hg _ IH]; intros last_err; cbn [geocode_loop].
  - by eexists.
  - destruct Hg as [->|[msg ->]]; apply IH.
Qed.

(** X30.  [_geocode_place] asks the geocoder at most three times, with
    the time-outs 3, 6 and 10 seconds, and returns the coordinates of the
    first attempt that finds the place: the attempts before it found
    nothing, timed out or found the service unavailable.  When all three
    attempts end so, it raises [ValueError], and for a place that is
    simply not found the message reports the error [None]. *)
Theorem geocode_returns_first_success (lib : Libraries) (place : string) :
  (∀ lat lon,
     _geocode_place lib place = Ok (lat, lon)
     ↔ ∃ before t after,
         [3; 6; 10] = before ++ t :: after
         ∧ Forall (λ t', gave_up (geocode lib place t')) before
         ∧ geocode lib place t = GeoFound lat lon)
  ∧ (Forall (λ t, gave_up (geocode lib place t)) [3; 6; 10] →
     ∃ msg, _geocode_place lib place = Raise (ValueError msg))
  ∧ ((∀ t, geocode lib place t = GeoNone) →
     _geocode_place lib place
     = Raise (ValueError ("Could not geocode place '" +:+ place
                          +:+ "'. Error: None"))).
Proof.
  split; [intros lat lon; apply geocode_loop_Ok|].
  split; [apply geocode_loop_gives_up|].
  intros Hnone. unfold _geocode_place. cbn [geocode_loop]. by rewrite !Hnone.
Qed.

